(** * requirementslib.models.setup_info: a shallow embedding

    The development follows [src/requirementslib/models/setup_info.py].
    Every Python function that the verified properties talk about is
    given as a Rocq function of the same name.  Exceptions are explicit
    (type [result]), the mutable aggregate [SetupInfo] is threaded through
    a small state-and-exception monad, and everything that lives outside
    the module (the file system, [importlib], [configparser],
    [pkg_resources], [distlib], the PEP 517 build, the executed setup
    script) is an explicit environment record that the functions read. *)

From stdpp Require Import base option list strings gmap sets countable.
From Stdlib Require Import Ascii String.

Open Scope string_scope.
Set Warnings "-clear-no-such-hyp".

(** ** Python preliminaries *)

Module Py.

(** The exception classes that the module can let escape. *)
Inductive exn : Type :=
  | ValueError | TypeError | KeyError | AttributeError | ImportError
  | UnboundLocalError | NameError | OSError | InvalidRequirement
  | ConfigError | BuildBackendError | ScriptError | SystemExit.

(** [except Exception] catches everything but the exit request. *)
Definition is_Exception (e : exn) : bool :=
  match e with SystemExit => false | _ => true end.

Inductive result (A : Type) : Type :=
  | Ok (a : A)
  | Raise (e : exn).
Arguments Ok {A} a.
Arguments Raise {A} e.

Definition bind {A B} (r : result A) (k : A → result B) : result B :=
  match r with Ok a => k a | Raise e => Raise e end.

Definition is_ok {A} (r : result A) : bool :=
  match r with Ok _ => true | Raise _ => false end.

(** [for x in xs: ys.append(f(x))] where [f] may raise. *)
Fixpoint mapM {A B} (f : A → result B) (xs : list A) : result (list B) :=
  match xs with
  | [] => Ok []
  | x :: xs' => bind (f x) (λ y, bind (mapM f xs') (λ ys, Ok (y :: ys)))
  end.

(** *** [str] methods used by the module *)

(** [str.isspace] on the ASCII range: TAB..CR, FS..US and SPACE. *)
Definition isspace (c : ascii) : bool :=
  let n := nat_of_ascii c in
  ((9 <=? n)%nat && (n <=? 13)%nat) || ((28 <=? n)%nat && (n <=? 32)%nat).

Fixpoint lstrip (s : string) : string :=
  match s with
  | String c s' => if isspace c then lstrip s' else s
  | EmptyString => EmptyString
  end.

Fixpoint rstrip (s : string) : string :=
  match s with
  | String c s' =>
      match rstrip s' with
      | EmptyString => if isspace c then EmptyString else String c EmptyString
      | t => String c t
      end
  | EmptyString => EmptyString
  end.

Definition strip (s : string) : string := rstrip (lstrip s).

Definition startswith (s p : string) : bool := String.prefix p s.

Fixpoint endswith_aux (fuel : nat) (s p : string) : bool :=
  if String.eqb s p then true
  else match fuel, s with
       | S k, String _ s' => endswith_aux k s' p
       | _, _ => false
       end.
Definition endswith (s p : string) : bool :=
  endswith_aux (String.length s) s p.

(** [s.split(sep)] for a non-empty separator: [skip] counts the characters
    of a separator that has just been recognised and is being consumed,
    [cur] is the piece being collected, in reverse. *)
Fixpoint split_go (sep : string) (skip : nat) (cur : string) (s : string)
  : list string :=
  match s with
  | EmptyString => [String.rev cur]
  | String c s' =>
      match skip with
      | S k => split_go sep k cur s'
      | O =>
          if String.prefix sep s
          then String.rev cur :: split_go sep (String.length sep - 1) EmptyString s'
          else split_go sep 0 (String c cur) s'
      end
  end.
Definition split (s sep : string) : list string := split_go sep 0 EmptyString s.

(** [sub in s] *)
Fixpoint contains (s sub : string) : bool :=
  String.prefix sub s
  || match s with String _ s' => contains s' sub | EmptyString => false end.

(** [s.rpartition(c)] for a one-character separator. *)
Fixpoint rpartition_go (c : ascii) (s : string) : option (string * string) :=
  match s with
  | EmptyString => None
  | String d s' =>
      match rpartition_go c s' with
      | Some (h, t) => Some (String d h, t)
      | None => if Ascii.eqb c d then Some (EmptyString, s') else None
      end
  end.
Definition rpartition (s : string) (c : ascii) : string * string * string :=
  match rpartition_go c s with
  | Some (h, t) => (h, String c EmptyString, t)
  | None => (EmptyString, EmptyString, s)
  end.

Definition lower_ascii (c : ascii) : ascii :=
  let n := nat_of_ascii c in
  if (65 <=? n)%nat && (n <=? 90)%nat then ascii_of_nat (n + 32) else c.
Fixpoint lower (s : string) : string :=
  match s with
  | String c s' => String (lower_ascii c) (lower s')
  | EmptyString => EmptyString
  end.

(** The last character of a string. *)
Fixpoint last_char (s : string) : option ascii :=
  match s with
  | EmptyString => None
  | String c s' => Some (default c (last_char s'))
  end.

(** [a, b = xs]: unpacking into exactly two targets. *)
Definition unpack2 {A} (xs : list A) : result (A * A) :=
  match xs with
  | [a; b] => Ok (a, b)
  | _ => Raise ValueError
  end.

(** [next(iter(xs), None)] *)
Definition first {A} (xs : list A) : option A := head xs.

End Py.
Import Py.

(** ** [parse_special_directives] *)

Module Directives.

(** What [os.path.exists] and [open(path).read()] see. *)
Inductive fs_node : Type :=
  | RegularFile (contents : string)
  | Directory.

(** What [getattr(module, attribute)] returns: a string, or another object
    together with its [str()] rendering. *)
Inductive attr_value : Type :=
  | AStr (s : string)
  | AObj (rendered : string).

Record env : Type := {
  fs : string → option fs_node;
  (** importable modules: module name to attribute table *)
  modules : string → option (string → option attr_value);
}.

Definition os_path_exists (E : env) (path : string) : bool :=
  bool_decide (is_Some (fs E path)).

Definition open_read (E : env) (path : string) : result string :=
  match fs E path with
  | Some (RegularFile c) => Ok c
  | Some Directory => Raise OSError
  | None => Raise OSError
  end.

(** [importlib.import_module(name)] without a package anchor. *)
Definition import_module (E : env) (name : string)
  : result (string → option attr_value) :=
  if startswith name "." then Raise TypeError
  else if String.eqb name "" then Raise ValueError
  else match modules E name with
       | Some m => Ok m
       | None => Raise ImportError
       end.

Definition getattr (m : string → option attr_value) (a : string)
  : result attr_value :=
  match m a with
  | Some v => Ok v
  | None => Raise AttributeError
  end.

(** [_, path = setup_entry.split("file:"); path = path.strip()] *)
Definition file_target (setup_entry : string) : result string :=
  bind (unpack2 (split setup_entry "file:")) (λ '(_, path), Ok (strip path)).

(** [_, resource = setup_entry.split("attr:")], stripped and, when it has
    a dot, partitioned at the last one.  When there is no dot the local
    [attribute] is never bound. *)
Definition attr_target (setup_entry : string)
  : result (string * option string) :=
  bind (unpack2 (split setup_entry "attr:")) (λ '(_, resource),
    let resource := strip resource in
    if contains resource "."
    then let '(resource, _, attribute) := rpartition resource "." in
         Ok (resource, Some attribute)
    else Ok (resource, None)).

Definition parse_special_directives (E : env) (setup_entry : string)
  : result string :=
  let rv := setup_entry in
  if startswith setup_entry "file:" then
    bind (file_target setup_entry) (λ path,
      if os_path_exists E path
      then open_read E path
      else Ok rv)
  else if startswith setup_entry "attr:" then
    bind (attr_target setup_entry) (λ '(resource, attribute),
      bind (import_module E resource) (λ module,
        match attribute with
        | None => Raise UnboundLocalError
        | Some attribute =>
            bind (getattr module attribute) (λ rv,
              match rv with
              | AStr s => Ok s
              | AObj rendered => Ok rendered
              end)
        end))
  else Ok rv.

(** An [attr:] directive resolves when its module imports and carries the
    attribute; a [file:] directive resolves when its path exists. *)
Definition attr_resolves (E : env) (setup_entry : string) : bool :=
  match attr_target setup_entry with
  | Ok (resource, Some attribute) =>
      match import_module E resource with
      | Ok m => bool_decide (is_Some (m attribute))
      | Raise _ => false
      end
  | _ => false
  end.

Definition file_resolves (E : env) (setup_entry : string) : bool :=
  match file_target setup_entry with
  | Ok path => os_path_exists E path
  | Raise _ => false
  end.

(** A directive whose target is not there. *)
Definition unresolved (E : env) (setup_entry : string) : bool :=
  if startswith setup_entry "file:" then negb (file_resolves E setup_entry)
  else if startswith setup_entry "attr:" then negb (attr_resolves E setup_entry)
  else false.

(** A package directory with nothing to read and nothing to import. *)
Definition bare : env := {| fs := λ _, None; modules := λ _, None |}.

(** One module [pkg] with a string attribute [__version__]. *)
Definition with_pkg : env :=
  {| fs := λ p, if String.eqb p "VERSION" then Some (RegularFile "1.0
") else None;
     modules := λ m,
       if String.eqb m "pkg"
       then Some (λ a, if String.eqb a "__version__" then Some (AStr "1.0")
                       else None)
       else None |}.

End Directives.

(** ** Requirement records: [BaseRequirement] and [Extra] *)

Module Records.

(** One element of [Marker._markers]: a comparison triple (the [.value] of
    its left operand, operator and right operand), a boolean connective
    (the strings "and" / "or"), or a parenthesised group, which this
    module never looks into. *)
Inductive marker_elem : Type :=
  | MTuple (lhs op rhs : string)
  | MConn (word : string)
  | MGroup (inner : string).

(** A parsed requirement object ([packaging] / [pkg_resources]), as far as
    this module reads it: the attributes [key], [name], [project_name]
    (absent ones are [None], as with [getattr(req, _, None)]), the
    [marker] with its [_markers] list, and what [str(req)] prints. *)
Record Requirement : Type := {
  req_key : option string;
  req_name : option string;
  req_project_name : option string;
  req_marker : option (list marker_elem);
  req_text : string;
}.

(** What the code calls [req]: a parsed requirement object or, when a
    distribution lists its requirements as text, a plain string. *)
Inductive req_obj : Type :=
  | RParsed (r : Requirement)
  | RStr (s : string).

(** [@attr.s(frozen=True) class BaseRequirement]: fields [name] and
    [requirement], compared field-wise.  Requirement objects are compared
    here by all they hold; [pkg_resources] compares them more coarsely and
    [from_req] is memoised, so a Python set can identify members that are
    kept apart here. *)
Record BaseRequirement : Type := {
  name : option string;
  requirement : req_obj;
}.

Global Instance marker_elem_eq_dec : EqDecision marker_elem.
Proof. solve_decision. Defined.
Global Instance Requirement_eq_dec : EqDecision Requirement.
Proof. solve_decision. Defined.
Global Instance req_obj_eq_dec : EqDecision req_obj.
Proof. solve_decision. Defined.
Global Instance BaseRequirement_eq_dec : EqDecision BaseRequirement.
Proof. solve_decision. Defined.

Definition marker_elem_enc (m : marker_elem)
  : string * string * string + (string + string) :=
  match m with
  | MTuple l o r => inl (l, o, r)
  | MConn w => inr (inl w)
  | MGroup g => inr (inr g)
  end.
Definition marker_elem_dec (x : string * string * string + (string + string))
  : marker_elem :=
  match x with
  | inl (l, o, r) => MTuple l o r
  | inr (inl w) => MConn w
  | inr (inr g) => MGroup g
  end.
Lemma marker_elem_dec_enc m : marker_elem_dec (marker_elem_enc m) = m.
Proof. by destruct m. Qed.
Global Instance marker_elem_countable : Countable marker_elem :=
  inj_countable' marker_elem_enc marker_elem_dec marker_elem_dec_enc.

Definition Requirement_enc (r : Requirement) :=
  (req_key r, req_name r, req_project_name r, req_marker r, req_text r).
Definition Requirement_dec
  (x : option string * option string * option string
       * option (list marker_elem) * string) : Requirement :=
  let '(k, n, p, m, t) := x in
  {| req_key := k; req_name := n; req_project_name := p;
     req_marker := m; req_text := t |}.
Lemma Requirement_dec_enc r : Requirement_dec (Requirement_enc r) = r.
Proof. by destruct r. Qed.
Global Instance Requirement_countable : Countable Requirement :=
  inj_countable' Requirement_enc Requirement_dec Requirement_dec_enc.

Definition req_obj_enc (r : req_obj) : Requirement + string :=
  match r with RParsed q => inl q | RStr s => inr s end.
Definition req_obj_dec (x : Requirement + string) : req_obj :=
  match x with inl q => RParsed q | inr s => RStr s end.
Lemma req_obj_dec_enc r : req_obj_dec (req_obj_enc r) = r.
Proof. by destruct r. Qed.
Global Instance req_obj_countable : Countable req_obj :=
  inj_countable' req_obj_enc req_obj_dec req_obj_dec_enc.

Definition BaseRequirement_enc (b : BaseRequirement) := (name b, requirement b).
Definition BaseRequirement_dec (x : option string * req_obj) : BaseRequirement :=
  {| name := x.1; requirement := x.2 |}.
Lemma BaseRequirement_dec_enc b :
  BaseRequirement_dec (BaseRequirement_enc b) = b.
Proof. by destruct b. Qed.
Global Instance BaseRequirement_countable : Countable BaseRequirement :=
  inj_countable' BaseRequirement_enc BaseRequirement_dec BaseRequirement_dec_enc.

(** [getattr(req, attr, None)] on either kind of [req]; a [str] has none
    of the three attributes. *)
Definition getattr_key (req : req_obj) : option string :=
  match req with RParsed r => req_key r | RStr _ => None end.
Definition getattr_name (req : req_obj) : option string :=
  match req with RParsed r => req_name r | RStr _ => None end.
Definition getattr_project_name (req : req_obj) : option string :=
  match req with RParsed r => req_project_name r | RStr _ => None end.

(** [BaseRequirement.from_req] *)
Definition from_req (req : req_obj) : BaseRequirement :=
  let key := getattr_key req in
  let name := getattr_name req in
  let project_name := getattr_project_name req in
  let name := if key is Some k then Some k else name in
  let name := if name is None then project_name else name in
  {| name := name; requirement := req |}.

(** [BaseRequirement.from_string]; [init_requirement] comes from
    [requirementslib.models.utils] and raises on a line that is not a
    requirement. *)
Definition from_string (init_requirement : string → result Requirement)
    (line : string) : result BaseRequirement :=
  let line := strip line in
  bind (init_requirement line) (λ req, Ok (from_req (RParsed req))).

(** [@attr.s(frozen=True) class Extra] *)
Record Extra : Type := {
  extra_name : option string;
  requirements : gset BaseRequirement;
}.

(** A Python value as far as [Extra.add] produces one: [set.add] mutates
    its receiver and returns [None]. *)
Inductive py_value : Type :=
  | PNone
  | PSet (s : gset BaseRequirement).

(** [s.add(x)]: the receiver after the call, and the value of the call. *)
Definition set_add (s : gset BaseRequirement) (x : BaseRequirement)
  : gset BaseRequirement * py_value :=
  ({[x]} ∪ s, PNone).

(** [frozenset(v)]: [None] is not iterable. *)
Definition frozenset (v : py_value) : result (gset BaseRequirement) :=
  match v with
  | PSet s => Ok s
  | PNone => Raise TypeError
  end.

(** [attr.evolve(self, requirements=...)] *)
Definition evolve_requirements (self : Extra) (rs : gset BaseRequirement)
  : Extra :=
  {| extra_name := extra_name self; requirements := rs |}.

(** [Extra.add]: the temporary [set(self.requirements)] receives the
    element, but what is handed to [frozenset] is the value of the
    [.add(req)] call. *)
Definition add (self : Extra) (req : BaseRequirement) : result Extra :=
  if bool_decide (req ∉ requirements self) then
    let tmp := requirements self in
    let '(_, returned) := set_add tmp req in
    bind (frozenset returned) (λ fs, Ok (evolve_requirements self fs))
  else Ok self.

End Records.

(** ** [parse_setup_cfg] *)

Module SetupCfg.
Import Records.

(** The state of a [configparser.ConfigParser] after [read]: the options
    of the file's own [DEFAULT] section, and its named sections in file
    order.  Option names are stored as [optionxform] leaves them and values
    are stored as [get] returns them (after interpolation). *)
Record config : Type := {
  file_defaults : list (string * string);
  file_sections : list (string * list (string * string));
}.

Record env : Type := {
  os_env : Directives.env;
  (** [parser.read(path)] on an existing path; a malformed file raises *)
  read : string → result config;
  (** [requirementslib.models.utils.init_requirement] *)
  init_requirement : string → result Requirement;
}.

(** [ConfigParser(default_opts)]: the two top-level keys of [default_opts]
    become options of the [DEFAULT] section; the file's own defaults are
    read on top of them. *)
Definition default_opts : list (string * string) :=
  [("metadata", "{'name': '', 'version': ''}");
   ("options",  "{'install_requires': '', 'python_requires': '', 'build_requires': '', 'setup_requires': '', 'extras': ''}")].

Definition lookup_assoc {V} (k : string) (l : list (string * V)) : option V :=
  snd <$> List.find (λ kv, String.eqb kv.1 k) l.

Definition parser_defaults (c : config) : list (string * string) :=
  (List.filter (λ kv, negb (bool_decide (is_Some (lookup_assoc kv.1 (file_defaults c)))))
               default_opts
   ++ file_defaults c)%list.

(** [parser.has_option(section, option)] for a section other than
    [DEFAULT] *)
Definition has_option (c : config) (section option : string) : bool :=
  match lookup_assoc section (file_sections c) with
  | None => false
  | Some opts =>
      bool_decide (is_Some (lookup_assoc option opts))
      || bool_decide (is_Some (lookup_assoc option (parser_defaults c)))
  end.

(** [parser.get(section, option)] *)
Definition get (c : config) (section option : string) : result string :=
  match lookup_assoc section (file_sections c) with
  | None => Raise ConfigError
  | Some opts =>
      match lookup_assoc option opts with
      | Some v => Ok v
      | None =>
          match lookup_assoc option (parser_defaults c) with
          | Some v => Ok v
          | None => Raise ConfigError
          end
      end
  end.

(** [parser.sections()] *)
Definition sections (c : config) : list string := fst <$> file_sections c.

(** [parser.options(section)]: the section's own options, then the
    defaults it does not shadow. *)
Definition options (c : config) (section : string) : result (list string) :=
  match lookup_assoc section (file_sections c) with
  | None => Raise ConfigError
  | Some opts =>
      Ok ((fst <$> opts)
          ++ List.filter (λ k, negb (bool_decide (is_Some (lookup_assoc k opts))))
                         (fst <$> parser_defaults c))%list
  end.

(** The values stored in the [results] dictionary. *)
Inductive value : Type :=
  | VStr (s : string)
  | VReqs (rs : gset BaseRequirement)
  | VExtras (es : list (string * list BaseRequirement)).

Definition nonempty (s : string) : bool := negb (String.eqb s "").

(** The comprehension over [parser.get("options", "install_requires")] *)
Definition install_requires_of (E : env) (text : string)
  : result (gset BaseRequirement) :=
  bind (mapM (from_string (init_requirement E))
             (List.filter nonempty (split text "
")))
       (λ reqs, Ok (list_to_set reqs)).

(** The body of [for extra_name in section_list] *)
Definition section_extras_of (E : env) (section_contents : string)
  : result (list BaseRequirement) :=
  mapM (from_string (init_requirement E))
       (List.filter (λ extra_name, nonempty extra_name && negb (startswith extra_name "#"))
                    (split section_contents "
")).

(** The loop [for section in extras_require_section] *)
Fixpoint extras_loop (E : env) (c : config) (names : list string)
    (extras : list (string * list BaseRequirement))
  : result (list (string * list BaseRequirement)) :=
  match names with
  | [] => Ok extras
  | section :: rest =>
      if String.eqb section "options" || String.eqb section "metadata"
      then extras_loop E c rest extras
      else
        bind (get c "options.extras_require" section) (λ section_contents,
        bind (section_extras_of E section_contents) (λ section_extras,
          extras_loop E c rest
            (match section_extras with
             | [] => extras
             | _ => (extras ++ [(section, section_extras)])%list
             end)))
  end.

(** [results[key] = parse_special_directives(parser.get(section, option))]
    guarded by [parser.has_option(section, option)] *)
Definition store_directive (E : env) (c : config) (section option key : string)
    (results : gmap string value) : result (gmap string value) :=
  if has_option c section option then
    bind (get c section option) (λ raw,
    bind (Directives.parse_special_directives (os_env E) raw) (λ v,
      Ok (<[key := VStr v]> results)))
  else Ok results.

(** [parse_setup_cfg(setup_cfg_path)]; the result [None] is the implicit
    return when the path does not exist. *)
Definition parse_setup_cfg (E : env) (setup_cfg_path : string)
  : result (option (gmap string value)) :=
  if Directives.os_path_exists (os_env E) setup_cfg_path then
    bind (read E setup_cfg_path) (λ parser,
    let results : gmap string value := ∅ in
    bind (store_directive E parser "metadata" "name" "name" results) (λ results,
    bind (store_directive E parser "metadata" "version" "version" results) (λ results,
    bind (if has_option parser "options" "install_requires"
          then bind (get parser "options" "install_requires") (install_requires_of E)
          else Ok ∅) (λ install_requires,
    let results := <["install_requires" := VReqs install_requires]> results in
    bind (store_directive E parser "options" "python_requires" "python_requires" results)
         (λ results,
    bind (if has_option parser "options" "build_requires"
          then bind (get parser "options" "build_requires") (λ v,
                 Ok (<["build_requires" := VStr v]> results))
          else Ok results) (λ results,
    bind (if bool_decide ("options.extras_require" ∈ sections parser)
          then bind (options parser "options.extras_require") (λ names,
                 extras_loop E parser names [])
          else Ok []) (λ extras,
    let results := <["extras_require" := VExtras extras]> results in
    Ok (Some results))))))))
  else Ok None.

(** A requirement parser for examples: a line is the name of the project,
    optionally followed by a version specifier that starts at the first
    [<], [>], [=], [!] or [~]; an empty line is rejected. *)
Fixpoint name_part (s : string) : string :=
  match s with
  | String c s' =>
      if bool_decide (c ∈ ["<"; ">"; "="; "!"; "~"; ";"; " "]%char)
      then EmptyString else String c (name_part s')
  | EmptyString => EmptyString
  end.
Definition toy_requirement (line : string) : result Requirement :=
  if String.eqb line "" then Raise InvalidRequirement
  else Ok {| req_key := None; req_name := Some (name_part line);
             req_project_name := None; req_marker := None;
             req_text := line |}.

Definition exists_only (path : string) : Directives.env :=
  {| Directives.fs := λ p, if String.eqb p path
                           then Some (Directives.RegularFile "")
                           else None;
     Directives.modules := λ _, None |}.

(** A [setup.cfg] that is present but declares nothing. *)
Definition empty_cfg_env : env :=
  {| os_env := exists_only "setup.cfg";
     read := λ _, Ok {| file_defaults := []; file_sections := [] |};
     init_requirement := toy_requirement |}.

(** The configuration of the spec's example:
    [install_requires = foo\nbar>=1.0] and [extras_require.test = pytest]. *)
Definition sample_cfg_env : env :=
  {| os_env := exists_only "setup.cfg";
     read := λ _, Ok {| file_defaults := [];
       file_sections :=
         [("metadata", [("name", "pkgA")]);
          ("options", [("install_requires", "
foo
bar>=1.0")]);
          ("options.extras_require", [("test", "pytest")])] |};
     init_requirement := toy_requirement |}.

(** What [parse_setup_cfg] returns for it. *)
Definition sample_results : gmap string value :=
  match parse_setup_cfg sample_cfg_env "setup.cfg" with
  | Ok (Some results) => results
  | _ => ∅
  end.

End SetupCfg.

(** ** The metadata extractors *)

Module Extractors.
Import Records.

(** *** [os.path] on POSIX *)

Fixpoint all_char (c : ascii) (s : string) : bool :=
  match s with
  | String d s' => Ascii.eqb c d && all_char c s'
  | EmptyString => true
  end.

Fixpoint rstrip_char (c : ascii) (s : string) : string :=
  match s with
  | String d s' =>
      match rstrip_char c s' with
      | EmptyString => if Ascii.eqb c d then EmptyString else String d EmptyString
      | t => String d t
      end
  | EmptyString => EmptyString
  end.

(** [os.path.splitext] of a name without separators: the extension starts
    at the last dot, unless only dots precede it. *)
Definition splitext (p : string) : string * string :=
  match rpartition_go "." p with
  | Some (h, t) => if all_char "." h then (p, "") else (h, String "." t)
  | None => (p, "")
  end.

Definition dirname (p : string) : string :=
  match rpartition_go "/" p with
  | Some (h, _) =>
      let head := h ++ "/" in
      if all_char "/" head then head else rstrip_char "/" head
  | None => ""
  end.

Definition path_join (a b : string) : string :=
  if startswith b "/" then b
  else if String.eqb a "" || endswith a "/" then a ++ b
  else a ++ "/" ++ b.

(** *** Directory trees and [iter_metadata] *)

#[warnings="-register-all"]
Inductive node : Type :=
  | File (fname : string)
  | Dir (dname : string) (children : list node).

(** An [os.DirEntry] that [is_dir()]. *)
Record DirEntry : Type := {
  entry_name : string;
  entry_path : string;
}.

(** A distribution object of [pkg_resources]: [project_name], [version],
    [requires()] and [_build_dep_map()], of which the last two may raise; the dependency map is keyed by [None],
    by an extra name, or by a [":<marker>"] / ["<extra>:<marker>"] section
    title. *)
Record Distribution : Type := {
  dist_project_name : option string;
  dist_version : option string;
  dist_requires : result (list Requirement);
  dist_build_dep_map : result (list (option string * list Requirement));
}.

(** The metadata object of a [distlib] wheel. *)
Record WheelMetadata : Type := {
  wm_name : option string;
  wm_version : option string;
  (** [getattr(metadata, "extras", [])] *)
  wm_extras : list string;
  (** [getattr(metadata, "run_requires", [])] *)
  wm_run_requires : list string;
}.

Record env : Type := {
  (** [scandir(path)]: the entries below a directory *)
  scandir : string → result (list node);
  (** [requirementslib.models.utils.get_name_variants] *)
  get_name_variants : string → list string;
  abspath : string → string;
  (** [pkg_resources.find_distributions(base_dir)] *)
  find_distributions : string → list Distribution;
  (** [pkg_resources.distributions_from_metadata(egg_info_path)] *)
  distributions_from_metadata : string → list Distribution;
  (** [pkg_resources.Requirement.parse] *)
  Requirement_parse : string → result Requirement;
  (** [distlib.wheel.Wheel(path).metadata]; [None] when the constructor
      raises *)
  Wheel : string → option WheelMetadata;
  (** [requirementslib.models.utils.init_requirement] *)
  init_requirement : string → result Requirement;
  (** [requirementslib.models.utils.strip_extras_markers_from_requirement] *)
  strip_extras_markers_from_requirement : Requirement → Requirement;
}.

(** The two lists one pass of [for entry in scandir(path)] builds: the
    entries it yields and [non_matching_dirs]. *)
Definition yields (pkg_variants : option (list string)) (metadata_type : string)
    (n : node) : bool :=
  match n with
  | File _ => false
  | Dir nm _ =>
      let '(entry_name, ext) := splitext nm in
      endswith ext metadata_type
      && match pkg_variants with
         | None => true
         | Some vs => bool_decide (lower entry_name ∈ vs)
         end
  end.

Definition non_matching (metadata_type : string) (n : node) : bool :=
  match n with
  | File _ => false
  | Dir nm _ =>
      let '(_, ext) := splitext nm in
      negb (endswith ext metadata_type) && negb (endswith nm metadata_type)
  end.

Definition node_name (n : node) : string :=
  match n with File nm => nm | Dir nm _ => nm end.

Definition entry_of (path : string) (n : node) : DirEntry :=
  {| entry_name := node_name n; entry_path := path_join path (node_name n) |}.

(** [iter_metadata] on the listing of [path]; the recursive calls scan the
    non-matching directories in the order they were met. *)
Fixpoint iter_node (pkg_variants : option (list string)) (metadata_type : string)
    (path : string) (n : node) {struct n} : list DirEntry :=
  match n with
  | File _ => []
  | Dir _ entries =>
      (entry_of path <$> List.filter (yields pkg_variants metadata_type) entries)
      ++ (fix below (es : list node) : list DirEntry :=
            match es with
            | [] => []
            | e :: es' =>
                (if non_matching metadata_type e
                 then iter_node pkg_variants metadata_type
                                (path_join path (node_name e)) e
                 else [])
                ++ below es'
            end) entries
  end%list.

Definition iter_metadata (E : env) (path : string) (pkg_name : option string)
    (metadata_type : string) : result (list DirEntry) :=
  let pkg_variants := get_name_variants E <$> pkg_name in
  bind (scandir E path) (λ entries,
    Ok (iter_node pkg_variants metadata_type path (Dir path entries))).

(** [if pkg_name:] *)
Definition truthy_name (pkg_name : option string) : bool :=
  match pkg_name with
  | Some s => negb (String.eqb s "")
  | None => false
  end.

(** [find_egginfo] / [find_distinfo]: what the generator yields. *)
Definition find_metadata (E : env) (target : string) (pkg_name : option string)
    (metadata_type : string) : result (list (option DirEntry)) :=
  bind (iter_metadata E target pkg_name metadata_type) (λ dirs,
    if truthy_name pkg_name then Ok [first dirs] else Ok (Some <$> dirs)).

Definition find_egginfo (E : env) (target : string) (pkg_name : option string) :=
  find_metadata E target pkg_name "egg-info".
Definition find_distinfo (E : env) (target : string) (pkg_name : option string) :=
  find_metadata E target pkg_name "dist-info".

(** *** Metadata dictionaries *)

(** The values of the dictionaries the extractors return. *)
Inductive mvalue : Type :=
  | MNone
  | MText (s : string)
  | MList (l : list req_obj)
  | MDict (d : list (string * list req_obj)).

Definition opt_text (o : option string) : mvalue :=
  match o with Some s => MText s | None => MNone end.

(** A [dict] with insertion order, as a list without repeated keys. *)
Definition dict_get {V} (k : string) (d : list (string * V)) : option V :=
  snd <$> List.find (λ kv, String.eqb kv.1 k) d.

Fixpoint dict_set {V} (k : string) (v : V) (d : list (string * V))
  : list (string * V) :=
  match d with
  | [] => [(k, v)]
  | (k', v') :: d' =>
      if String.eqb k' k then (k, v) :: d' else (k', v') :: dict_set k v d'
  end.

(** [ensure_reqs]: empty strings are skipped, other strings are parsed,
    requirement objects are kept. *)
Fixpoint ensure_reqs (E : env) (reqs : list req_obj) : result (list Requirement) :=
  match reqs with
  | [] => Ok []
  | RStr "" :: rest => ensure_reqs E rest
  | RStr s :: rest =>
      bind (Requirement_parse E s) (λ r,
      bind (ensure_reqs E rest) (λ rs, Ok (r :: rs)))
  | RParsed r :: rest => bind (ensure_reqs E rest) (λ rs, Ok (r :: rs))
  end.

(** [get_extra_name_from_marker] *)
Fixpoint first_extra (markers : list marker_elem) : option string :=
  match markers with
  | [] => None
  | MTuple lhs _ rhs :: rest =>
      if String.eqb lhs "extra" then Some rhs else first_extra rest
  | _ :: rest => first_extra rest
  end.

Definition get_extra_name_from_marker (marker : option (list marker_elem))
  : result (option string) :=
  match marker with
  | None => Raise ValueError
  | Some [] => Raise TypeError
  | Some markers => Ok (first_extra markers)
  end.

(** The body of [for req in run_requires] in [get_metadata_from_wheel],
    on the pair of accumulators [requires] and [extras]. *)
Definition wheel_step (E : env)
    (acc : list req_obj * list (string * list req_obj)) (req : string)
  : result (list req_obj * list (string * list req_obj)) :=
  let '(requires, extras) := acc in
  bind (init_requirement E req) (λ parsed_req,
    match req_marker parsed_req with
    | Some _ =>
        bind (get_extra_name_from_marker (req_marker parsed_req)) (λ extra,
          match extra with
          | None => Ok (requires ++ [RParsed parsed_req], extras)%list
          | Some extra =>
              let extras :=
                if dict_get extra extras is None
                then dict_set extra [] extras else extras in
              let parsed_req := strip_extras_markers_from_requirement E parsed_req in
              Ok (requires,
                  dict_set extra
                    (default [] (dict_get extra extras) ++ [RParsed parsed_req])%list
                    extras)
          end)
    | None => Ok (requires ++ [RParsed parsed_req], extras)%list
    end).

Fixpoint wheel_loop (E : env)
    (acc : list req_obj * list (string * list req_obj)) (reqs : list string)
  : result (list req_obj * list (string * list req_obj)) :=
  match reqs with
  | [] => Ok acc
  | req :: rest => bind (wheel_step E acc req) (λ acc, wheel_loop E acc rest)
  end.

(** [get_metadata_from_wheel].  When [Wheel(wheel_path)] raises, the
    exception is swallowed and the unbound local [dist] is read next. *)
Definition get_metadata_from_wheel (E : env) (wheel_path : string)
  : result (list (string * mvalue)) :=
  match Wheel E wheel_path with
  | None => Raise UnboundLocalError
  | Some metadata =>
      let name := wm_name metadata in
      let version := wm_version metadata in
      let extras := foldl (λ d k, dict_set k [] d) [] (wm_extras metadata) in
      bind (wheel_loop E ([], extras) (wm_run_requires metadata))
        (λ '(requires, extras),
          Ok [("name", opt_text name); ("version", opt_text version);
              ("requires", MList requires); ("extras", MDict extras)])
  end.

(** [k.replace(":", "; ")] *)
Fixpoint replace_colon (k : string) : string :=
  match k with
  | String c k' =>
      if Ascii.eqb c ":" then "; " ++ replace_colon k'
      else String c (replace_colon k')
  | EmptyString => EmptyString
  end.

(** The body of [for k in dep_map.keys()] in [get_metadata_from_dist], on
    the pair of accumulators [deps] and [extras]. *)
Definition dist_step (E : env)
    (acc : list Requirement * list (string * list req_obj))
    (item : option string * list Requirement)
  : result (list Requirement * list (string * list req_obj)) :=
  let '(deps, extras) := acc in
  match item with
  | (None, _deps) => Ok (deps ++ _deps, extras)%list
  | (Some k, _deps) =>
      let '(marker, extra) :=
        if startswith k ":python_version"
        then (replace_colon k, None)
        else ("", Some k) in
      let _deps := (λ req, RStr (req_text req ++ marker)) <$> _deps in
      bind (ensure_reqs E _deps) (λ _deps,
        match extra with
        | Some (String _ _ as extra) =>
            Ok (deps, dict_set extra (RParsed <$> _deps) extras)
        | _ => Ok (deps ++ _deps, extras)%list
        end)
  end.

Fixpoint dist_loop (E : env)
    (acc : list Requirement * list (string * list req_obj))
    (items : list (option string * list Requirement))
  : result (list Requirement * list (string * list req_obj)) :=
  match items with
  | [] => Ok acc
  | item :: rest => bind (dist_step E acc item) (λ acc, dist_loop E acc rest)
  end.

(** [get_metadata_from_dist].  The list [deps] is built by the loop and
    then not read: the dictionary returns [requires]. *)
Definition get_metadata_from_dist (E : env) (dist : Distribution)
  : result (list (string * mvalue)) :=
  let requires := match dist_requires dist with Ok r => r | Raise _ => [] end in
  let dep_map := match dist_build_dep_map dist with Ok m => m | Raise _ => [] end in
  bind (dist_loop E ([], []) dep_map) (λ '(deps, extras),
    Ok [("name", opt_text (dist_project_name dist));
        ("version", opt_text (dist_version dist));
        ("requires", MList (RParsed <$> requires));
        ("extras", MDict extras)]).

(** [get_metadata]; [matched_dir] is exposed for the properties below. *)
Definition allowed (kind : string) (metadata_type : option string) : bool :=
  match metadata_type with
  | None => true
  | Some t => String.eqb t kind
  end.

Definition candidates (metadata_type : option string)
    (egg_dir dist_dir : option DirEntry) : list DirEntry :=
  ((if dist_dir is Some d then if allowed "wheel" metadata_type then [d] else [] else [])
   ++ (if egg_dir is Some d then if allowed "egg" metadata_type then [d] else [] else []))%list.

Definition probe (E : env) (path : string) (pkg_name : option string)
  : result (option DirEntry * option DirEntry) :=
  bind (find_egginfo E path pkg_name) (λ eggs,
  bind (find_distinfo E path pkg_name) (λ dists,
    Ok (mjoin (first eggs), mjoin (first dists)))).

Definition matched_dir (E : env) (path : string) (pkg_name metadata_type : option string)
  : result (option DirEntry) :=
  bind (probe E path pkg_name) (λ '(egg_dir, dist_dir),
    Ok (first (candidates metadata_type egg_dir dist_dir))).

(** The part of [get_metadata] under [if matched_dir is not None]. *)
Definition parse_matched (E : env) (metadata_type : option string)
    (egg_dir dist_dir : option DirEntry) (matched : DirEntry)
  : result (list (string * mvalue)) :=
  let metadata_dir := abspath E (entry_path matched) in
  let base_dir := dirname metadata_dir in
  let distinfo_dist :=
    if allowed "wheel" metadata_type && bool_decide (is_Some dist_dir)
    then first (find_distributions E base_dir) else None in
  let egg_dist :=
    if allowed "egg" metadata_type && bool_decide (is_Some egg_dir)
    then first (distributions_from_metadata E metadata_dir) else None in
  match first (omap id [distinfo_dist; egg_dist]) with
  | Some dist => get_metadata_from_dist E dist
  | None => Ok []
  end.

Definition get_metadata (E : env) (path : string) (pkg_name metadata_type : option string)
  : result (list (string * mvalue)) :=
  bind (probe E path pkg_name) (λ '(egg_dir, dist_dir),
    match first (candidates metadata_type egg_dir dist_dir) with
    | Some matched => parse_matched E metadata_type egg_dir dist_dir matched
    | None => Ok []
    end).

End Extractors.

(** ** The aggregate [SetupInfo] *)

Module Aggregate.

Abbreviation BaseRequirement := Records.BaseRequirement.
Abbreviation req_obj := Records.req_obj.
Abbreviation from_req := Records.from_req.
Abbreviation mvalue := Extractors.mvalue.

(** [pathlib.Path], kept as its POSIX text. *)
Definition Path : Type := string.

Definition joinpath (p : Path) (child : string) : Path :=
  Extractors.path_join p child.

(** [Path.parent] *)
Definition parent (p : Path) : Path :=
  match rpartition_go "/" p with
  | Some ("", _) => "/"
  | Some (h, _) => h
  | None => "."
  end.

(** A [pip] install requirement, of which only [extras] is read. *)
Record InstallRequirement : Type := {
  ireq_extras : list string;
}.

(** The members of [_requirements]: [BaseRequirement] values and, after
    [run_setup] has merged a requested extra, the bare requirement objects
    that the [extras] property hands out. *)
Inductive member : Type :=
  | Base (b : BaseRequirement)
  | Raw (r : req_obj).

Global Instance member_eq_dec : EqDecision member.
Proof. solve_decision. Defined.
Definition member_enc (m : member) : BaseRequirement + req_obj :=
  match m with Base b => inl b | Raw r => inr r end.
Definition member_dec (x : BaseRequirement + req_obj) : member :=
  match x with inl b => Base b | inr r => Raw r end.
Lemma member_dec_enc m : member_dec (member_enc m) = m.
Proof. by destruct m. Qed.
Global Instance member_countable : Countable member :=
  inj_countable' member_enc member_dec member_dec_enc.

(** The flat tuple stored in [self.metadata]. *)
Inductive meta_item : Type :=
  | ItemKey (k : string)
  | ItemValue (v : mvalue)
  | ItemExtra (extra : string) (reqs : list req_obj).

(** The [distutils] distribution object that a setup script leaves in the
    process-wide slot, as far as [run_setup] reads it. *)
Record SetupDist : Type := {
  get_name : string;
  dist_python_requires : option string;
  (** a [dict]: extra name to requirement strings *)
  extras_require : list (string * list string);
  get_requires : list req_obj;
  install_requires : list req_obj;
  dist_setup_requires : list string;
  get_version : string;
}.

Record SetupInfo : Type := {
  name : option string;
  base_dir : option string;
  version : option string;
  _requirements : gset member;
  build_requires : list string;
  build_backend : string;
  setup_requires : list string;
  python_requires : option string;
  _extras_requirements : list (string * list BaseRequirement);
  setup_cfg : option Path;
  setup_py : option Path;
  pyproject : option Path;
  ireq : option InstallRequirement;
  extra_kwargs : option (list (string * string));
  metadata : option (list meta_item);
}.

Definition set_name (v : option string) (s : SetupInfo) : SetupInfo :=
  {| name := v; base_dir := base_dir s; version := version s;
     _requirements := _requirements s; build_requires := build_requires s;
     build_backend := build_backend s; setup_requires := setup_requires s;
     python_requires := python_requires s;
     _extras_requirements := _extras_requirements s;
     setup_cfg := setup_cfg s; setup_py := setup_py s; pyproject := pyproject s;
     ireq := ireq s; extra_kwargs := extra_kwargs s; metadata := metadata s |}.
Definition set_version (v : option string) (s : SetupInfo) : SetupInfo :=
  {| name := name s; base_dir := base_dir s; version := v;
     _requirements := _requirements s; build_requires := build_requires s;
     build_backend := build_backend s; setup_requires := setup_requires s;
     python_requires := python_requires s;
     _extras_requirements := _extras_requirements s;
     setup_cfg := setup_cfg s; setup_py := setup_py s; pyproject := pyproject s;
     ireq := ireq s; extra_kwargs := extra_kwargs s; metadata := metadata s |}.
Definition set_requirements (v : gset member) (s : SetupInfo) : SetupInfo :=
  {| name := name s; base_dir := base_dir s; version := version s;
     _requirements := v; build_requires := build_requires s;
     build_backend := build_backend s; setup_requires := setup_requires s;
     python_requires := python_requires s;
     _extras_requirements := _extras_requirements s;
     setup_cfg := setup_cfg s; setup_py := setup_py s; pyproject := pyproject s;
     ireq := ireq s; extra_kwargs := extra_kwargs s; metadata := metadata s |}.
Definition set_build_requires (v : list string) (s : SetupInfo) : SetupInfo :=
  {| name := name s; base_dir := base_dir s; version := version s;
     _requirements := _requirements s; build_requires := v;
     build_backend := build_backend s; setup_requires := setup_requires s;
     python_requires := python_requires s;
     _extras_requirements := _extras_requirements s;
     setup_cfg := setup_cfg s; setup_py := setup_py s; pyproject := pyproject s;
     ireq := ireq s; extra_kwargs := extra_kwargs s; metadata := metadata s |}.
Definition set_build_backend (v : string) (s : SetupInfo) : SetupInfo :=
  {| name := name s; base_dir := base_dir s; version := version s;
     _requirements := _requirements s; build_requires := build_requires s;
     build_backend := v; setup_requires := setup_requires s;
     python_requires := python_requires s;
     _extras_requirements := _extras_requirements s;
     setup_cfg := setup_cfg s; setup_py := setup_py s; pyproject := pyproject s;
     ireq := ireq s; extra_kwargs := extra_kwargs s; metadata := metadata s |}.
Definition set_setup_requires (v : list string) (s : SetupInfo) : SetupInfo :=
  {| name := name s; base_dir := base_dir s; version := version s;
     _requirements := _requirements s; build_requires := build_requires s;
     build_backend := build_backend s; setup_requires := v;
     python_requires := python_requires s;
     _extras_requirements := _extras_requirements s;
     setup_cfg := setup_cfg s; setup_py := setup_py s; pyproject := pyproject s;
     ireq := ireq s; extra_kwargs := extra_kwargs s; metadata := metadata s |}.
Definition set_python_requires (v : option string) (s : SetupInfo) : SetupInfo :=
  {| name := name s; base_dir := base_dir s; version := version s;
     _requirements := _requirements s; build_requires := build_requires s;
     build_backend := build_backend s; setup_requires := setup_requires s;
     python_requires := v;
     _extras_requirements := _extras_requirements s;
     setup_cfg := setup_cfg s; setup_py := setup_py s; pyproject := pyproject s;
     ireq := ireq s; extra_kwargs := extra_kwargs s; metadata := metadata s |}.
Definition set_extras_requirements (v : list (string * list BaseRequirement))
    (s : SetupInfo) : SetupInfo :=
  {| name := name s; base_dir := base_dir s; version := version s;
     _requirements := _requirements s; build_requires := build_requires s;
     build_backend := build_backend s; setup_requires := setup_requires s;
     python_requires := python_requires s;
     _extras_requirements := v;
     setup_cfg := setup_cfg s; setup_py := setup_py s; pyproject := pyproject s;
     ireq := ireq s; extra_kwargs := extra_kwargs s; metadata := metadata s |}.
Definition set_metadata (v : option (list meta_item)) (s : SetupInfo) : SetupInfo :=
  {| name := name s; base_dir := base_dir s; version := version s;
     _requirements := _requirements s; build_requires := build_requires s;
     build_backend := build_backend s; setup_requires := setup_requires s;
     python_requires := python_requires s;
     _extras_requirements := _extras_requirements s;
     setup_cfg := setup_cfg s; setup_py := setup_py s; pyproject := pyproject s;
     ireq := ireq s; extra_kwargs := extra_kwargs s; metadata := v |}.

(** *** The world outside the aggregate *)

(** What a resolution pass can change besides the aggregate: the files it
    sees through [Path.exists], [os.path.exists] and [open]; the directory
    listings that the metadata probe walks; and the module-level slot
    [_setup_distribution], which the module initialises to [None] and
    which code run inside the process, such as the setup script, may
    assign. *)
Record World : Type := {
  files : gmap string Directives.fs_node;
  listing : string → result (list Extractors.node);
  _setup_distribution : option SetupDist;
}.

Definition with_files (f : gmap string Directives.fs_node) (w : World) : World :=
  {| files := f; listing := listing w;
     _setup_distribution := _setup_distribution w |}.

(** How the in-process run of the setup script ends. *)
Inductive exec_end : Type :=
  | Returned
  | Raised (e : exn).

(** The collaborators of the aggregate.  Those that touch the disk take
    the world and give back the world they leave. *)
Record env : Type := {
  (** [configparser], [importlib] and [init_requirement] for
      [parse_setup_cfg]; its file system is the world's *)
  cfg : SetupCfg.env;
  (** [pkg_resources], [distlib] and the helpers of [utils] for the
      metadata extractors; its listings are the world's *)
  ext : Extractors.env;
  (** [utils.get_default_pyproject_backend()] *)
  get_default_pyproject_backend : string;
  (** [utils.get_pyproject(path)] *)
  get_pyproject : Path → World → result (option (list string * option string));
  (** [build_pep517(source_dir, build_dir, dist_type=...)]: the relative
      path of the artifact, or the failure of a stage of the build *)
  build_pep517 : option string → string → string → World → World * result string;
  (** [exec] of the setup script under [sys.argv = [script] + args] *)
  exec_script : string → list string → World → World * exec_end;
  (** [run([python, "setup.py"] + args, cwd=...)] *)
  run_subprocess : string → list string → World → World * result unit;
  (** [packaging.specifiers.SpecifierSet(text)] as the text it keeps *)
  SpecifierSet : string → result string;
  (** what [shutil.rmtree(name, ignore_errors=True)] removes for the names
      that [os.listdir(egg_base)] returns *)
  rmtree_listed : string → World → World;
}.

Definition cfg_env (E : env) (w : World) : SetupCfg.env :=
  {| SetupCfg.os_env :=
       {| Directives.fs := λ p, files w !! p;
          Directives.modules := Directives.modules (SetupCfg.os_env (cfg E)) |};
     SetupCfg.read := SetupCfg.read (cfg E);
     SetupCfg.init_requirement := SetupCfg.init_requirement (cfg E) |}.

Definition ext_env (E : env) (w : World) : Extractors.env :=
  {| Extractors.scandir := listing w;
     Extractors.get_name_variants := Extractors.get_name_variants (ext E);
     Extractors.abspath := Extractors.abspath (ext E);
     Extractors.find_distributions := Extractors.find_distributions (ext E);
     Extractors.distributions_from_metadata :=
       Extractors.distributions_from_metadata (ext E);
     Extractors.Requirement_parse := Extractors.Requirement_parse (ext E);
     Extractors.Wheel := Extractors.Wheel (ext E);
     Extractors.init_requirement := Extractors.init_requirement (ext E);
     Extractors.strip_extras_markers_from_requirement :=
       Extractors.strip_extras_markers_from_requirement (ext E) |}.

(** *** State and exceptions *)

Record state : Type := {
  self : SetupInfo;
  world : World;
}.

(** A method: it may change the aggregate and the world, and it returns
    or raises.  What it changed before raising stays changed. *)
Definition M (A : Type) : Type := state → state * result A.

Definition ret {A} (a : A) : M A := λ st, (st, Ok a).
Definition raise {A} (e : exn) : M A := λ st, (st, Raise e).
Definition bindM {A B} (m : M A) (k : A → M B) : M B :=
  λ st, match m st with
        | (st', Ok a) => k a st'
        | (st', Raise e) => (st', Raise e)
        end.
Definition lift {A} (r : result A) : M A := λ st, (st, r).
Definition get_self : M SetupInfo := λ st, (st, Ok (self st)).
Definition get_world : M World := λ st, (st, Ok (world st)).
Definition update (f : SetupInfo → SetupInfo) : M unit :=
  λ st, ({| self := f (self st); world := world st |}, Ok tt).
Definition put_world (w : World) : M unit :=
  λ st, ({| self := self st; world := w |}, Ok tt).

(** [try: m except Exception: handler] *)
Definition try_except {A} (m : M A) (handler : M A) : M A :=
  λ st, match m st with
        | (st', Raise e) => if is_Exception e then handler st' else (st', Raise e)
        | r => r
        end.

Declare Scope method_scope.
Delimit Scope method_scope with method.
Notation "'let*' x ':=' m 'in' k" := (bindM m (λ x, k))
  (at level 10, x pattern, m at level 100, k at level 200) : method_scope.
Notation "m ;; k" := (bindM m (λ _, k))
  (at level 100, right associativity) : method_scope.
Open Scope method_scope.

(** [for x in xs: body(x)] *)
Fixpoint for_each {A} (xs : list A) (body : A → M unit) : M unit :=
  match xs with
  | [] => ret tt
  | x :: xs' => body x ;; for_each xs' body
  end.

(** *** Truth values *)

Definition truthy_text (o : option string) : bool :=
  match o with Some s => negb (String.eqb s "") | None => false end.
Definition truthy_list {A} (l : list A) : bool :=
  match l with [] => false | _ => true end.
Definition truthy_opt_list {A} (o : option (list A)) : bool :=
  match o with Some l => truthy_list l | None => false end.
Definition is_none {A} (o : option A) : bool :=
  match o with None => true | Some _ => false end.

(** A [dict] with insertion order and arbitrary hashable keys. *)
Fixpoint dict_put {K V} `{EqDecision K} (k : K) (v : V) (d : list (K * V))
  : list (K * V) :=
  match d with
  | [] => [(k, v)]
  | (k', v') :: d' =>
      if decide (k' = k) then (k, v) :: d' else (k', v') :: dict_put k v d'
  end.

(** *** Files *)

Definition path_exists (p : Path) : M bool :=
  let* w := get_world in ret (bool_decide (is_Some (files w !! p))).

(** [p.exists()] on an attribute that may be [None] *)
Definition exists_attr (p : option Path) : M bool :=
  match p with
  | Some p => path_exists p
  | None => raise AttributeError
  end.

(** [p is not None and p.exists()], also written [p and p.exists()] *)
Definition present (p : option Path) : M bool :=
  match p with
  | Some p => path_exists p
  | None => ret false
  end.

(** [self.extra_kwargs[key]] *)
Definition kwarg (key : string) : M string :=
  let* s := get_self in
  match extra_kwargs s with
  | None => raise TypeError
  | Some d =>
      match Extractors.dict_get key d with
      | Some v => ret v
      | None => raise KeyError
      end
  end.

(** [Path.mkdir(parents=True, exist_ok=True)] below a directory that is
    there: the path itself is made.  The missing ancestors that
    [parents=True] would make as well are not modelled. *)
Definition mkdir (p : Path) : M unit :=
  let* w := get_world in
  match files w !! p with
  | Some Directives.Directory => ret tt
  | Some (Directives.RegularFile _) => raise OSError
  | None => put_world (with_files (<[p := Directives.Directory]> (files w)) w)
  end.

(** [Path.write_text(text)]; the package directory is taken to be
    writable. *)
Definition write_text (p : Path) (text : string) : M unit :=
  let* w := get_world in
  put_world (with_files (<[p := Directives.RegularFile text]> (files w)) w).

(** *** Properties of the aggregate *)

(** The [requires] property: a dictionary comprehension over
    [_requirements] that reads [req.name] and [req.requirement]; a bare
    requirement object has no attribute [requirement]. *)
Fixpoint requires_of (ms : list member)
    (d : list (option string * req_obj))
  : result (list (option string * req_obj)) :=
  match ms with
  | [] => Ok d
  | Base b :: ms' =>
      requires_of ms' (dict_put (Records.name b) (Records.requirement b) d)
  | Raw _ :: _ => Raise AttributeError
  end.

Definition requires : M (list (option string * req_obj)) :=
  let* s := get_self in lift (requires_of (elements (_requirements s)) []).

(** The [extras] property.  Python walks [set(self._extras_requirements)]
    in an unspecified order; the tuple's own order is taken here. *)
Definition extras_of (es : list (string * list BaseRequirement))
  : list (string * list req_obj) :=
  foldl (λ d e, Extractors.dict_set e.1 (Records.requirement <$> e.2) d) [] es.

Definition extras (s : SetupInfo) : list (string * list req_obj) :=
  extras_of (_extras_requirements s).

(** The [egg_base] property *)
Definition egg_base : M string :=
  let* s := get_self in
  let* in_setup_py := exists_attr (setup_py s) in
  let* base :=
    if in_setup_py then ret (parent <$> setup_py s)
    else
      let* in_pyproject := exists_attr (pyproject s) in
      if in_pyproject then ret (parent <$> pyproject s)
      else
        let* in_setup_cfg := exists_attr (setup_cfg s) in
        if in_setup_cfg then ret (parent <$> setup_cfg s) else ret None in
  let* base :=
    match base with
    | Some b => ret b
    | None =>
        match base_dir s with
        | Some d => ret d
        | None => raise TypeError
        end
    end in
  let egg_base := joinpath base "reqlib-metadata" in
  mkdir egg_base ;;
  ret egg_base.

(** *** [populate_metadata] *)

Definition meta_items (metadata : list (string * mvalue)) : list meta_item :=
  flat_map (λ kv,
    match kv with
    | (k, Extractors.MDict d) =>
        if String.eqb k "extras"
        then (λ e, ItemExtra e.1 e.2) <$> d
        else [ItemKey k; ItemValue (Extractors.MDict d)]
    | (k, v) => [ItemKey k; ItemValue v]
    end) metadata.

(** The value stored under ["name"] or ["version"]; the extractors put a
    string or [None] there. *)
Definition text_of (v : mvalue) : option string :=
  match v with Extractors.MText s => Some s | _ => None end.

Fixpoint chars (s : string) : list string :=
  match s with
  | String c s' => String c EmptyString :: chars s'
  | EmptyString => []
  end.

(** [for req in v] *)
Definition iterate (v : mvalue) : result (list req_obj) :=
  match v with
  | Extractors.MList l => Ok l
  | Extractors.MText s => Ok (Records.RStr <$> chars s)
  | Extractors.MDict d => Ok (Records.RStr ∘ fst <$> d)
  | Extractors.MNone => Raise TypeError
  end.

(** [metadata.get("extras", {}).get(extra, [])] *)
Definition extras_for (metadata : list (string * mvalue)) (extra : string)
  : result (list req_obj) :=
  match Extractors.dict_get "extras" metadata with
  | None => Ok []
  | Some (Extractors.MDict d) => Ok (default [] (Extractors.dict_get extra d))
  | Some _ => Raise AttributeError
  end.

(** [getattr(self.ireq, "extras", None)], as the list to loop over *)
Definition requested_extras (s : SetupInfo) : list string :=
  match ireq s with
  | Some i => ireq_extras i
  | None => []
  end.

(** The body of [for extra in self.ireq.extras] in [populate_metadata] *)
Definition merge_extra (E : env) (metadata : list (string * mvalue))
    (extra : string) : M unit :=
  let* extras := lift (extras_for metadata extra) in
  if truthy_list extras then
    let* w := get_world in
    let* reqs := lift (Extractors.ensure_reqs (ext_env E w) extras) in
    let extras_tuple := from_req ∘ Records.RParsed <$> reqs in
    update (λ s, set_extras_requirements
                   (_extras_requirements s ++ [(extra, extras_tuple)])%list s) ;;
    update (λ s, set_requirements
                   (_requirements s ∪ list_to_set (Base <$> extras_tuple)) s)
  else ret tt.

Definition populate_metadata (E : env) (metadata : list (string * mvalue))
  : M unit :=
  update (set_metadata (Some (meta_items metadata))) ;;
  update (λ s,
    if is_none (name s)
    then set_name (match Extractors.dict_get "name" metadata with
                   | Some v => text_of v
                   | None => name s
                   end) s
    else s) ;;
  update (λ s,
    if negb (truthy_text (version s))
    then set_version (match Extractors.dict_get "version" metadata with
                      | Some v => text_of v
                      | None => version s
                      end) s
    else s) ;;
  let* reqs := lift (iterate (default (Extractors.MList [])
                                (Extractors.dict_get "requires" metadata))) in
  update (λ s, set_requirements
                 (_requirements s ∪ list_to_set (Base ∘ from_req <$> reqs)) s) ;;
  let* s := get_self in
  for_each (requested_extras s) (merge_extra E metadata).

(** What one requested extra contributes, as a function of the metadata
    and of the world only. *)
Definition contribution (E : env) (w : World) (metadata : list (string * mvalue))
    (extra : string) : result (option (list BaseRequirement)) :=
  bind (extras_for metadata extra) (λ extras,
    if truthy_list extras
    then bind (Extractors.ensure_reqs (ext_env E w) extras) (λ reqs,
           Ok (Some (from_req ∘ Records.RParsed <$> reqs)))
    else Ok None).

Definition merged (extra : string) (t : list BaseRequirement) (s : SetupInfo)
  : SetupInfo :=
  set_requirements
    (_requirements s ∪ list_to_set (Base <$> t))
    (set_extras_requirements (_extras_requirements s ++ [(extra, t)])%list s).

(** *** [parse_setup_cfg] (the method) *)

Definition cfg_text (k : string) (parsed : gmap string SetupCfg.value)
  : option string :=
  match parsed !! k with
  | Some (SetupCfg.VStr s) => Some s
  | _ => None
  end.

(** [tuple(set(a) | set(b))] *)
Definition union_tuple (a b : list string) : list string :=
  elements (list_to_set a ∪ list_to_set b : gset string).

(** The loop over [self.ireq.extras] at the end of [parse_setup_cfg] *)
Definition merge_requested_extra (extra : string) (s : SetupInfo) : SetupInfo :=
  match Extractors.dict_get extra (extras s) with
  | Some reqs =>
      let extras_tuple := from_req <$> reqs in
      let s := set_extras_requirements
                 (_extras_requirements s ++ [(extra, extras_tuple)])%list s in
      set_requirements (_requirements s ∪ list_to_set (Base <$> extras_tuple)) s
  | None => s
  end.

Definition parse_setup_cfg (E : env) : M unit :=
  let* s := get_self in
  let* there := present (setup_cfg s) in
  if there then
    let* w := get_world in
    let* parsed := lift (SetupCfg.parse_setup_cfg (cfg_env E w)
                           (default "" (setup_cfg s))) in
    match parsed with
    | None => raise AttributeError
    | Some parsed =>
        update (λ s, if is_none (name s)
                     then set_name (cfg_text "name" parsed) s else s) ;;
        update (λ s, if is_none (version s)
                     then set_version (cfg_text "version" parsed) s else s) ;;
        let build_requires' :=
          match cfg_text "build_requires" parsed with
          | Some text => chars text
          | None => []
          end in
        update (λ s, if truthy_list (build_requires s)
                     then set_build_requires
                            (union_tuple (build_requires s) build_requires') s
                     else s) ;;
        let* install_requires :=
          match parsed !! "install_requires" with
          | Some (SetupCfg.VReqs rs) => ret rs
          | Some _ => raise TypeError
          | None => raise KeyError
          end in
        update (λ s, set_requirements
                       (_requirements s ∪ set_map Base install_requires) s) ;;
        update (λ s, if is_none (python_requires s)
                     then set_python_requires (cfg_text "python_requires" parsed) s
                     else s) ;;
        let* extras_require :=
          match parsed !! "extras_require" with
          | Some (SetupCfg.VExtras es) => ret es
          | Some _ => raise TypeError
          | None => raise KeyError
          end in
        update (λ s, if negb (truthy_list (_extras_requirements s))
                     then set_extras_requirements extras_require s
                     else set_extras_requirements
                            (_extras_requirements s ++ extras_require)%list s) ;;
        update (λ s, foldl (λ s extra, merge_requested_extra extra s)
                           s (requested_extras s))
    end
  else ret tt.

(** *** The metadata probes *)

Definition get_metadata_from_wheel (E : env) (wheel_path : string) : M unit :=
  let* w := get_world in
  let* metadata_dict :=
    lift (Extractors.get_metadata_from_wheel (ext_env E w) wheel_path) in
  if truthy_list metadata_dict then populate_metadata E metadata_dict else ret tt.

Definition get_egg_metadata (E : env) (metadata_dir metadata_type : option string)
  : M unit :=
  let* s := get_self in
  let* i1 := present (pyproject s) in
  let* i2 := present (setup_py s) in
  let* i3 := present (setup_cfg s) in
  let* metadata_dirs :=
    if i1 || i2 || i3 then
      let* build_dir := kwarg "build_dir" in
      let* egg := egg_base in
      let* src_dir := kwarg "src_dir" in
      ret [build_dir; egg; src_dir]
    else ret [] in
  let metadata_dirs :=
    match metadata_dir with
    | Some d => d :: metadata_dirs
    | None => metadata_dirs
    end in
  let* w := get_world in
  let* metadata :=
    lift (mapM (λ d, Extractors.get_metadata (ext_env E w) d (name s) metadata_type)
               (List.filter (λ d, bool_decide (is_Some (files w !! d)))
                            metadata_dirs)) in
  match first (List.filter truthy_list metadata) with
  | Some metadata => populate_metadata E metadata
  | None => ret tt
  end.

(** *** [run_setup] *)

(** [extra, extra_requires = key]: [dist.extras_require] is a dictionary,
    so the loop walks its keys and unpacks each key, a string, into two
    one-character strings. *)
Definition unpack_key (key : string) : result (string * string) :=
  unpack2 (chars key).

(** The statements of [run_setup] after [dist = _setup_distribution], for
    a distribution that was captured.  (The assignment of [()] to an empty
    [_extras_requirements] changes nothing and is left out.) *)
Definition read_dist (E : env) (dist : SetupDist) : M unit :=
  let name' := get_name dist in
  (if negb (String.eqb name' "") then update (set_name (Some name')) else ret tt) ;;
  let* s := get_self in
  (if truthy_text (dist_python_requires dist) && negb (truthy_text (python_requires s))
   then let* spec := lift (SpecifierSet E (default "" (dist_python_requires dist))) in
        update (set_python_requires (Some spec))
   else ret tt) ;;
  let* s := get_self in
  (if truthy_list (extras_require dist) && negb (truthy_list (extras s))
   then for_each (fst <$> extras_require dist) (λ key,
          let* (extra, extra_requires) := lift (unpack_key key) in
          let extras_tuple := from_req <$> (Records.RStr <$> chars extra_requires) in
          update (λ s, set_extras_requirements
                         (_extras_requirements s ++ [(extra, extras_tuple)])%list s))
   else ret tt) ;;
  let install_requires' :=
    if truthy_list (get_requires dist) then get_requires dist
    else install_requires dist in
  (if truthy_list install_requires' then
     let* current := requires in
     if negb (truthy_list current) then
       update (λ s,
         let requirements : gset member :=
           list_to_set (Base ∘ from_req <$> install_requires') in
         let requirements :=
           foldl (λ rs extra,
                    rs ∪ list_to_set
                           (Raw <$> default [] (Extractors.dict_get extra (extras s))))
                 requirements (requested_extras s) in
         set_requirements (_requirements s ∪ requirements) s)
     else ret tt
   else ret tt) ;;
  update (λ s, if truthy_list (dist_setup_requires dist)
                  && negb (truthy_list (setup_requires s))
               then set_setup_requires (dist_setup_requires dist) s else s) ;;
  update (λ s, if negb (truthy_text (version s))
               then set_version (Some (get_version dist)) s else s).

(** [except NameError] also catches its subclass [UnboundLocalError]. *)
Definition is_NameError (e : exn) : bool :=
  match e with NameError | UnboundLocalError => true | _ => false end.

Definition run_setup (E : env) : M unit :=
  let* s := get_self in
  let* there := present (setup_py s) in
  if there then
    let script_name := default "" (setup_py s) in
    let target_cwd := parent script_name in
    let* egg := egg_base in
    let args := ["egg_info"; "--egg-base"; egg] in
    let* w := get_world in
    let '(w, finish) := exec_script E script_name args w in
    put_world w ;;
    match finish with
    | Returned => ret tt
    | Raised e =>
        if is_NameError e then
          let* w := get_world in
          let '(w, r) := run_subprocess E target_cwd args w in
          put_world w ;; lift r
        else raise e
    end ;;
    let* w := get_world in
    match _setup_distribution w with
    | None => get_egg_metadata E None None
    | Some dist => read_dist E dist
    end
  else ret tt.

(** *** The PEP 517 build *)

Fixpoint join (sep : string) (parts : list string) : string :=
  match parts with
  | [] => ""
  | [p] => p
  | p :: rest => p ++ sep ++ join sep rest
  end.

Definition dquote : string := String (ascii_of_nat 34) EmptyString.
Definition quoted (r : string) : string := dquote ++ r ++ dquote.

Definition build_system_text (s : SetupInfo) : string :=
  "[build-system]
requires = [" ++ join ", " (quoted <$> build_requires s) ++ "]
build-backend = " ++ quoted (build_backend s).

(** [build_wheel] and [build_sdist] differ in [dist_type] only. *)
Definition build_dist (E : env) (dist_type : string) : M string :=
  let* s := get_self in
  let* there := exists_attr (pyproject s) in
  (if there then ret tt
   else write_text (default "" (pyproject s)) (build_system_text s)) ;;
  let* build_dir := kwarg "build_dir" in
  let* w := get_world in
  let '(w, r) := build_pep517 E (base_dir s) build_dir dist_type w in
  put_world w ;; lift r.

Definition build_wheel (E : env) : M string := build_dist E "wheel".
Definition build_sdist (E : env) : M string := build_dist E "sdist".

(** [try: m except Exception: handler else: continue(result)] *)
Definition try_except_else {A B} (m : M A) (handler : M B) (continue : A → M B)
  : M B :=
  λ st, match m st with
        | (st', Ok a) => continue a st'
        | (st', Raise e) => if is_Exception e then handler st' else (st', Raise e)
        end.

(** [not self.metadata or not self.name] *)
Definition incomplete (s : SetupInfo) : bool :=
  negb (truthy_opt_list (metadata s)) || negb (truthy_text (name s)).

Definition build (E : env) : M unit :=
  try_except_else (build_wheel E)
    (try_except (build_sdist E ;; get_egg_metadata E None (Some "egg")) (ret tt))
    (λ dist_path,
       let* build_dir := kwarg "build_dir" in
       get_metadata_from_wheel E (Extractors.path_join build_dir dist_path)) ;;
  let* s := get_self in
  (if incomplete s then get_egg_metadata E None None else ret tt) ;;
  let* s := get_self in
  (if incomplete s then run_setup E else ret tt).

Definition run_pyproject (E : env) : M unit :=
  let* s := get_self in
  let* there := present (pyproject s) in
  if there then
    let* w := get_world in
    let* result := lift (get_pyproject E (parent (default "" (pyproject s))) w) in
    match result with
    | Some (requires, backend) =>
        (if truthy_text backend
         then update (set_build_backend (default "" backend))
         else update (set_build_backend (get_default_pyproject_backend E))) ;;
        (if truthy_list requires
         then update (λ s, set_build_requires
                             (union_tuple requires (build_requires s)) s)
         else update (set_build_requires ["setuptools"; "wheel"]))
    | None => ret tt
    end
  else ret tt.

(** *** [as_dict], [get_info], [reload], [create] *)

(** The values of [prop_dict]. *)
Inductive out_value : Type :=
  | OText (s : option string)
  | OTuple (l : list string)
  | ORequires (d : list (option string * req_obj))
  | OExtras (d : list (string * list req_obj))
  | OIreq (i : option InstallRequirement)
  | OKwargs (d : option (list (string * string)))
  | OPath (p : option Path).

(** [if v]: a [Path] and an install requirement are true whenever they are
    not [None]. *)
Definition truthy (v : out_value) : bool :=
  match v with
  | OText s => truthy_text s
  | OTuple l => truthy_list l
  | ORequires d => truthy_list d
  | OExtras d => truthy_list d
  | OIreq i => negb (is_none i)
  | OKwargs d => truthy_opt_list d
  | OPath p => negb (is_none p)
  end.

Definition prop_dict (s : SetupInfo) (requires : list (option string * req_obj))
  : list (string * out_value) :=
  [("name", OText (name s));
   ("version", OText (version s));
   ("base_dir", OText (base_dir s));
   ("ireq", OIreq (ireq s));
   ("build_backend", OText (Some (build_backend s)));
   ("build_requires", OTuple (build_requires s));
   ("requires", ORequires requires);
   ("setup_requires", OTuple (setup_requires s));
   ("python_requires", OText (python_requires s));
   ("extras", OExtras (extras s));
   ("extra_kwargs", OKwargs (extra_kwargs s));
   ("setup_cfg", OPath (setup_cfg s));
   ("setup_py", OPath (setup_py s));
   ("pyproject", OPath (pyproject s))].

Definition as_dict : M (list (string * out_value)) :=
  let* s := get_self in
  let* requires := requires in
  ret (List.filter (λ kv, truthy kv.2) (prop_dict s requires)).

Definition get_info (E : env) : M (list (string * out_value)) :=
  let* s := get_self in
  let* there := present (setup_cfg s) in
  (if there then parse_setup_cfg E else ret tt) ;;
  run_pyproject E ;;
  build E ;;
  let* s := get_self in
  let* there := present (setup_py s) in
  (if there && is_none (metadata s) then
     let* current := requires in
     if negb (truthy_list current) || negb (truthy_text (name s)) then
       try_except (run_setup E) (get_egg_metadata E None None) ;;
       let* s := get_self in
       if is_none (metadata s) || negb (truthy_text (name s))
       then get_egg_metadata E None None
       else ret tt
     else ret tt
   else ret tt) ;;
  as_dict.

(** The three assignments in the middle of [reload]. *)
Definition wipe (s : SetupInfo) : SetupInfo :=
  set_extras_requirements [] (set_requirements ∅ (set_metadata None s)).

Definition reload (E : env) : M unit :=
  let* egg := egg_base in
  let* w := get_world in
  put_world (rmtree_listed E egg w) ;;
  update wipe ;;
  get_info E ;;
  ret tt.

(** The instance that [create] builds before it calls [get_info]: the
    attrs defaults, with the four paths and the optional arguments.
    [base_dir'] and [subdirectory] are taken in the form that [pathlib]
    prints them in ([Path(base_dir).as_posix()]: no trailing slash, no
    [.] component); [pathlib]'s own normalisation is not modelled. *)
Definition created (E : env) (base_dir' : string) (subdirectory : option string)
    (ireq' : option InstallRequirement) (kwargs : option (list (string * string)))
  : SetupInfo :=
  let sub := match subdirectory with
             | Some d => joinpath base_dir' d
             | None => base_dir'
             end in
  {| name := None; base_dir := Some base_dir'; version := None;
     _requirements := ∅; build_requires := [];
     build_backend := get_default_pyproject_backend E;
     setup_requires := []; python_requires := None;
     _extras_requirements := [];
     setup_cfg := Some (joinpath sub "setup.cfg");
     setup_py := Some (joinpath sub "setup.py");
     pyproject := Some (joinpath base_dir' "pyproject.toml");
     ireq := ireq'; extra_kwargs := kwargs; metadata := None |}.

(** [SetupInfo.create]: [None] for an empty [base_dir], else the instance
    after [get_info]. *)
Definition create (E : env) (base_dir' : string) (subdirectory : option string)
    (ireq' : option InstallRequirement) (kwargs : option (list (string * string)))
    (w : World) : World * result (option SetupInfo) :=
  if String.eqb base_dir' "" then (w, Ok None)
  else
    match get_info E {| self := created E base_dir' subdirectory ireq' kwargs;
                        world := w |} with
    | (st, Ok _) => (world st, Ok (Some (self st)))
    | (st, Raise e) => (world st, Raise e)
    end.

(** *** Statements about methods *)

(** A method preserves [P]: when the aggregate satisfies [P] before the
    call it satisfies [P] after it, whether the call returns or raises. *)
Definition preserves {A} (P : SetupInfo → Prop) (m : M A) : Prop :=
  ∀ st st' r, m st = (st', r) → P (self st) → P (self st').

(** The aggregate is named [n]. *)
Definition named (n : string) (s : SetupInfo) : Prop := name s = Some n.

End Aggregate.

(** ** [_suppress_distutils_logs] *)

Module Logs.

(** The levels of [distutils.log]. *)
Definition DEBUG : nat := 1.
Definition INFO : nat := 2.
Definition WARN : nat := 3.
Definition ERROR : nat := 4.
Definition FATAL : nat := 5.

(** [distutils.log.Log._log], as what a call with a level and a message
    writes. *)
Definition log_fn : Type := nat → string → list string.

(** The process as the context manager sees it: the function currently
    installed as [Log._log], and everything written so far. *)
Record process : Type := {
  _log : log_fn;
  written : list string;
}.

(** [log._log(level, msg, args)] through whatever is installed. *)
Definition emit (level : nat) (msg : string) (p : process) : process :=
  {| _log := _log p; written := (written p ++ _log p level msg)%list |}.

(** The replacement [_log] that the context manager installs around [f]. *)
Definition filtered (f : log_fn) : log_fn :=
  λ level msg, if (ERROR <=? level)%nat then f level msg else [].

Definition install (f : log_fn) (p : process) : process :=
  {| _log := f; written := written p |}.

(** [with _suppress_distutils_logs(): body].  The generator has no
    [try]/[finally] around its [yield]: the statement after the [yield]
    runs when the body returns, not when it raises. *)
Definition _suppress_distutils_logs {A} (body : process → process * result A)
    (p : process) : process * result A :=
  let f := _log p in
  match body (install (filtered f) p) with
  | (p', Ok a) => (install f p', Ok a)
  | (p', Raise e) => (p', Raise e)
  end.

(** A logger that writes every message. *)
Definition verbose : process :=
  {| _log := λ _ msg, [msg]; written := [] |}.

(** A body that logs a series of messages, each with its level. *)
Definition emit_all (msgs : list (nat * string)) (p : process) : process :=
  foldl (λ p lm, emit lm.1 lm.2 p) p msgs.

(** What [f] writes for the messages at [ERROR] and above. *)
Definition loud (f : log_fn) (msgs : list (nat * string)) : list string :=
  flat_map (λ lm, f lm.1 lm.2) (List.filter (λ lm, (ERROR <=? lm.1)%nat) msgs).

End Logs.

(** ** Working directories: [_get_src_dir] and
    [_prepare_wheel_building_kwargs] *)

Module Dirs.

Record env : Type := {
  (** [os.environ.get] *)
  environ : string → option string;
  (** [appdirs.user_cache_dir] *)
  user_cache_dir : string → string;
  (** the path that the [n]-th call of [create_tracked_tempdir] makes for
      a prefix and a suffix *)
  tempdir : nat → string → string → string;
  (** the paths at which no directory can be made: a file is in the way,
      or the place cannot be written *)
  refused : string → bool;
}.

(** The directories made so far, in order, and the number of temporary
    directories among them. *)
Record disk : Type := {
  made : list string;
  temps : nat;
}.

(** [vistir.path.mkdir_p]: it raises [OSError] where the directory cannot
    be made. *)
Definition mkdir_p (E : env) (path : string) (d : disk) : disk * result unit :=
  if refused E path then (d, Raise OSError)
  else ({| made := (made d ++ [path])%list; temps := temps d |}, Ok tt).

(** [vistir.path.create_tracked_tempdir]: [tempfile.mkdtemp] raises
    [OSError] where the directory cannot be made. *)
Definition create_tracked_tempdir (E : env) (prefix suffix : string) (d : disk)
  : disk * result string :=
  let path := tempdir E (temps d) prefix suffix in
  if refused E path then (d, Raise OSError)
  else ({| made := (made d ++ [path])%list; temps := S (temps d) |}, Ok path).

(** [os.path.join(a, "src")] on an argument that may be [None] *)
Definition join_src (a : option string) : result string :=
  match a with
  | Some a => Ok (Extractors.path_join a "src")
  | None => Raise TypeError
  end.

(** The function that [@ensure_mkdir_p] wraps. *)
Definition get_src_dir_body (E : env) (root : option string) (d : disk)
  : disk * result string :=
  match environ E "PIP_SRC" with
  | Some (String _ _ as src) => (d, Ok src)
  | _ =>
      match environ E "VIRTUAL_ENV" with
      | Some virtual_env => (d, join_src (Some virtual_env))
      | None =>
          match root with
          | Some _ => create_tracked_tempdir E "requirementslib-" "-src" d
          | None => (d, join_src root)
          end
      end
  end.

(** [_get_src_dir]: the wrapped function, then [mkdir_p] on its result. *)
Definition _get_src_dir (E : env) (root : option string) (d : disk)
  : disk * result string :=
  match get_src_dir_body E root d with
  | (d, Ok path) =>
      match mkdir_p E path d with
      | (d, Ok _) => (d, Ok path)
      | (d, Raise e) => (d, Raise e)
      end
  | (d, Raise e) => (d, Raise e)
  end.

(** [CACHE_DIR] *)
Definition CACHE_DIR (E : env) : string :=
  match environ E "PIPENV_CACHE_DIR" with
  | Some dir => dir
  | None => user_cache_dir E "pipenv"
  end.

(** Statements that touch the disk, one after the other; the first that
    raises ends the function. *)
Definition then_ {A B} (m : disk → disk * result A) (k : A → disk → disk * result B)
  : disk → disk * result B :=
  λ d, match m d with
       | (d, Ok a) => k a d
       | (d, Raise e) => (d, Raise e)
       end.

(** [_prepare_wheel_building_kwargs]; of [ireq] the function reads
    [editable] only, so [ireq] is its [editable] flag, or [None]. *)
Definition _prepare_wheel_building_kwargs (E : env) (ireq : option bool)
    (src_root src_dir : option string) (editable : bool)
  : disk → disk * result (list (string * string)) :=
  let download_dir := Extractors.path_join (CACHE_DIR E) "pkgs" in
  then_ (mkdir_p E download_dir) (λ _,
  let wheel_download_dir := Extractors.path_join (CACHE_DIR E) "wheels" in
  then_ (mkdir_p E wheel_download_dir) (λ _,
  then_ (match src_dir with
         | Some dir => λ d, (d, Ok (Some dir))
         | None =>
             if editable && bool_decide (is_Some src_root)
             then λ d, (d, Ok src_root)
             else if bool_decide (ireq = None) && bool_decide (is_Some src_root)
             then then_ (_get_src_dir E src_root) (λ p d, (d, Ok (Some p)))
             else if bool_decide (ireq = Some true) && bool_decide (is_Some src_root)
             then then_ (_get_src_dir E src_root) (λ p d, (d, Ok (Some p)))
             else then_ (create_tracked_tempdir E "reqlib-src" "")
                        (λ p d, (d, Ok (Some p)))
         end) (λ src_dir,
  then_ (match src_dir with
         | Some dir => λ d, (d, Ok dir)
         | None => create_tracked_tempdir E "reqlib-src" ""
         end) (λ src_dir,
  then_ (create_tracked_tempdir E "reqlib-build" "") (λ build_dir d,
    (d, Ok [("build_dir", build_dir); ("src_dir", src_dir);
            ("download_dir", download_dir);
            ("wheel_download_dir", wheel_download_dir)])))))).

(** An environment without overrides, on a machine whose temporary
    directories are numbered and where every directory can be made. *)
Fixpoint tally (n : nat) : string :=
  match n with O => "" | S k => "i" ++ tally k end.
Definition plain_env : env :=
  {| environ := λ _, None;
     user_cache_dir := λ app, "/cache/" ++ app;
     tempdir := λ n prefix suffix, "/tmp/" ++ prefix ++ tally n ++ suffix;
     refused := λ _, false |}.
Definition blank : disk := {| made := []; temps := 0 |}.

End Dirs.

(** ** [build_pep517] *)

Module Pep517.

(** The two families of hooks of a [Pep517HookCaller]. *)
Inductive hook_kind : Type := ForWheel | ForSdist.

(** What [build_pep517] does to the outside, in order. *)
Inductive action : Type :=
  | EnterEnv
  | PipInstall (reqs : list string)
  | GetRequires (kind : hook_kind)
  | Build (kind : hook_kind) (build_dir : string)
  | ExitEnv.

Record env : Type := {
  (** [utils.get_pyproject(source_dir)]: [requires] and the backend *)
  get_pyproject : string → option (list string * string);
  (** [BuildEnv.pip_install(reqs)] *)
  pip_install : list string → result unit;
  (** [hookcaller.get_requires_for_build_wheel / _sdist(config_settings)] *)
  get_requires_for_build : hook_kind → list (string * list string) → result (list string);
  (** [hookcaller.build_wheel / build_sdist(build_dir, config_settings)] *)
  build_hook : hook_kind → string → list (string * list string) → result string;
}.

(** A computation together with the actions it performed. *)
Definition traced (A : Type) : Type := list action * result A.

Definition then_ {A B} (m : traced A) (k : A → traced B) : traced B :=
  match m with
  | (t, Ok a) => let '(t', r) := k a in ((t ++ t')%list, r)
  | (t, Raise e) => (t, Raise e)
  end.

Definition act {A} (a : action) (r : result A) : traced A := ([a], r).

(** [with BuildEnv() as env: body]: the environment is left when the
    body returns and when it raises, and an exception goes on. *)
Definition with_BuildEnv {A} (body : traced A) : traced A :=
  let '(t, r) := body in ((EnterEnv :: t ++ [ExitEnv])%list, r).

Definition build_pep517 (E : env) (source_dir build_dir : string)
    (config_settings : option (list (string * list string))) (dist_type : string)
  : traced string :=
  let config_settings := default [] config_settings in
  match get_pyproject E source_dir with
  | None => ([], Raise TypeError)
  | Some (requires, backend) =>
      let kind := if String.eqb dist_type "sdist" then ForSdist else ForWheel in
      with_BuildEnv
        (then_ (act (PipInstall requires) (pip_install E requires)) (λ _,
         then_ (act (GetRequires kind) (get_requires_for_build E kind config_settings))
           (λ reqs,
         then_ (act (PipInstall reqs) (pip_install E reqs)) (λ _,
         act (Build kind build_dir) (build_hook E kind build_dir config_settings)))))
  end.

(** A backend for which everything works. *)
Definition working : env :=
  {| get_pyproject := λ _, Some (["setuptools"; "wheel"], "setuptools.build_meta");
     pip_install := λ _, Ok tt;
     get_requires_for_build := λ _ _, Ok ["wheel"];
     build_hook := λ kind _ _,
       match kind with
       | ForWheel => Ok "pkgA-1.0-py3-none-any.whl"
       | ForSdist => Ok "pkgA-1.0.tar.gz"
       end |}.

(** The actions between entering the build environment and leaving it. *)
Definition inner (a : action) : Prop := a ≠ EnterEnv ∧ a ≠ ExitEnv.

End Pep517.

(** ** Counting requirements *)

Module Measures.

(** The requirements filed in a dictionary of extras. *)
Fixpoint filed (extras : list (string * list Records.req_obj)) : nat :=
  match extras with
  | [] => 0
  | (_, reqs) :: rest => List.length reqs + filed rest
  end.

End Measures.

(** ** What a resolution pass may do to the aggregate *)

Module Growth.
Import Aggregate.

(** [s'] has the inputs of [s] (the directory, the three paths, the
    install requirement and the keyword arguments), every requirement of
    [s], the extras table of [s] as the beginning of its own, and the
    version and the Python constraint of [s] where [s] has them. *)
Definition extends (s s' : SetupInfo) : Prop :=
  base_dir s' = base_dir s
  ∧ setup_cfg s' = setup_cfg s
  ∧ setup_py s' = setup_py s
  ∧ pyproject s' = pyproject s
  ∧ ireq s' = ireq s
  ∧ extra_kwargs s' = extra_kwargs s
  ∧ _requirements s ⊆ _requirements s'
  ∧ _extras_requirements s `prefix_of` _extras_requirements s'
  ∧ (truthy_text (version s) = true → version s' = version s)
  ∧ (truthy_text (python_requires s) = true → python_requires s' = python_requires s).

End Growth.

(** ** The stages of a resolution pass *)

Module Stages.
Import Aggregate.

(** A method keeps [I]: when the aggregate and the world satisfy [I]
    before the call they satisfy it after, whether the call returns or
    raises. *)
Definition keeps {A} (I : state → Prop) (m : M A) : Prop :=
  ∀ st st' r, m st = (st', r) → I st → I st'.

(** The module-level slot [_setup_distribution] is empty, as the module
    leaves it, and the aggregate is named [n]. *)
Definition uncaptured (n : string) (st : state) : Prop :=
  _setup_distribution (world st) = None ∧ name (self st) = Some n.

(** Collaborators that do not assign the module-level slot: the build,
    the setup script run in its own namespace, and the subprocess. *)
Definition quiet (E : env) : Prop :=
  (∀ b d t w,
     _setup_distribution (build_pep517 E b d t w).1 = _setup_distribution w)
  ∧ (∀ s a w,
       _setup_distribution (exec_script E s a w).1 = _setup_distribution w)
  ∧ (∀ c a w,
       _setup_distribution (run_subprocess E c a w).1 = _setup_distribution w).

(** The extraction stages, with the arguments they are called with. *)
Inductive stage : Type :=
  | Config
  | Pyproject
  | Build
  | FromWheel (wheel_path : string)
  | FromEgg (metadata_dir metadata_type : option string)
  | Populate (metadata : list (string * mvalue))
  | Script
  | Resolve.

Definition run (E : env) (s : stage) : M unit :=
  match s with
  | Config => parse_setup_cfg E
  | Pyproject => run_pyproject E
  | Build => build E
  | FromWheel wheel_path => get_metadata_from_wheel E wheel_path
  | FromEgg metadata_dir metadata_type =>
      get_egg_metadata E metadata_dir metadata_type
  | Populate metadata => populate_metadata E metadata
  | Script => run_setup E
  | Resolve => get_info E ;; ret tt
  end.

(** A sequence of stages, one after the other; it stops at the first
    that raises. *)
Definition run_all (E : env) (stages : list stage) : M unit :=
  for_each stages (run E).

End Stages.

(** ** Concrete packages *)

Module Samples.
Import Records.

(** [sphinx; extra == 'docs'], [enum34; python_version < '3'] and friends,
    as [init_requirement] parses them. *)
Definition plain (n : string) : Requirement :=
  {| req_key := None; req_name := Some n; req_project_name := None;
     req_marker := None; req_text := n |}.

Definition marked (n : string) (markers : list marker_elem) (text : string)
  : Requirement :=
  {| req_key := None; req_name := Some n; req_project_name := None;
     req_marker := Some markers; req_text := text |}.

Definition sphinx_docs : Requirement :=
  marked "sphinx" [MTuple "extra" "==" "docs"] "sphinx; extra == 'docs'".
Definition enum34_py2 : Requirement :=
  marked "enum34" [MTuple "python_version" "<" "3"]
         "enum34; python_version < '3'".
Definition mock_py2_test : Requirement :=
  marked "mock"
         [MTuple "python_version" "<" "3"; MConn "and"; MTuple "extra" "==" "test"]
         "mock; python_version < '3' and extra == 'test'".

Definition parse_line (line : string) : result Requirement :=
  if String.eqb line "sphinx; extra == 'docs'" then Ok sphinx_docs
  else if String.eqb line "enum34; python_version < '3'" then Ok enum34_py2
  else if String.eqb line "enum34; python_version<'3'" then Ok enum34_py2
  else if String.eqb line "mock; python_version < '3' and extra == 'test'"
  then Ok mock_py2_test
  else SetupCfg.toy_requirement line.

(** What [utils.strip_extras_markers_from_requirement] returns on the
    requirements above: the comparison on [extra] leaves the marker,
    together with the connective in front of it. *)
Definition strip_sample (r : Requirement) : Requirement :=
  if decide (r = sphinx_docs) then plain "sphinx"
  else if decide (r = mock_py2_test)
  then marked "mock" [MTuple "python_version" "<" "3"]
              "mock; python_version < '3'"
  else r.

(** A wheel whose METADATA lists one unconditional requirement, one under
    a Python-version marker and two under extras. *)
Definition sample_wheel : Extractors.WheelMetadata :=
  {| Extractors.wm_name := Some "pkgA";
     Extractors.wm_version := Some "1.0";
     Extractors.wm_extras := ["docs"];
     Extractors.wm_run_requires :=
       ["requests"; "enum34; python_version < '3'";
        "sphinx; extra == 'docs'";
        "mock; python_version < '3' and extra == 'test'"] |}.

(** An egg-info distribution on Python 3 whose [requires.txt] puts
    [enum34] under the section [:python_version<'3'] and [sphinx] under
    [docs]: [requires()] has dropped the conditional section because its
    marker is false for the running interpreter. *)
Definition egg_dist : Extractors.Distribution :=
  {| Extractors.dist_project_name := Some "pkgA";
     Extractors.dist_version := Some "1.0";
     Extractors.dist_requires := Ok [plain "requests"];
     Extractors.dist_build_dep_map :=
       Ok [(None, [plain "requests"]);
           (Some ":python_version<'3'", [plain "enum34"]);
           (Some "docs", [plain "sphinx"])] |}.

(** A source tree with [pkgA.egg-info] next to the sources and
    [pkgA.dist-info] inside [build/]. *)
Definition both_conventions : list Extractors.node :=
  [Extractors.File "setup.py";
   Extractors.Dir "pkgA.egg-info" [Extractors.File "PKG-INFO"];
   Extractors.Dir "src" [Extractors.Dir "pkga" [Extractors.File "__init__.py"]];
   Extractors.Dir "build"
     [Extractors.Dir "pkgA.dist-info" [Extractors.File "METADATA"]]].

Definition variants (n : string) : list string :=
  [lower n].

Definition ext_env (tree : list Extractors.node) : Extractors.env :=
  {| Extractors.scandir := λ p, if String.eqb p "/pkg" then Ok tree else Ok [];
     Extractors.get_name_variants := variants;
     Extractors.abspath := λ p, p;
     Extractors.find_distributions :=
       λ d, if String.eqb d "/pkg/build" then [egg_dist] else [];
     Extractors.distributions_from_metadata := λ _, [];
     Extractors.Requirement_parse := parse_line;
     Extractors.Wheel :=
       λ p, if String.eqb p "/tmp/build/pkgA-1.0-py3-none-any.whl"
            then Some sample_wheel else None;
     Extractors.init_requirement := parse_line;
     Extractors.strip_extras_markers_from_requirement := strip_sample |}.

(** The extra [docs] with one requirement, and a requirement it does not
    have yet. *)
Definition docs : Extra :=
  {| extra_name := Some "docs";
     requirements := {[ from_req (RParsed (plain "sphinx")) ]} |}.
Definition theme : BaseRequirement := from_req (RParsed (plain "sphinx-rtd-theme")).

(** *** Worlds for the aggregate *)

Definition kwargs : list (string * string) :=
  [("build_dir", "/tmp/build"); ("src_dir", "/tmp/src");
   ("download_dir", "/cache/pkgs"); ("wheel_download_dir", "/cache/wheels")].

Definition empty_file : Directives.fs_node := Directives.RegularFile "".

(** A package directory with no packaging declaration at all. *)
Definition empty_dir : Aggregate.World :=
  {| Aggregate.files :=
       {[ "/pkg" := Directives.Directory;
          "/tmp/build" := Directives.Directory;
          "/tmp/src" := Directives.Directory ]};
     Aggregate.listing := λ _, Ok [];
     Aggregate._setup_distribution := None |}.

(** Modelled from the spec: [utils.get_default_pyproject_backend] is not
    part of this module; the spec has the aggregate default to a standard
    backend when no descriptor file names one. *)
Definition standard_backend : string := "setuptools.build_meta:__legacy__".

(** Collaborators for which every build fails and the setup script, when
    there is one, returns without leaving a distribution. *)
Definition failing_build : Aggregate.env :=
  {| Aggregate.cfg := SetupCfg.empty_cfg_env;
     Aggregate.ext := ext_env [];
     Aggregate.get_default_pyproject_backend := standard_backend;
     Aggregate.get_pyproject := λ _ _, Ok None;
     Aggregate.build_pep517 := λ _ _ _ w, (w, Raise BuildBackendError);
     Aggregate.exec_script := λ _ _ w, (w, Aggregate.Returned);
     Aggregate.run_subprocess := λ _ _ w, (w, Ok tt);
     Aggregate.SpecifierSet := λ t, Ok t;
     Aggregate.rmtree_listed := λ _ w, w |}.

(** A package whose [setup.cfg] names it [pkgA] while its [setup.py]
    builds a distribution named [pkgB] and leaves it in the slot. *)
Definition pkgB_dist : Aggregate.SetupDist :=
  {| Aggregate.get_name := "pkgB";
     Aggregate.dist_python_requires := None;
     Aggregate.extras_require := [];
     Aggregate.get_requires := [];
     Aggregate.install_requires := [RStr "requests"];
     Aggregate.dist_setup_requires := [];
     Aggregate.get_version := "2.0" |}.

Definition two_names_dir : Aggregate.World :=
  {| Aggregate.files :=
       {[ "/pkg" := Directives.Directory;
          "/pkg/setup.cfg" := empty_file;
          "/pkg/setup.py" := empty_file;
          "/tmp/build" := Directives.Directory;
          "/tmp/src" := Directives.Directory ]};
     Aggregate.listing := λ _, Ok [];
     Aggregate._setup_distribution := None |}.

Definition two_names : Aggregate.env :=
  {| Aggregate.cfg := SetupCfg.sample_cfg_env;
     Aggregate.ext := ext_env [];
     Aggregate.get_default_pyproject_backend := standard_backend;
     Aggregate.get_pyproject := λ _ _, Ok None;
     Aggregate.build_pep517 := λ _ _ _ w, (w, Raise BuildBackendError);
     Aggregate.exec_script := λ _ _ w,
       ({| Aggregate.files := Aggregate.files w;
           Aggregate.listing := Aggregate.listing w;
           Aggregate._setup_distribution := Some pkgB_dist |},
        Aggregate.Returned);
     Aggregate.run_subprocess := λ _ _ w, (w, Ok tt);
     Aggregate.SpecifierSet := λ t, Ok t;
     Aggregate.rmtree_listed := λ _ w, w |}.

Definition fresh (E : Aggregate.env) (w : Aggregate.World) : Aggregate.state :=
  {| Aggregate.self := Aggregate.created E "/pkg" None None (Some kwargs);
     Aggregate.world := w |}.

(** An aggregate that an earlier pass resolved to [pkgA 1.0]. *)
Definition resolved : Aggregate.SetupInfo :=
  Aggregate.set_name (Some "pkgA")
    (Aggregate.set_version (Some "1.0")
       (Aggregate.set_requirements
          {[ Aggregate.Base (from_req (RParsed (plain "requests"))) ]}
          (Aggregate.created failing_build "/pkg" None None (Some kwargs)))).

(** A metadata dictionary for [pkgA]: one requirement, one extra. *)
Definition declared : list (string * Extractors.mvalue) :=
  [("name", Extractors.MText "pkgA");
   ("version", Extractors.MText "1.0");
   ("requires", Extractors.MList [RParsed (plain "six")]);
   ("extras", Extractors.MDict [("docs", [RParsed (plain "sphinx")])])].

(** A fresh aggregate for the requirement [pkgA[docs]]. *)
Definition docs_requested : Aggregate.state :=
  {| Aggregate.self :=
       Aggregate.created failing_build "/pkg" None
         (Some {| Aggregate.ireq_extras := ["docs"] |}) (Some kwargs);
     Aggregate.world := empty_dir |}.

(** What the wheel and the egg-info extractors return for the samples. *)
Definition wheel_result : list (string * Extractors.mvalue) :=
  match Extractors.get_metadata_from_wheel (ext_env [])
          "/tmp/build/pkgA-1.0-py3-none-any.whl" with
  | Ok result => result
  | Raise _ => []
  end.
Definition dist_result : list (string * Extractors.mvalue) :=
  match Extractors.get_metadata_from_dist (ext_env []) egg_dist with
  | Ok result => result
  | Raise _ => []
  end.

(** [resolved] with a Python constraint. *)
Definition pinned : Aggregate.SetupInfo :=
  Aggregate.set_python_requires (Some ">=3.6") resolved.

(** A package that has a [pyproject.toml] naming [flit]. *)
Definition flit_dir : Aggregate.World :=
  {| Aggregate.files :=
       {[ "/pkg" := Directives.Directory;
          "/pkg/pyproject.toml" := empty_file;
          "/tmp/build" := Directives.Directory;
          "/tmp/src" := Directives.Directory ]};
     Aggregate.listing := λ _, Ok [];
     Aggregate._setup_distribution := None |}.

Definition flit : Aggregate.env :=
  {| Aggregate.cfg := SetupCfg.empty_cfg_env;
     Aggregate.ext := ext_env [];
     Aggregate.get_default_pyproject_backend := standard_backend;
     Aggregate.get_pyproject :=
       λ _ _, Ok (Some (["flit_core"], Some "flit_core.buildapi"));
     Aggregate.build_pep517 := λ _ _ _ w, (w, Raise BuildBackendError);
     Aggregate.exec_script := λ _ _ w, (w, Aggregate.Returned);
     Aggregate.run_subprocess := λ _ _ w, (w, Ok tt);
     Aggregate.SpecifierSet := λ t, Ok t;
     Aggregate.rmtree_listed := λ _ w, w |}.

(** A [setup.cfg] that names the package and leaves the version blank. *)
Definition blank_version_cfg : SetupCfg.env :=
  {| SetupCfg.os_env := SetupCfg.exists_only "setup.cfg";
     SetupCfg.read := λ _, Ok {| SetupCfg.file_defaults := [];
       SetupCfg.file_sections :=
         [("metadata", [("name", "pkgA"); ("version", "")])] |};
     SetupCfg.init_requirement := parse_line |}.

(** Collaborators for which the wheel build succeeds; the setup script
    runs in its own namespace and leaves the module's slot alone. *)
Definition wheel_builder : Aggregate.env :=
  {| Aggregate.cfg := blank_version_cfg;
     Aggregate.ext := ext_env [];
     Aggregate.get_default_pyproject_backend := standard_backend;
     Aggregate.get_pyproject := λ _ _, Ok None;
     Aggregate.build_pep517 := λ _ _ _ w, (w, Ok "pkgA-1.0-py3-none-any.whl");
     Aggregate.exec_script := λ _ _ w, (w, Aggregate.Returned);
     Aggregate.run_subprocess := λ _ _ w, (w, Ok tt);
     Aggregate.SpecifierSet := λ t, Ok t;
     Aggregate.rmtree_listed := λ _ w, w |}.

(** A [setup.cfg] whose [name] points at a file that is not there and
    whose [build_requires] points at an attribute that is not there. *)
Definition readme_cfg : SetupCfg.env :=
  {| SetupCfg.os_env := SetupCfg.exists_only "setup.cfg";
     SetupCfg.read := λ _, Ok {| SetupCfg.file_defaults := [];
       SetupCfg.file_sections :=
         [("metadata", [("name", "file: README.rst")]);
          ("options", [("build_requires", "attr: pkg.missing")])] |};
     SetupCfg.init_requirement := parse_line |}.

(** The same file with a [version] that points at a missing attribute. *)
Definition missing_attr_cfg : SetupCfg.env :=
  {| SetupCfg.os_env := SetupCfg.exists_only "setup.cfg";
     SetupCfg.read := λ _, Ok {| SetupCfg.file_defaults := [];
       SetupCfg.file_sections :=
         [("metadata", [("name", "file: README.rst");
                        ("version", "attr: pkg.missing")]);
          ("options", [("build_requires", "attr: pkg.missing")])] |};
     SetupCfg.init_requirement := parse_line |}.

(** What [parse_setup_cfg] returns for [readme_cfg]. *)
Definition readme_results : gmap string SetupCfg.value :=
  match SetupCfg.parse_setup_cfg readme_cfg "setup.cfg" with
  | Ok (Some results) => results
  | _ => ∅
  end.

(** A directory that holds the two metadata directories of [pkgA] side
    by side.  [pkg_resources] lists the distributions of a directory in
    an order of its own, here the legacy one first. *)
Definition side_by_side : list Extractors.node :=
  [Extractors.File "setup.py";
   Extractors.Dir "pkgA.egg-info" [Extractors.File "PKG-INFO"];
   Extractors.Dir "pkgA.dist-info" [Extractors.File "METADATA"]].

Definition legacy_dist : Extractors.Distribution :=
  {| Extractors.dist_project_name := Some "pkgA";
     Extractors.dist_version := Some "0.9";
     Extractors.dist_requires := Ok [plain "six"];
     Extractors.dist_build_dep_map := Ok [(None, [plain "six"])] |}.

Definition modern_dist : Extractors.Distribution :=
  {| Extractors.dist_project_name := Some "pkgA";
     Extractors.dist_version := Some "1.0";
     Extractors.dist_requires := Ok [plain "requests"];
     Extractors.dist_build_dep_map := Ok [(None, [plain "requests"])] |}.

Definition legacy_listed_first : Extractors.env :=
  {| Extractors.scandir :=
       λ p, if String.eqb p "/pkg" then Ok side_by_side else Ok [];
     Extractors.get_name_variants := variants;
     Extractors.abspath := λ p, p;
     Extractors.find_distributions :=
       λ d, if String.eqb d "/pkg" then [legacy_dist; modern_dist] else [];
     Extractors.distributions_from_metadata :=
       λ p, if String.eqb p "/pkg/pkgA.dist-info" then [modern_dist]
            else if String.eqb p "/pkg/pkgA.egg-info" then [legacy_dist]
            else [];
     Extractors.Requirement_parse := parse_line;
     Extractors.Wheel := λ _, None;
     Extractors.init_requirement := parse_line;
     Extractors.strip_extras_markers_from_requirement := strip_sample |}.

End Samples.

(** * Properties *)

Example split_file : split "file: README.rst" "file:" = [""; " README.rst"].
Proof. reflexivity. Qed.
Example split_twice : split "file:a file:b" "file:" = [""; "a "; "b"].
Proof. reflexivity. Qed.
Example strip_ex : strip "  a b
 " = "a b".
Proof. reflexivity. Qed.
Example rpartition_ex : rpartition "pkg.sub.attr" "." = ("pkg.sub", ".", "attr").
Proof. reflexivity. Qed.
Example endswith_ex : endswith ".egg-info" "egg-info" = true.
Proof. reflexivity. Qed.
Example directive_attr :
  Directives.parse_special_directives Directives.with_pkg "attr: pkg.__version__"
  = Ok "1.0".
Proof. reflexivity. Qed.
Example directive_file :
  Directives.parse_special_directives Directives.with_pkg "file: VERSION"
  = Ok "1.0
".
Proof. reflexivity. Qed.

(** ** Directives in [setup.cfg] values *)

Section DirectiveProperties.
Import Directives.

Lemma file_prefix_excludes_attr s :
  startswith s "file:" = true → startswith s "attr:" = false.
Proof.
  destruct s as [|c s]; [done|].
  unfold startswith; cbn [String.prefix].
  destruct (ascii_dec "f" c) as [<-|]; [done|discriminate].
Qed.

Lemma split_go_nonempty sep s : ∀ skip cur, split_go sep skip cur s ≠ [].
Proof.
  induction s as [|c s IH]; intros skip cur; cbn [split_go]; [done|].
  destruct skip; [|apply IH]. by destruct (String.prefix sep (String c s)).
Qed.

(** A text that starts with the separator splits into two pieces at
    least. *)
Lemma split_startswith s sep :
  sep ≠ "" → startswith s sep = true → (2 <= List.length (split s sep))%nat.
Proof.
  intros Hsep Hpre. unfold split, startswith in *.
  destruct s as [|c s]; [by destruct sep|]. cbn [split_go]. rewrite Hpre.
  cbn [List.length].
  pose proof (split_go_nonempty sep s (String.length sep - 1) "") as Hne.
  destruct (split_go sep _ _ s); [done|]. cbn. lia.
Qed.

(** What [parse_special_directives] does with a directive whose target
    is not there. *)
Lemma unresolved_attr_raises (E : Directives.env) (setup_entry : string) :
  startswith setup_entry "attr:" = true →
  unresolved E setup_entry = true →
  ∃ e, parse_special_directives E setup_entry = Raise e.
Proof.
  intros Hattr. unfold unresolved, parse_special_directives.
  destruct (startswith setup_entry "file:") eqn:Hfile.
  { by rewrite (file_prefix_excludes_attr _ Hfile) in Hattr. }
  rewrite Hattr. unfold attr_resolves.
  destruct (attr_target setup_entry) as [[resource [attribute|]]|e]; cbn;
    [|intros _; destruct (import_module E resource); cbn; eauto|eauto].
  destruct (import_module E resource) as [m|e]; cbn; [|eauto].
  intros Hno%negb_true_iff%bool_decide_eq_false.
  unfold getattr. destruct (m attribute); cbn; [|eauto].
  destruct Hno; eauto.
Qed.

Lemma unresolved_file_verbatim (E : Directives.env) (setup_entry : string) :
  startswith setup_entry "file:" = true →
  unresolved E setup_entry = true →
  match file_target setup_entry with
  | Ok _ => parse_special_directives E setup_entry = Ok setup_entry
  | Raise e =>
      e = ValueError
      ∧ (2 < List.length (split setup_entry "file:"))%nat
      ∧ parse_special_directives E setup_entry = Raise ValueError
  end.
Proof.
  intros Hfile. unfold unresolved, parse_special_directives. rewrite Hfile.
  unfold file_resolves.
  pose proof (split_startswith setup_entry "file:" ltac:(done) Hfile) as Hlen.
  unfold file_target in *.
  destruct (unpack2 (split setup_entry "file:")) as [[a path]|e] eqn:Hsplit;
    cbn [bind].
  - intros Hmissing%negb_true_iff. by rewrite Hmissing.
  - intros _. unfold unpack2 in Hsplit.
    destruct (split setup_entry "file:") as [|p1 [|p2 [|p3 rest]]];
      cbn [List.length] in *; simplify_eq; repeat split; try done; lia.
Qed.

End DirectiveProperties.

(** ** The keys of the parsed [setup.cfg] *)

Section SetupCfgProperties.
Import Directives SetupCfg.

Lemma store_directive_inv E c section option key results results' :
  store_directive E c section option key results = Ok results' →
  (has_option c section option = true ∧ ∃ v, results' = <[key := VStr v]> results)
  ∨ (has_option c section option = false ∧ results' = results).
Proof.
  unfold store_directive.
  destruct (has_option c section option); [|intros [= <-]; by right].
  destruct (get c section option); cbn; [|done].
  destruct (Directives.parse_special_directives _ _); cbn; [|done].
  intros [= <-]. left. eauto.
Qed.

(** C5, counterexample: a [setup.cfg] without any section still yields
    the keys [install_requires] and [extras_require], mapped to an empty
    set and an empty tuple. *)
Lemma absent_sections_present_as_empty :
  bind (read empty_cfg_env "setup.cfg") (λ parser, Ok (sections parser)) = Ok []
  ∧ parse_setup_cfg empty_cfg_env "setup.cfg"
    = Ok (Some {[ "install_requires" := VReqs ∅; "extras_require" := VExtras [] ]}).
Proof. split; reflexivity. Qed.

Lemma filter_all_empty (lines : list string) :
  (∀ line, line ∈ lines → line = "") → List.filter nonempty lines = [].
Proof.
  induction lines as [|l ls IH]; [done|]. intros Hall. cbn.
  rewrite (Hall l) by (by left). cbn. apply IH. intros. apply Hall. by right.
Qed.

(** C5, as amended: the keys [name], [version], [python_requires] and
    [build_requires] are in the result exactly when the file declares the
    option; [install_requires] and [extras_require] are always in it,
    holding the empty set and the empty tuple when the file declares
    nothing for them. *)
Theorem parse_setup_cfg_keys (E : env) (path : string) (results : gmap string value) :
  parse_setup_cfg E path = Ok (Some results) →
  ∃ parser rs es, read E path = Ok parser
    ∧ (is_Some (results !! "name") ↔ has_option parser "metadata" "name" = true)
    ∧ (is_Some (results !! "version") ↔ has_option parser "metadata" "version" = true)
    ∧ (is_Some (results !! "python_requires")
       ↔ has_option parser "options" "python_requires" = true)
    ∧ (is_Some (results !! "build_requires")
       ↔ has_option parser "options" "build_requires" = true)
    ∧ results !! "install_requires" = Some (VReqs rs)
    ∧ results !! "extras_require" = Some (VExtras es)
    ∧ (has_option parser "options" "install_requires" = false → rs = ∅)
    ∧ (∀ text, get parser "options" "install_requires" = Ok text →
               (∀ line, line ∈ split text "
" → line = "") → rs = ∅)
    ∧ ("options.extras_require" ∉ sections parser → es = []).
Proof.
  unfold parse_setup_cfg.
  destruct (Directives.os_path_exists _ _); [|done].
  destruct (read E path) as [parser|]; cbn [bind]; [|done].
  destruct (store_directive E parser "metadata" "name" "name" ∅)
    as [r1|] eqn:H1; cbn [bind]; [|done].
  destruct (store_directive E parser "metadata" "version" "version" r1)
    as [r2|] eqn:H2; cbn [bind]; [|done].
  match goal with |- context [bind ?m _] => destruct m as [ir|] eqn:Hir; cbn [bind]; [|done] end.
  destruct (store_directive E parser "options" "python_requires" _ _)
    as [r3|] eqn:H3; cbn [bind]; [|done].
  match goal with |- context [bind ?m _] => destruct m as [r4|] eqn:H4; cbn [bind]; [|done] end.
  match goal with |- context [bind ?m _] => destruct m as [ex|] eqn:Hex; cbn [bind]; [|done] end.
  intros [= <-]. exists parser, ir, ex. split; [done|].
  apply store_directive_inv in H1, H2, H3.
  assert ((has_option parser "options" "build_requires" = true
           ∧ ∃ v, r4 = <["build_requires" := VStr v]> r3)
          ∨ (has_option parser "options" "build_requires" = false ∧ r4 = r3)) as H4'.
  { destruct (has_option parser "options" "build_requires");
      [|injection H4 as <-; by right].
    destruct (get parser "options" "build_requires"); cbn in H4; [|done].
    injection H4 as <-. left. eauto. }
  clear H4.
  assert (has_option parser "options" "install_requires" = false → ir = ∅) as Hno.
  { intros Hhas. rewrite Hhas in Hir. by injection Hir. }
  assert (∀ text, get parser "options" "install_requires" = Ok text →
                  (∀ line, line ∈ split text "
" → line = "") → ir = ∅) as Hblank.
  { intros text Hget Hall.
    destruct (has_option parser "options" "install_requires"); [|by apply Hno].
    rewrite Hget in Hir. cbn [bind] in Hir. unfold install_requires_of in Hir.
    rewrite filter_all_empty in Hir by done. by injection Hir. }
  assert ("options.extras_require" ∉ sections parser → ex = []) as Hnone.
  { intros Hout. rewrite bool_decide_eq_false_2 in Hex by done. by injection Hex. }
  destruct H1 as [[-> [v1 ->]]|[-> ->]], H2 as [[-> [v2 ->]]|[-> ->]],
    H3 as [[-> [v3 ->]]|[-> ->]], H4' as [[-> [v4 ->]]|[-> ->]];
    repeat split; intros; simplify_map_eq; try done; try (by eexists); eauto.
Qed.

Lemma parse_setup_cfg_keys_witness :
  ∃ parser rs es, read Samples.readme_cfg "setup.cfg" = Ok parser
    ∧ (is_Some (Samples.readme_results !! "name")
       ↔ has_option parser "metadata" "name" = true)
    ∧ (is_Some (Samples.readme_results !! "version")
       ↔ has_option parser "metadata" "version" = true)
    ∧ (is_Some (Samples.readme_results !! "python_requires")
       ↔ has_option parser "options" "python_requires" = true)
    ∧ (is_Some (Samples.readme_results !! "build_requires")
       ↔ has_option parser "options" "build_requires" = true)
    ∧ Samples.readme_results !! "install_requires" = Some (VReqs rs)
    ∧ Samples.readme_results !! "extras_require" = Some (VExtras es)
    ∧ (has_option parser "options" "install_requires" = false → rs = ∅)
    ∧ (∀ text, get parser "options" "install_requires" = Ok text →
               (∀ line, line ∈ split text "
" → line = "") → rs = ∅)
    ∧ ("options.extras_require" ∉ sections parser → es = []).
Proof.
  apply (parse_setup_cfg_keys Samples.readme_cfg "setup.cfg" Samples.readme_results).
  reflexivity.
Defined.

Lemma store_directive_spec E c section option key results results' :
  store_directive E c section option key results = Ok results' →
  (has_option c section option = true
   ∧ ∃ raw v, get c section option = Ok raw
              ∧ parse_special_directives (os_env E) raw = Ok v
              ∧ results' = <[key := VStr v]> results)
  ∨ (has_option c section option = false ∧ results' = results).
Proof.
  unfold store_directive.
  destruct (has_option c section option); [|intros [= <-]; by right].
  destruct (get c section option) as [raw|]; cbn; [|done].
  destruct (parse_special_directives _ _) as [v|] eqn:Hv; cbn; [|done].
  intros [= <-]. left. eauto 10.
Qed.

(** What the returned dictionary holds for the three fields that go
    through [parse_special_directives], and for [build_requires]. *)
Lemma parse_setup_cfg_fields E path parser results :
  read E path = Ok parser →
  parse_setup_cfg E path = Ok (Some results) →
  (∀ section option key raw,
     (section, option, key)
       ∈ [("metadata", "name", "name"); ("metadata", "version", "version");
          ("options", "python_requires", "python_requires")] →
     has_option parser section option = true →
     get parser section option = Ok raw →
     ∃ v, parse_special_directives (os_env E) raw = Ok v
          ∧ results !! key = Some (VStr v))
  ∧ (∀ raw, has_option parser "options" "build_requires" = true →
            get parser "options" "build_requires" = Ok raw →
            results !! "build_requires" = Some (VStr raw)).
Proof.
  intros Hread. unfold parse_setup_cfg.
  destruct (os_path_exists _ _); [|done]. rewrite Hread. cbn [bind].
  destruct (store_directive E parser "metadata" "name" "name" ∅)
    as [r1|] eqn:H1; cbn [bind]; [|done].
  destruct (store_directive E parser "metadata" "version" "version" r1)
    as [r2|] eqn:H2; cbn [bind]; [|done].
  match goal with |- context [bind ?m _] => destruct m as [ir|]; cbn [bind]; [|done] end.
  destruct (store_directive E parser "options" "python_requires" _ _)
    as [r3|] eqn:H3; cbn [bind]; [|done].
  match goal with |- context [bind ?m _] => destruct m as [r4|] eqn:H4; cbn [bind]; [|done] end.
  match goal with |- context [bind ?m _] => destruct m as [ex|]; cbn [bind]; [|done] end.
  intros [= <-].
  apply store_directive_spec in H1, H2, H3.
  assert ((has_option parser "options" "build_requires" = true
           ∧ ∃ v, get parser "options" "build_requires" = Ok v
                  ∧ r4 = <["build_requires" := VStr v]> r3)
          ∨ (has_option parser "options" "build_requires" = false ∧ r4 = r3)) as H4'.
  { destruct (has_option parser "options" "build_requires");
      [|injection H4 as <-; by right].
    destruct (get parser "options" "build_requires"); cbn in H4; [|done].
    injection H4 as <-. left. eauto. }
  clear H4. split.
  - intros section option key raw Hin Hhas Hget.
    repeat (apply elem_of_cons in Hin as [[= -> -> ->]|Hin]);
      [| | |by apply elem_of_nil in Hin].
    + destruct H1 as [(_ & raw1 & v & Hg & Hv & ->)|[? _]]; [|congruence].
      exists v. split; [congruence|].
      destruct H2 as [(_ & ? & ? & _ & _ & ->)|[_ ->]],
        H3 as [(_ & ? & ? & _ & _ & ->)|[_ ->]],
        H4' as [(_ & ? & _ & ->)|[_ ->]]; by simplify_map_eq.
    + destruct H2 as [(_ & raw1 & v & Hg & Hv & ->)|[? _]]; [|congruence].
      exists v. split; [congruence|].
      destruct H3 as [(_ & ? & ? & _ & _ & ->)|[_ ->]],
        H4' as [(_ & ? & _ & ->)|[_ ->]]; by simplify_map_eq.
    + destruct H3 as [(_ & raw1 & v & Hg & Hv & ->)|[? _]]; [|congruence].
      exists v. split; [congruence|].
      destruct H4' as [(_ & ? & _ & ->)|[_ ->]]; by simplify_map_eq.
  - intros raw Hhas Hget.
    destruct H4' as [(_ & v & Hg & ->)|[? _]]; [|congruence].
    replace v with raw by congruence. by simplify_map_eq.
Qed.

Lemma parse_setup_cfg_returns_dict E path :
  os_path_exists (os_env E) path = true → parse_setup_cfg E path ≠ Ok None.
Proof.
  intros Hexists. unfold parse_setup_cfg. rewrite Hexists.
  repeat match goal with
         | |- bind ?m _ ≠ _ => destruct m; cbn [bind]
         end; done.
Qed.

(** C4, counterexample: with no [README.rst] on disk and no module
    [pkg], the extractor returns; the unresolved [file:] directive is the
    name, as it was written, and so is the [attr:] directive under
    [build_requires]. *)
Lemma unresolved_directives_returned_verbatim :
  unresolved (os_env Samples.readme_cfg) "file: README.rst" = true
  ∧ unresolved (os_env Samples.readme_cfg) "attr: pkg.missing" = true
  ∧ ∃ results,
      parse_setup_cfg Samples.readme_cfg "setup.cfg" = Ok (Some results)
      ∧ results !! "name" = Some (VStr "file: README.rst")
      ∧ results !! "build_requires" = Some (VStr "attr: pkg.missing").
Proof.
  split; [reflexivity|]. split; [reflexivity|].
  eexists. split; [reflexivity|]. split; reflexivity.
Qed.

(** C4, as amended.  The extractor resolves directives in [name],
    [version] and [python_requires] only.  There, a directive whose
    target is not there makes the extractor raise when it is an [attr:]
    directive; when it is a [file:] directive, the extractor raises (the
    [ValueError] of the unpacking) if the text holds [file:] more than
    once, and otherwise whatever it returns holds the directive as it was
    written.  [build_requires] is stored as written, whatever it starts
    with. *)
Theorem unresolved_directive (E : env) (path : string) (parser : config) :
  os_path_exists (os_env E) path = true →
  read E path = Ok parser →
  (∀ section option key raw,
     (section, option, key)
       ∈ [("metadata", "name", "name"); ("metadata", "version", "version");
          ("options", "python_requires", "python_requires")] →
     has_option parser section option = true →
     get parser section option = Ok raw →
     unresolved (os_env E) raw = true →
     if startswith raw "attr:"
     then ∃ e, parse_setup_cfg E path = Raise e
     else match file_target raw with
          | Ok _ =>
              ∀ results, parse_setup_cfg E path = Ok (Some results) →
                         results !! key = Some (VStr raw)
          | Raise e =>
              e = ValueError
              ∧ (2 < List.length (split raw "file:"))%nat
              ∧ ∃ e', parse_setup_cfg E path = Raise e'
          end)
  ∧ (∀ raw results,
       has_option parser "options" "build_requires" = true →
       get parser "options" "build_requires" = Ok raw →
       parse_setup_cfg E path = Ok (Some results) →
       results !! "build_requires" = Some (VStr raw)).
Proof.
  intros Hexists Hread.
  assert (∀ section option key raw e0,
            (section, option, key)
              ∈ [("metadata", "name", "name"); ("metadata", "version", "version");
                 ("options", "python_requires", "python_requires")] →
            has_option parser section option = true →
            get parser section option = Ok raw →
            parse_special_directives (os_env E) raw = Raise e0 →
            ∃ e, parse_setup_cfg E path = Raise e) as Hraise.
  { intros section option key raw e0 Hin Hhas Hget Hfail.
    destruct (parse_setup_cfg E path) as [[results|]|e] eqn:Hrun; [| |eauto].
    - destruct (parse_setup_cfg_fields E path parser results Hread Hrun) as [Hf _].
      destruct (Hf _ _ _ _ Hin Hhas Hget) as (v & Hv & _). congruence.
    - by apply parse_setup_cfg_returns_dict in Hrun. }
  split.
  - intros section option key raw Hin Hhas Hget Hun.
    destruct (startswith raw "attr:") eqn:Hattr.
    + destruct (unresolved_attr_raises _ _ Hattr Hun) as [e0 He0].
      by eapply Hraise.
    + assert (startswith raw "file:" = true) as Hfile.
      { revert Hun. unfold unresolved. rewrite Hattr.
        by destruct (startswith raw "file:"). }
      pose proof (unresolved_file_verbatim _ _ Hfile Hun) as Hv.
      destruct (file_target raw) as [p|e].
      * intros results Hrun.
        destruct (parse_setup_cfg_fields E path parser results Hread Hrun) as [Hf _].
        destruct (Hf _ _ _ _ Hin Hhas Hget) as (v & Hv' & ->). congruence.
      * destruct Hv as (-> & Hlen & Hfail). repeat split; [done|].
        by eapply Hraise.
  - intros raw results Hhas Hget Hrun.
    destruct (parse_setup_cfg_fields E path parser results Hread Hrun) as [_ Hb].
    by apply Hb.
Qed.

Lemma unresolved_directive_witness :
  (∃ e, parse_setup_cfg Samples.missing_attr_cfg "setup.cfg" = Raise e)
  ∧ (∀ results,
       parse_setup_cfg Samples.readme_cfg "setup.cfg" = Ok (Some results) →
       results !! "name" = Some (VStr "file: README.rst")).
Proof.
  split.
  - refine (proj1 (unresolved_directive Samples.missing_attr_cfg "setup.cfg" _ _ _)
              "metadata" "version" "version" "attr: pkg.missing" _ _ _ _);
      [reflexivity|reflexivity| |reflexivity|reflexivity|reflexivity].
    apply list_elem_of_In; simpl; auto.
  - refine (proj1 (unresolved_directive Samples.readme_cfg "setup.cfg" _ _ _)
              "metadata" "name" "name" "file: README.rst" _ _ _ _);
      [reflexivity|reflexivity| |reflexivity|reflexivity|reflexivity].
    apply list_elem_of_In; simpl; auto.
Defined.

End SetupCfgProperties.

(** ** Frozen records *)

Section RecordProperties.
Import Records.

Lemma add_present (self : Extra) (req : BaseRequirement) :
  req ∈ requirements self → add self req = Ok self.
Proof.
  intros Hin. unfold add. rewrite bool_decide_eq_false_2; [done|]. by intros [].
Qed.

Lemma add_absent (self : Extra) (req : BaseRequirement) :
  req ∉ requirements self → add self req = Raise TypeError.
Proof. intros Hout. unfold add. by rewrite bool_decide_eq_true_2. Qed.

(** C10: adding to the extra [docs] a requirement that it does not hold
    returns no new value; the call raises [TypeError], because what reaches
    [frozenset] is the [None] that [set.add] returns. *)
Lemma add_new_requirement_raises :
  (Samples.theme ∉ requirements Samples.docs)
  ∧ add Samples.docs Samples.theme = Raise TypeError.
Proof.
  assert (Samples.theme ∉ requirements Samples.docs) as Hout.
  { apply (bool_decide_unpack _). vm_compute. exact I. }
  split; [done|]. by apply add_absent.
Qed.

End RecordProperties.

(** ** Extras and markers in the extractors *)

Section ExtractorProperties.
Import Records Extractors.

Lemma dict_get_set {V} (k : string) (v : V) (d : list (string * V)) :
  dict_get k (dict_set k v d) = Some v.
Proof.
  unfold dict_get. induction d as [|[k' v'] d IH]; cbn.
  - by rewrite String.eqb_refl.
  - destruct (String.eqb k' k) eqn:Hk; cbn; [by rewrite String.eqb_refl|].
    by rewrite Hk.
Qed.

(** In the wheel extractor, a requirement whose marker has a comparison on
    [extra] at its top level leaves [requires] as it was and is appended,
    stripped, to the list of that extra. *)
Lemma wheel_step_extra (E : env) requires extras req parsed_req markers extra :
  init_requirement E req = Ok parsed_req →
  req_marker parsed_req = Some markers →
  first_extra markers = Some extra →
  ∃ extras',
    wheel_step E (requires, extras) req = Ok (requires, extras')
    ∧ dict_get extra extras'
      = Some (default [] (dict_get extra extras)
              ++ [RParsed (strip_extras_markers_from_requirement E parsed_req)])%list.
Proof.
  intros Hinit Hmarker Hextra. unfold wheel_step. rewrite Hinit; cbn.
  rewrite Hmarker; cbn.
  destruct markers as [|m markers]; [done|]. rewrite Hextra; cbn.
  eexists. split; [reflexivity|]. rewrite dict_get_set.
  destruct (dict_get extra extras) eqn:Hget; cbn; rewrite ?Hget, ?dict_get_set; done.
Qed.

(** In the wheel extractor, a requirement whose marker has no comparison
    on [extra] at its top level is appended to [requires] as parsed, its
    marker included. *)
Lemma wheel_step_version_marker (E : env) requires extras req parsed_req m markers :
  init_requirement E req = Ok parsed_req →
  req_marker parsed_req = Some (m :: markers) →
  first_extra (m :: markers) = None →
  wheel_step E (requires, extras) req
  = Ok (requires ++ [RParsed parsed_req], extras)%list.
Proof.
  intros Hinit Hmarker Hextra. unfold wheel_step. rewrite Hinit. cbn [bind].
  rewrite Hmarker. unfold get_extra_name_from_marker. cbn [bind].
  by rewrite Hextra.
Qed.

(** C6: for an egg-info distribution whose dependency map holds [enum34]
    under the section [:python_version<'3'], the loop of
    [get_metadata_from_dist] does build the unconditional list [deps] with
    [enum34; python_version<'3'] in it, but the dictionary it returns
    takes its ["requires"] from [dist.requires()], where the requirement
    is missing. *)
Lemma version_marked_requirement_lost_from_dist :
  (∃ deps extras,
     bind (dist_build_dep_map Samples.egg_dist)
          (dist_loop (Samples.ext_env []) ([], []))
     = Ok (deps, extras)
     ∧ Samples.enum34_py2 ∈ deps)
  ∧ get_metadata_from_dist (Samples.ext_env []) Samples.egg_dist
    = Ok [("name", MText "pkgA"); ("version", MText "1.0");
          ("requires", MList [RParsed (Samples.plain "requests")]);
          ("extras", MDict [("docs", [RParsed (Samples.plain "sphinx")])])].
Proof.
  split; [|reflexivity].
  eexists _, _. split; [reflexivity|].
  apply list_elem_of_In. cbn. auto.
Qed.

(** The three entries that [get_metadata_from_dist] copies from the
    distribution. *)
Lemma get_metadata_from_dist_fields (E : env) (dist : Distribution)
    (result : list (string * mvalue)) :
  get_metadata_from_dist E dist = Ok result →
  dict_get "name" result = Some (opt_text (dist_project_name dist))
  ∧ dict_get "version" result = Some (opt_text (dist_version dist))
  ∧ dict_get "requires" result
    = Some (MList (RParsed <$> match dist_requires dist with
                               | Ok reqs => reqs
                               | Raise _ => []
                               end)).
Proof.
  unfold get_metadata_from_dist.
  destruct (dist_loop E _ _) as [[deps extras]|]; cbn [bind]; [|done].
  by intros [= <-].
Qed.




End ExtractorProperties.


(** ** The aggregate *)

Section AggregateProperties.
Import Aggregate.

(** *** Merging a metadata dictionary *)

Lemma bindM_ok {A B} (m : M A) (k : A → M B) st st' b :
  bindM m k st = (st', Ok b) →
  ∃ st0 a, m st = (st0, Ok a) ∧ k a st0 = (st', Ok b).
Proof.
  unfold bindM. destruct (m st) as [st0 [a|e]]; [|done]. eauto.
Qed.

Lemma merge_extra_unfold E metadata extra st :
  merge_extra E metadata extra st
  = match contribution E (world st) metadata extra with
    | Ok (Some t) => ({| self := merged extra t (self st); world := world st |}, Ok tt)
    | Ok None => (st, Ok tt)
    | Raise e => (st, Raise e)
    end.
Proof.
  unfold merge_extra, contribution, bindM, lift.
  destruct (extras_for metadata extra) as [extras|]; cbn; [|done].
  destruct (truthy_list extras); [|done]. cbn.
  by destruct (Extractors.ensure_reqs _ extras).
Qed.

(** The loop over the requested extras only adds to [_requirements], adds
    every contribution, and leaves the world and [ireq] alone. *)
Lemma merge_loop_grows E metadata extras st st' :
  for_each extras (merge_extra E metadata) st = (st', Ok tt) →
  world st' = world st
  ∧ ireq (self st') = ireq (self st)
  ∧ _requirements (self st) ⊆ _requirements (self st')
  ∧ ∀ extra, extra ∈ extras →
      ∃ c, contribution E (world st) metadata extra = Ok c
           ∧ ∀ t, c = Some t →
               list_to_set (Base <$> t) ⊆ _requirements (self st').
Proof.
  revert st. induction extras as [|x extras IH]; intros st.
  - intros [= <-]. repeat split; [done|]. intros extra Hin. by apply elem_of_nil in Hin.
  - cbn [for_each]. intros (st0 & [] & Hx & Hrest)%bindM_ok.
    apply IH in Hrest as (Hw & Hi & Hsub & Hall).
    rewrite merge_extra_unfold in Hx.
    destruct (contribution E (world st) metadata x) as [[t|]|] eqn:Hc;
      [| |done]; injection Hx as <-; cbn in *.
    + repeat split; [done|done|set_solver|].
      intros extra [->|Hin]%elem_of_cons.
      * eexists. split; [done|]. intros ? [= <-]. set_solver.
      * by apply Hall.
    + repeat split; [done|done|done|].
      intros extra [->|Hin]%elem_of_cons; [|by apply Hall].
      eexists. split; [done|]. done.
Qed.

(** When every contribution is already in [_requirements], the loop
    succeeds and [_requirements] stays as it is. *)
Lemma merge_loop_absorbed E metadata extras st :
  (∀ extra, extra ∈ extras →
     ∃ c, contribution E (world st) metadata extra = Ok c
          ∧ ∀ t, c = Some t →
              list_to_set (Base <$> t) ⊆ _requirements (self st)) →
  ∃ st', for_each extras (merge_extra E metadata) st = (st', Ok tt)
         ∧ _requirements (self st') = _requirements (self st).
Proof.
  revert st. induction extras as [|x extras IH]; intros st Hall.
  - by eexists.
  - cbn [for_each]. unfold bindM at 1. rewrite merge_extra_unfold.
    destruct (Hall x) as (c & -> & Hc); [by left|].
    destruct c as [t|].
    + specialize (Hc t eq_refl).
      destruct (IH {| self := merged x t (self st); world := world st |})
        as (st' & -> & Hreq).
      { cbn. intros extra Hin. destruct (Hall extra) as (c & ? & Hsub); [by right|].
        exists c. split; [done|]. intros t' ->. specialize (Hsub t' eq_refl).
        set_solver. }
      eexists. split; [done|]. rewrite Hreq. cbn. set_solver.
    + apply IH. intros extra Hin. apply Hall. by right.
Qed.

(** C8: when [populate_metadata] has merged a metadata dictionary, merging
    the same dictionary again succeeds and leaves [_requirements] exactly
    as the first merge left it. *)
Theorem populate_metadata_idempotent (E : env) (metadata : list (string * mvalue))
    (st st1 : state) :
  populate_metadata E metadata st = (st1, Ok tt) →
  ∃ st2, populate_metadata E metadata st1 = (st2, Ok tt)
         ∧ _requirements (self st2) = _requirements (self st1).
Proof.
  unfold populate_metadata.
  intros (? & [] & [= <-] & H)%bindM_ok.
  apply bindM_ok in H as (? & [] & [= <-] & H).
  apply bindM_ok in H as (? & [] & [= <-] & H).
  apply bindM_ok in H as (? & reqs & Hreqs & H).
  unfold lift in Hreqs. injection Hreqs as <- Hreqs.
  apply bindM_ok in H as (? & [] & [= <-] & H).
  apply bindM_ok in H as (? & s4 & [= <- <-] & H).
  apply merge_loop_grows in H as (Hw & Hi & Hsub & Hall).
  cbn [self world] in *.
  unfold bindM, update, lift, get_self. cbn [self world]. rewrite Hreqs.
  cbn [self world].
  match goal with
  | |- context [for_each ?l _ ?st'] =>
      destruct (merge_loop_absorbed E metadata l st') as (st2 & Hrun & Hreq)
  end.
  - cbn [self world]. intros extra Hin.
    destruct (Hall extra) as (c & Hc & Hin').
    { revert Hin. unfold requested_extras.
      by repeat (case_match; cbn in * ); simplify_eq. }
    exists c. rewrite Hw. split; [done|]. intros t ->.
    specialize (Hin' t eq_refl).
    repeat (case_match; cbn in * ); set_solver.
  - exists st2. split; [done|]. rewrite Hreq.
    repeat (case_match; cbn in * ); set_solver.
Qed.

Lemma populate_metadata_idempotent_witness :
  let st1 := (populate_metadata Samples.failing_build Samples.declared
                Samples.docs_requested).1 in
  ∃ st2, populate_metadata Samples.failing_build Samples.declared st1
         = (st2, Ok tt)
         ∧ _requirements (self st2)
           = _requirements (self st1).
Proof.
  apply (populate_metadata_idempotent Samples.failing_build Samples.declared
           Samples.docs_requested).
  reflexivity.
Defined.


(** *** What a method leaves alone *)

Section Preserves.
Context (P : SetupInfo → Prop).

Lemma preserves_ret {A} (a : A) : preserves P (ret a).
Proof. by intros st st' r [= <- _]. Qed.
Lemma preserves_raise {A} e : preserves P (@raise A e).
Proof. by intros st st' r [= <- _]. Qed.
Lemma preserves_lift {A} (x : result A) : preserves P (lift x).
Proof. by intros st st' r [= <- _]. Qed.
Lemma preserves_get_self : preserves P get_self.
Proof. by intros st st' r [= <- _]. Qed.
Lemma preserves_get_world : preserves P get_world.
Proof. by intros st st' r [= <- _]. Qed.
Lemma preserves_put_world w : preserves P (put_world w).
Proof. by intros st st' r [= <- _]. Qed.
Lemma preserves_update (f : SetupInfo → SetupInfo) :
  (∀ s, P s → P (f s)) → preserves P (update f).
Proof. intros Hf st st' r [= <- _]. apply Hf. Qed.

Lemma preserves_bind {A B} (m : M A) (k : A → M B) :
  preserves P m → (∀ a, preserves P (k a)) → preserves P (bindM m k).
Proof.
  intros Hm Hk st st' r. unfold bindM.
  destruct (m st) as [st0 [a|e]] eqn:Hrun.
  - intros Hrest HP. eapply Hk; [done|]. by eapply Hm.
  - intros [= <- _]. by eapply Hm.
Qed.

Lemma preserves_for_each {A} (xs : list A) (body : A → M unit) :
  (∀ x, preserves P (body x)) → preserves P (for_each xs body).
Proof.
  intros Hbody. induction xs as [|x xs IH]; cbn [for_each].
  - apply preserves_ret.
  - apply preserves_bind; [apply Hbody|done].
Qed.

Lemma preserves_try_except {A} (m handler : M A) :
  preserves P m → preserves P handler → preserves P (try_except m handler).
Proof.
  intros Hm Hh st st' r. unfold try_except.
  destruct (m st) as [st0 [a|e]] eqn:Hrun.
  - intros [= <- _]. by eapply Hm.
  - destruct (is_Exception e).
    + intros Hrest HP. eapply Hh; [done|]. by eapply Hm.
    + intros [= <- _]. by eapply Hm.
Qed.

Lemma preserves_try_except_else {A B} (m : M A) (handler : M B)
    (continue : A → M B) :
  preserves P m → preserves P handler → (∀ a, preserves P (continue a)) →
  preserves P (try_except_else m handler continue).
Proof.
  intros Hm Hh Hc st st' r. unfold try_except_else.
  destruct (m st) as [st0 [a|e]] eqn:Hrun.
  - intros Hrest HP. eapply Hc; [done|]. by eapply Hm.
  - destruct (is_Exception e).
    + intros Hrest HP. eapply Hh; [done|]. by eapply Hm.
    + intros [= <- _]. by eapply Hm.
Qed.

End Preserves.

Create HintDb preserves.
Hint Resolve preserves_ret preserves_raise preserves_lift preserves_get_self
  preserves_get_world preserves_put_world : preserves.

(** One step through a method built from the combinators above; an
    [update] is discharged by looking at the field it assigns. *)
Ltac preserves_step :=
  first
    [ apply preserves_bind; [|intros ?]
    | apply preserves_for_each; intros ?
    | apply preserves_try_except
    | apply preserves_try_except_else; [| |intros ?]
    | apply preserves_update;
      let Hs := fresh "Hs" in
      intros ? Hs; unfold named in *; cbn; rewrite ?Hs; cbn;
      repeat (case_match; cbn); done
    | progress eauto with preserves
    | match goal with
      | |- preserves _ (match ?x with _ => _ end) => destruct x
      | |- preserves _ (let '(_, _) := ?x in _) => destruct x
      end ].
Ltac preserves_auto := repeat preserves_step.

Lemma preserves_present P p : preserves P (present p).
Proof. unfold present, path_exists. preserves_auto. Qed.
Lemma preserves_exists_attr P p : preserves P (exists_attr p).
Proof. unfold exists_attr, path_exists. preserves_auto. Qed.
Lemma preserves_kwarg P k : preserves P (kwarg k).
Proof. unfold kwarg. preserves_auto. Qed.
Lemma preserves_mkdir P p : preserves P (mkdir p).
Proof. unfold mkdir. preserves_auto. Qed.
Lemma preserves_requires P : preserves P requires.
Proof. unfold requires. preserves_auto. Qed.
Hint Resolve preserves_present preserves_exists_attr preserves_kwarg
  preserves_mkdir preserves_requires : preserves.

(** [egg_base] creates a directory and touches no field. *)
Lemma preserves_egg_base P : preserves P egg_base.
Proof. unfold egg_base. preserves_auto. Qed.
Hint Resolve preserves_egg_base : preserves.

(** *** The name, stage by stage *)

Lemma merge_extra_keeps_name n E metadata extra :
  preserves (named n) (merge_extra E metadata extra).
Proof. unfold merge_extra. preserves_auto. Qed.
Hint Resolve merge_extra_keeps_name : preserves.

(** [populate_metadata] does not replace a name that is set. *)
Lemma populate_metadata_keeps_name n E metadata :
  preserves (named n) (populate_metadata E metadata).
Proof. unfold populate_metadata. preserves_auto. Qed.
Hint Resolve populate_metadata_keeps_name : preserves.

(** Neither does the method [parse_setup_cfg]. *)
Lemma parse_setup_cfg_keeps_name n E : preserves (named n) (parse_setup_cfg E).
Proof.
  unfold parse_setup_cfg. preserves_auto.
  apply preserves_update. intros s Hn.
  generalize (requested_extras s). intros extras.
  revert s Hn. induction extras as [|x extras IH]; intros s Hn; [done|].
  cbn [foldl]. apply IH. unfold merge_requested_extra. by case_match.
Qed.

Lemma get_metadata_from_wheel_keeps_name n E p :
  preserves (named n) (get_metadata_from_wheel E p).
Proof. unfold get_metadata_from_wheel. preserves_auto. Qed.

Lemma get_egg_metadata_keeps_name n E d t :
  preserves (named n) (get_egg_metadata E d t).
Proof. unfold get_egg_metadata. preserves_auto. Qed.

Lemma run_pyproject_keeps_name n E : preserves (named n) (run_pyproject E).
Proof. unfold run_pyproject. preserves_auto. Qed.

(** X30: the statements of [run_setup] that read the captured
    distribution replace the name whenever the distribution reports one,
    whatever the name was, and whether they return or raise. *)
Lemma read_dist_overwrites_name (E : env) (dist : SetupDist) (st st' : state) r :
  get_name dist ≠ "" →
  read_dist E dist st = (st', r) →
  name (self st') = Some (get_name dist).
Proof.
  intros Hname. unfold read_dist.
  destruct (String.eqb_spec (get_name dist) ""); [contradiction|]. cbn [negb].
  unfold bindM at 1. cbn [update].
  intros Hrest.
  match type of Hrest with
  | ?k ?st1 = _ => assert (preserves (named (get_name dist)) k) as Hk
  end.
  { preserves_auto. }
  by eapply Hk.
Qed.

(** *** [reload] *)

Lemma egg_base_self st st' r : egg_base st = (st', r) → self st' = self st.
Proof. intros H. by apply (preserves_egg_base (λ s, s = self st) _ _ _ H). Qed.

(** C2, counterexample: an aggregate that an earlier pass resolved to
    [pkgA 1.0] is reloaded over a directory that declares nothing.  The
    requirements are gone, and a pass from scratch over that directory
    finds no name; the reloaded aggregate is still [pkgA 1.0]. *)
Lemma reload_keeps_identity :
  let st := {| self := Samples.resolved; world := Samples.empty_dir |} in
  let st' := (reload Samples.failing_build st).1 in
  (reload Samples.failing_build st).2 = Ok tt
  ∧ name (self st') = Some "pkgA"
  ∧ version (self st') = Some "1.0"
  ∧ elements (_requirements (self st')) = []
  ∧ name (self (get_info Samples.failing_build
                  (Samples.fresh Samples.failing_build Samples.empty_dir)).1)
    = None.
Proof. repeat split; vm_compute; reflexivity. Qed.

(** C2, as amended: [reload] clears the metadata snapshot, the
    requirements and the extras table, leaves every other field (the name
    and the version among them) as it was, and then runs [get_info] on the
    result, over the files as they are after the clean-up of the metadata
    directory. *)
Theorem reload_wipes_accumulated (E : env) (st st1 : state) (egg : string) :
  egg_base st = (st1, Ok egg) →
  let st2 := {| self := wipe (self st);
                world := rmtree_listed E egg (world st1) |} in
  reload E st = ((get_info E st2).1, bind (get_info E st2).2 (λ _, Ok tt))
  ∧ metadata (self st2) = None
  ∧ _requirements (self st2) = ∅
  ∧ _extras_requirements (self st2) = []
  ∧ name (self st2) = name (self st)
  ∧ version (self st2) = version (self st)
  ∧ set_metadata (metadata (self st))
      (set_requirements (_requirements (self st))
         (set_extras_requirements (_extras_requirements (self st)) (self st2)))
    = self st.
Proof.
  intros Hegg. split; [|by destruct st as [[] ?]].
  unfold reload, bindM at 1. rewrite Hegg.
  apply egg_base_self in Hegg as Hself.
  unfold bindM, get_world, put_world, update, ret; cbn -[get_info wipe].
  rewrite Hself.
  match goal with
  | |- context [get_info E ?x] => by destruct (get_info E x) as [st3 [out|e]]
  end.
Qed.

Lemma reload_wipes_accumulated_witness :
  let st := {| self := Samples.resolved; world := Samples.empty_dir |} in
  let st2 := {| self := wipe Samples.resolved;
                world := rmtree_listed Samples.failing_build "/pkg/reqlib-metadata"
                           (world (egg_base st).1) |} in
  reload Samples.failing_build st
  = ((get_info Samples.failing_build st2).1,
     bind (get_info Samples.failing_build st2).2 (λ _, Ok tt)).
Proof.
  refine (proj1 (reload_wipes_accumulated Samples.failing_build
                   {| self := Samples.resolved; world := Samples.empty_dir |}
                   (egg_base {| self := Samples.resolved;
                                world := Samples.empty_dir |}).1
                   "/pkg/reqlib-metadata" _)).
  reflexivity.
Defined.

(** *** [get_info] on a directory that declares nothing *)

Lemma last_char_app s t : t ≠ "" → last_char (s ++ t) = last_char t.
Proof.
  intros Ht. induction s as [|c s IH]; [done|].
  simpl. rewrite IH. by destruct t.
Qed.

Lemma append_inv_head (s t1 t2 : string) : s ++ t1 = s ++ t2 → t1 = t2.
Proof. induction s as [|c s IH]; [done|]. intros [= H]. by apply IH. Qed.

(** [joinpath p child] is [p], perhaps a slash, and [child]. *)
Lemma joinpath_relative p child :
  startswith child "/" = false →
  ∃ sep, joinpath p child = p ++ sep ++ child ∧ (sep = "" ∨ sep = "/").
Proof.
  intros Hrel. unfold joinpath, Extractors.path_join. rewrite Hrel.
  destruct (_ || _); [exists ""|exists "/"]; auto.
Qed.

Lemma joinpath_inj p c1 c2 :
  startswith c1 "/" = false → startswith c2 "/" = false →
  joinpath p c1 = joinpath p c2 → c1 = c2.
Proof.
  intros H1 H2. unfold joinpath, Extractors.path_join. rewrite H1, H2.
  destruct (_ || _); intros H%append_inv_head; [done|].
  by injection H.
Qed.

Lemma joinpath_last_char p child :
  startswith child "/" = false → child ≠ "" →
  last_char (joinpath p child) = last_char child.
Proof.
  intros Hrel Hne. destruct (joinpath_relative p child Hrel) as (sep & -> & [-> | ->]).
  - by apply last_char_app.
  - rewrite last_char_app; [|by destruct child]. by destruct child.
Qed.

Lemma mapM_all_empty {A B} (f : A → result (list B)) (l : list A) :
  (∀ a, f a = Ok []) →
  ∃ ms, mapM f l = Ok ms ∧ List.filter truthy_list ms = [].
Proof.
  intros Hf. induction l as [|a l (ms & Hms & Hfilter)]; [by exists []|].
  exists ([] :: ms). cbn. by rewrite Hf, Hms.
Qed.

Lemma present_absent st p :
  files (world st) !! p = None → present (Some p) st = (st, Ok false).
Proof.
  intros H. unfold present, path_exists, bindM, get_world, ret. cbn.
  rewrite H. by rewrite bool_decide_eq_false_2 by (by intros []).
Qed.
Lemma present_there st p :
  is_Some (files (world st) !! p) → present (Some p) st = (st, Ok true).
Proof.
  intros H. unfold present, path_exists, bindM, get_world, ret. cbn.
  by rewrite bool_decide_eq_true_2.
Qed.

Lemma bindM_Ok {A B} (m : M A) (k : A → M B) st st' a :
  m st = (st', Ok a) → bindM m k st = k a st'.
Proof. unfold bindM. by intros ->. Qed.

Lemma bindM_Raise {A B} (m : M A) (k : A → M B) st st' e :
  m st = (st', Raise e) → bindM m k st = (st', Raise e).
Proof. unfold bindM. by intros ->. Qed.

Lemma kwarg_found key v d st :
  extra_kwargs (self st) = Some d → Extractors.dict_get key d = Some v →
  kwarg key st = (st, Ok v).
Proof. intros Hd Hv. unfold kwarg, bindM, get_self. cbn. by rewrite Hd, Hv. Qed.

(** Whatever [as_dict] returns holds no entry whose value is false. *)
Lemma as_dict_omits_falsy st st' out k v :
  as_dict st = (st', Ok out) → (k, v) ∈ out → truthy v = true.
Proof.
  unfold as_dict, requires, bindM, get_self, lift, ret. cbn [self].
  match goal with
  | |- context [requires_of ?ms ?d0] => destruct (requires_of ms d0) as [d|]; [|done]
  end.
  intros Heq Hin.
  assert (out = List.filter (λ kv, truthy kv.2) (prop_dict (self st) d)) as ->
    by congruence.
  by apply list_elem_of_In, filter_In in Hin as [_ Hv].
Qed.

Lemma dict_get_truthy {V} key (d : list (string * V)) v :
  Extractors.dict_get key d = Some v → truthy_list d = true.
Proof. by destruct d. Qed.

Section Bare.
Context (E : env) (w : World) (base : string) (kwargs : list (string * string))
  (build_dir src_dir : string).
Let sc := joinpath base "setup.cfg".
Let sp := joinpath base "setup.py".
Let pp := joinpath base "pyproject.toml".
Let egg := joinpath (parent pp) "reqlib-metadata".
Let s0 := created E base None None (Some kwargs).

Hypothesis base_named : base ≠ "".
Hypothesis backend_named : get_default_pyproject_backend E ≠ "".
Hypothesis has_build_dir : Extractors.dict_get "build_dir" kwargs = Some build_dir.
Hypothesis has_src_dir : Extractors.dict_get "src_dir" kwargs = Some src_dir.
Hypothesis no_setup_cfg : files w !! sc = None.
Hypothesis no_setup_py : files w !! sp = None.
Hypothesis no_pyproject : files w !! pp = None.
Hypothesis egg_base_free : ∀ c, files w !! egg ≠ Some (Directives.RegularFile c).
Hypothesis builds_fail :
  ∀ dist_type w', ∃ e,
    build_pep517 E (Some base) build_dir dist_type w' = (w', Raise e)
    ∧ is_Exception e = true.
Hypothesis nothing_found :
  ∀ d w', listing w' = listing w →
    Extractors.get_metadata (ext_env E w') d None None = Ok [].

Let w1 : World :=
  with_files (<[pp := Directives.RegularFile (build_system_text s0)]> (files w)) w.

Lemma pp_sp : pp ≠ sp.
Proof. intros H%joinpath_inj; done. Qed.
Lemma pp_sc : pp ≠ sc.
Proof. intros H%joinpath_inj; done. Qed.
Lemma egg_pp : egg ≠ pp.
Proof.
  intros H%(f_equal last_char). unfold egg, pp in H.
  rewrite !joinpath_last_char in H by done. done.
Qed.
Lemma egg_sp : egg ≠ sp.
Proof.
  intros H%(f_equal last_char). unfold egg, sp in H.
  rewrite !joinpath_last_char in H by done. done.
Qed.
Lemma egg_sc : egg ≠ sc.
Proof.
  intros H%(f_equal last_char). unfold egg, sc in H.
  rewrite !joinpath_last_char in H by done. done.
Qed.

Lemma build_wheel_bare :
  ∃ e, build_wheel E {| self := s0; world := w |} = ({| self := s0; world := w1 |}, Raise e)
       ∧ is_Exception e = true.
Proof.
  destruct (builds_fail "wheel" w1) as (e & Hbuild & He). exists e. split; [|done].
  unfold build_wheel, build_dist, bindM, get_self, exists_attr, path_exists,
    get_world, write_text, put_world, kwarg, ret, lift, raise.
  cbn -[build_system_text joinpath]. fold pp. rewrite no_pyproject.
  cbn -[build_system_text joinpath]. rewrite has_build_dir.
  fold s0. fold w1. cbn [world]. by rewrite Hbuild.
Qed.


Lemma files_w1_pp : is_Some (files w1 !! pp).
Proof. unfold w1. cbn. rewrite lookup_insert_eq. by eexists. Qed.
Lemma files_w1_sp : files w1 !! sp = None.
Proof. unfold w1. cbn. rewrite lookup_insert_ne; [done|apply pp_sp]. Qed.
Lemma files_w1_sc : files w1 !! sc = None.
Proof. unfold w1. cbn. rewrite lookup_insert_ne; [done|apply pp_sc]. Qed.

Lemma build_sdist_bare :
  ∃ e, build_sdist E {| self := s0; world := w1 |} = ({| self := s0; world := w1 |}, Raise e)
       ∧ is_Exception e = true.
Proof.
  destruct (builds_fail "sdist" w1) as (e & Hbuild & He). exists e. split; [|done].
  destruct files_w1_pp as [x Hx].
  unfold build_sdist, build_dist, bindM, get_self, exists_attr, path_exists,
    get_world, write_text, put_world, kwarg, ret, lift, raise.
  cbn -[build_system_text joinpath w1]. fold pp. rewrite Hx.
  cbn -[build_system_text joinpath w1]. rewrite has_build_dir.
  cbn [world]. by rewrite Hbuild.
Qed.

(** The world after the metadata probe: [reqlib-metadata] is there. *)
Let w2 : World :=
  match files w !! egg with
  | None => with_files (<[egg := Directives.Directory]> (files w1)) w1
  | Some _ => w1
  end.

Lemma files_w2_sp : files w2 !! sp = None.
Proof.
  unfold w2. destruct (files w !! egg); [apply files_w1_sp|].
  cbn. rewrite lookup_insert_ne by apply egg_sp.
  rewrite lookup_insert_ne; [done|apply pp_sp].
Qed.

Ltac run :=
  unfold bindM, get_self, get_world, put_world, update, ret, lift, raise,
    exists_attr, present, path_exists, kwarg, mkdir, write_text;
  cbn -[lookup insert joinpath parent build_system_text];
  fold sc sp pp; fold egg.

Ltac lookups :=
  repeat first
    [ rewrite lookup_insert_eq
    | rewrite lookup_insert_ne
        by first [apply pp_sp | apply pp_sc | apply egg_pp | apply egg_sp | apply egg_sc]
    | rewrite no_setup_py | rewrite no_setup_cfg | rewrite no_pyproject
    | rewrite has_build_dir | rewrite has_src_dir
    | rewrite bool_decide_eq_false_2 by (by intros [])
    | rewrite bool_decide_eq_true_2 by (by eexists) ].

Lemma egg_base_bare :
  egg_base {| self := s0; world := w1 |} = ({| self := s0; world := w2 |}, Ok egg).
Proof.
  unfold egg_base. run. lookups. run. lookups. run. unfold w2, w1.
  rewrite lookup_insert_ne by (intros ?; by apply egg_pp).
  destruct (files w !! egg) as [[c|]|] eqn:Hegg;
    [by destruct (egg_base_free c)|done|done].
Qed.

Lemma listing_w2 : listing w2 = listing w.
Proof. unfold w2. by destruct (files w !! egg). Qed.

Ltac step tac := erewrite bindM_Ok by tac; cbn beta iota.

Lemma get_egg_metadata_bare :
  get_egg_metadata E None None {| self := s0; world := w1 |}
  = ({| self := s0; world := w2 |}, Ok tt).
Proof.
  unfold get_egg_metadata.
  step ltac:(reflexivity).
  step ltac:(apply present_there, files_w1_pp).
  step ltac:(apply present_absent, files_w1_sp).
  step ltac:(apply present_absent, files_w1_sc).
  cbn [orb].
  erewrite (bindM_Ok _ _ _ {| self := s0; world := w2 |} [build_dir; egg; src_dir]).
  2:{ step ltac:(by eapply kwarg_found).
      step ltac:(apply egg_base_bare).
      step ltac:(by eapply kwarg_found). done. }
  step ltac:(reflexivity). cbn [world self name s0 created].
  unfold bindM, lift.
  match goal with
  | |- context [mapM ?f ?l] =>
      destruct (mapM_all_empty f l) as (ms & -> & Hfilter)
  end.
  { intros d. apply nothing_found, listing_w2. }
  by rewrite Hfilter.
Qed.

Lemma run_setup_bare :
  run_setup E {| self := s0; world := w2 |} = ({| self := s0; world := w2 |}, Ok tt).
Proof.
  unfold run_setup. step ltac:(reflexivity).
  by step ltac:(apply present_absent, files_w2_sp).
Qed.

Lemma build_bare :
  build E {| self := s0; world := w |} = ({| self := s0; world := w2 |}, Ok tt).
Proof.
  destruct build_wheel_bare as (e1 & Hwheel & He1).
  destruct build_sdist_bare as (e2 & Hsdist & He2).
  unfold build.
  erewrite (bindM_Ok _ _ _ {| self := s0; world := w1 |} tt).
  2:{ unfold try_except_else. rewrite Hwheel, He1.
      unfold try_except. erewrite bindM_Raise by apply Hsdist. by rewrite He2. }
  step ltac:(reflexivity).
  step ltac:(apply get_egg_metadata_bare).
  step ltac:(reflexivity).
  apply run_setup_bare.
Qed.


End Bare.


(** With the default [kwargs=None], [create] on the same directory does
    raise: the metadata probe subscripts [extra_kwargs] once the first
    build attempt has written [pyproject.toml]. *)
Lemma create_without_kwargs_raises :
  (create Samples.failing_build "/pkg" None None None Samples.empty_dir).2
  = Raise TypeError.
Proof. vm_compute. reflexivity. Qed.


Lemma read_dist_overwrites_name_witness :
  let st := {| self := Samples.resolved; world := Samples.two_names_dir |} in
  name (self (read_dist Samples.two_names Samples.pkgB_dist st).1)
  = Some (get_name Samples.pkgB_dist).
Proof.
  apply (read_dist_overwrites_name Samples.two_names Samples.pkgB_dist
           {| self := Samples.resolved; world := Samples.two_names_dir |}
           _ (read_dist Samples.two_names Samples.pkgB_dist
                {| self := Samples.resolved; world := Samples.two_names_dir |}).2).
  - discriminate.
  - apply surjective_pairing.
Defined.

(** *** What [get_info] keeps *)

Lemma extends_refl s : Growth.extends s s.
Proof. unfold Growth.extends. by repeat split. Qed.

Lemma extends_trans s1 s2 s3 :
  Growth.extends s1 s2 → Growth.extends s2 s3 → Growth.extends s1 s3.
Proof.
  unfold Growth.extends.
  intros (?&?&?&?&?&?&?&?&Hv&Hp) (?&?&?&?&?&?&?&?&Hv'&Hp').
  repeat split; try congruence; try (by etrans).
  - intros Ht. specialize (Hv Ht). rewrite <-Hv in Ht. rewrite (Hv' Ht). done.
  - intros Ht. specialize (Hp Ht). rewrite <-Hp in Ht. rewrite (Hp' Ht). done.
Qed.

(** An assignment that is a step of [Growth.extends] keeps it. *)
Lemma extends_update s0 (f : SetupInfo → SetupInfo) :
  (∀ s, Growth.extends s (f s)) → preserves (Growth.extends s0) (update f).
Proof.
  intros Hf. apply preserves_update. intros s Hs. by eapply extends_trans.
Qed.

Ltac extends_field :=
  match goal with
  | |- _ = _ => done
  | |- _ ⊆ _ => set_solver
  | |- ?l `prefix_of` _ =>
      first [done | by apply prefix_app_r | by apply prefix_nil
            | by destruct l; [apply prefix_nil|]]
  | |- truthy_text ?v = true → _ =>
      let Ht := fresh "Ht" in
      intros Ht; try rewrite Ht in *;
      first [done | by simplify_eq/= | by destruct v]
  end.
Ltac extends_step :=
  first
    [ solve [eauto with preserves]
    | apply preserves_bind; [|intros ?]
    | apply preserves_for_each; intros ?
    | apply preserves_try_except
    | apply preserves_try_except_else; [| |intros ?]
    | apply extends_update; intros ?; unfold Growth.extends; cbn;
      repeat (case_match; cbn); repeat split; extends_field
    | progress eauto with preserves
    | match goal with
      | |- preserves _ (match ?x with _ => _ end) => destruct x
      | |- preserves _ (let '(_, _) := ?x in _) => destruct x
      end ].
Ltac extends_auto := repeat extends_step.

Lemma merge_extra_extends s0 E metadata extra :
  preserves (Growth.extends s0) (merge_extra E metadata extra).
Proof. unfold merge_extra. extends_auto. Qed.
Hint Resolve merge_extra_extends : preserves.

Lemma populate_metadata_extends s0 E metadata :
  preserves (Growth.extends s0) (populate_metadata E metadata).
Proof. unfold populate_metadata. extends_auto. Qed.
Hint Resolve populate_metadata_extends : preserves.

Lemma merge_requested_extra_extends extra s :
  Growth.extends s (merge_requested_extra extra s).
Proof.
  unfold merge_requested_extra, Growth.extends. case_match; cbn;
    repeat split; extends_field.
Qed.

Lemma parse_setup_cfg_extends s0 E :
  preserves (Growth.extends s0) (parse_setup_cfg E).
Proof.
  unfold parse_setup_cfg. extends_auto.
  apply extends_update. intros s. generalize (requested_extras s). intros extras.
  revert s. induction extras as [|x extras IH]; intros s; [apply extends_refl|].
  cbn [foldl]. eapply extends_trans; [apply merge_requested_extra_extends|apply IH].
Qed.
Hint Resolve parse_setup_cfg_extends : preserves.

Lemma get_metadata_from_wheel_extends s0 E p :
  preserves (Growth.extends s0) (get_metadata_from_wheel E p).
Proof. unfold get_metadata_from_wheel. extends_auto. Qed.

Lemma get_egg_metadata_extends s0 E d t :
  preserves (Growth.extends s0) (get_egg_metadata E d t).
Proof. unfold get_egg_metadata. extends_auto. Qed.

Lemma run_pyproject_extends s0 E : preserves (Growth.extends s0) (run_pyproject E).
Proof. unfold run_pyproject. extends_auto. Qed.
Hint Resolve get_metadata_from_wheel_extends get_egg_metadata_extends
  run_pyproject_extends : preserves.

(** A statement that reads the aggregate and then acts on what it read. *)
Lemma preserves_reading {A B} (P : SetupInfo → Prop) (m : SetupInfo → M A)
    (k : M B) :
  (∀ st st' r, m (self st) st = (st', r) → P (self st) → P (self st')) →
  preserves P k →
  preserves P (bindM get_self (λ s, bindM (m s) (λ _, k))).
Proof.
  intros Hm Hk st st' r. unfold bindM at 1, get_self.
  unfold bindM at 1. destruct (m (self st) st) as [st1 [a|e]] eqn:Hrun.
  - intros Hrest HP. eapply Hk; [done|]. by eapply Hm.
  - intros [= <- _]. by eapply Hm.
Qed.

Lemma read_dist_extends s0 E dist : preserves (Growth.extends s0) (read_dist E dist).
Proof.
  unfold read_dist. apply preserves_bind; [extends_auto|intros _].
  apply preserves_reading; [|extends_auto].
  intros st st' r.
  destruct (truthy_text (dist_python_requires dist)); cbn [andb];
    [|by intros [= <- _]].
  destruct (truthy_text (python_requires (self st))) eqn:Hpy; cbn [negb];
    [by intros [= <- _]|].
  unfold bindM, lift, update. destruct (SpecifierSet E _); intros [= <- _]; [|done].
  intros Hs. eapply extends_trans; [done|]. cbn [self].
  unfold Growth.extends. cbn. repeat split; extends_field.
Qed.
Hint Resolve read_dist_extends : preserves.

Lemma run_setup_extends s0 E : preserves (Growth.extends s0) (run_setup E).
Proof. unfold run_setup. extends_auto. Qed.

Lemma build_dist_extends s0 E t : preserves (Growth.extends s0) (build_dist E t).
Proof. unfold build_dist, write_text. extends_auto. Qed.
Hint Resolve run_setup_extends build_dist_extends : preserves.

Lemma build_extends s0 E : preserves (Growth.extends s0) (build E).
Proof. unfold build, build_wheel, build_sdist. extends_auto. Qed.
Hint Resolve build_extends : preserves.

Lemma as_dict_keeps P : preserves P as_dict.
Proof. unfold as_dict. preserves_auto. Qed.
Hint Resolve as_dict_keeps : preserves.

Lemma get_info_extends_from s0 E : preserves (Growth.extends s0) (get_info E).
Proof. unfold get_info. extends_auto. Qed.

(** Whatever [get_info] does, the aggregate it leaves extends the one it
    found. *)
Lemma get_info_extends E st : Growth.extends (self st) (self (get_info E st).1).
Proof.
  destruct (get_info E st) as [st' r] eqn:Hrun.
  eapply get_info_extends_from; [done|apply extends_refl].
Qed.

(** X20: [get_info] assigns none of the fields that the aggregate was
    created with: the directory, the three paths, the install requirement
    and the keyword arguments are afterwards what they were, whether the
    call returns or raises. *)
Theorem get_info_keeps_inputs (E : env) (st : state) :
  let s' := self (get_info E st).1 in
  base_dir s' = base_dir (self st)
  ∧ setup_cfg s' = setup_cfg (self st)
  ∧ setup_py s' = setup_py (self st)
  ∧ pyproject s' = pyproject (self st)
  ∧ ireq s' = ireq (self st)
  ∧ extra_kwargs s' = extra_kwargs (self st).
Proof.
  destruct (get_info_extends E st) as (?&?&?&?&?&?&_). by repeat split.
Qed.

(** X21: [get_info] only adds to [_requirements]: every requirement the
    aggregate held before the call it holds after it. *)
Theorem get_info_requirements_grow (E : env) (st : state) :
  _requirements (self st) ⊆ _requirements (self (get_info E st).1).
Proof. by destruct (get_info_extends E st) as (_&_&_&_&_&_&?&_). Qed.

(** X22: the extras table is only appended to: what it held before
    [get_info] is the beginning of what it holds after. *)
Theorem get_info_appends_extras (E : env) (st : state) :
  _extras_requirements (self st)
    `prefix_of` _extras_requirements (self (get_info E st).1).
Proof. by destruct (get_info_extends E st) as (_&_&_&_&_&_&_&?&_). Qed.

(** X23: a version that is set and not empty is never replaced by
    [get_info], not even by the version that the setup script reports. *)
Theorem get_info_keeps_version (E : env) (st : state) :
  truthy_text (version (self st)) = true →
  version (self (get_info E st).1) = version (self st).
Proof. by destruct (get_info_extends E st) as (_&_&_&_&_&_&_&_&?&_). Qed.

Lemma get_info_keeps_version_witness :
  let st := {| self := Samples.resolved; world := Samples.two_names_dir |} in
  version (self (get_info Samples.two_names st).1) = version (self st).
Proof.
  apply (get_info_keeps_version Samples.two_names
           {| self := Samples.resolved; world := Samples.two_names_dir |}).
  reflexivity.
Defined.

(** X24: neither is a Python constraint that is set and not empty. *)
Theorem get_info_keeps_python_requires (E : env) (st : state) :
  truthy_text (python_requires (self st)) = true →
  python_requires (self (get_info E st).1) = python_requires (self st).
Proof. by destruct (get_info_extends E st) as (_&_&_&_&_&_&_&_&_&?). Qed.

Lemma get_info_keeps_python_requires_witness :
  let st := {| self := Samples.pinned; world := Samples.two_names_dir |} in
  python_requires (self (get_info Samples.two_names st).1)
  = python_requires (self st).
Proof.
  apply (get_info_keeps_python_requires Samples.two_names
           {| self := Samples.pinned; world := Samples.two_names_dir |}).
  reflexivity.
Defined.

(** *** First writer wins *)

Section FirstWriter.
Import Stages.
Context (E : env) (Hquiet : quiet E).

Section Keeps.
Context (I : state → Prop).

Lemma keeps_ret {A} (a : A) : keeps I (ret a).
Proof. by intros st st' r [= <- _]. Qed.
Lemma keeps_raise {A} e : keeps I (@raise A e).
Proof. by intros st st' r [= <- _]. Qed.
Lemma keeps_lift {A} (x : result A) : keeps I (lift x).
Proof. by intros st st' r [= <- _]. Qed.
Lemma keeps_get_self : keeps I get_self.
Proof. by intros st st' r [= <- _]. Qed.
Lemma keeps_get_world : keeps I get_world.
Proof. by intros st st' r [= <- _]. Qed.

Lemma keeps_update (f : SetupInfo → SetupInfo) :
  (∀ st, I st → I {| self := f (self st); world := world st |}) →
  keeps I (update f).
Proof. intros Hf st st' r [= <- _]. apply Hf. Qed.

Lemma keeps_bind {A B} (m : M A) (k : A → M B) :
  keeps I m → (∀ a, keeps I (k a)) → keeps I (bindM m k).
Proof.
  intros Hm Hk st st' r. unfold bindM.
  destruct (m st) as [st0 [a|e]] eqn:Hrun.
  - intros Hrest HI. eapply Hk; [done|]. by eapply Hm.
  - intros [= <- _]. by eapply Hm.
Qed.

(** A statement that reads the world and acts on what it read. *)
Lemma keeps_reading_world {B} (k : World → M B) :
  (∀ st st' r, k (world st) st = (st', r) → I st → I st') →
  keeps I (bindM get_world k).
Proof. intros Hk st st' r. unfold bindM, get_world. apply Hk. Qed.

Lemma keeps_for_each {A} (xs : list A) (body : A → M unit) :
  (∀ x, keeps I (body x)) → keeps I (for_each xs body).
Proof.
  intros Hbody. induction xs as [|x xs IH]; cbn [for_each].
  - apply keeps_ret.
  - apply keeps_bind; [apply Hbody|done].
Qed.

Lemma keeps_try_except {A} (m handler : M A) :
  keeps I m → keeps I handler → keeps I (try_except m handler).
Proof.
  intros Hm Hh st st' r. unfold try_except.
  destruct (m st) as [st0 [a|e]] eqn:Hrun.
  - intros [= <- _]. by eapply Hm.
  - destruct (is_Exception e).
    + intros Hrest HI. eapply Hh; [done|]. by eapply Hm.
    + intros [= <- _]. by eapply Hm.
Qed.

Lemma keeps_try_except_else {A B} (m : M A) (handler : M B)
    (continue : A → M B) :
  keeps I m → keeps I handler → (∀ a, keeps I (continue a)) →
  keeps I (try_except_else m handler continue).
Proof.
  intros Hm Hh Hc st st' r. unfold try_except_else.
  destruct (m st) as [st0 [a|e]] eqn:Hrun.
  - intros Hrest HI. eapply Hc; [done|]. by eapply Hm.
  - destruct (is_Exception e).
    + intros Hrest HI. eapply Hh; [done|]. by eapply Hm.
    + intros [= <- _]. by eapply Hm.
Qed.

End Keeps.

Create HintDb keeps.
Hint Resolve keeps_ret keeps_raise keeps_lift keeps_get_self keeps_get_world
  : keeps.

Ltac keeps_step :=
  first
    [ solve [eauto with keeps]
    | apply keeps_bind; [|intros ?]
    | apply keeps_for_each; intros ?
    | apply keeps_try_except
    | apply keeps_try_except_else; [| |intros ?]
    | apply keeps_update;
      let Hw := fresh "Hw" in
      let Hn := fresh "Hn" in
      intros ? [Hw Hn]; split; [done|]; cbn; rewrite ?Hn; cbn;
      repeat (case_match; cbn); done
    | match goal with
      | |- keeps _ (match ?x with _ => _ end) => destruct x
      | |- keeps _ (let '(_, _) := ?x in _) => destruct x
      end ].
Ltac keeps_auto := repeat keeps_step.

Context (n : string).

Lemma present_uncaptured p : keeps (uncaptured n) (present p).
Proof. unfold present, path_exists. keeps_auto. Qed.
Lemma exists_attr_uncaptured p : keeps (uncaptured n) (exists_attr p).
Proof. unfold exists_attr, path_exists. keeps_auto. Qed.
Lemma kwarg_uncaptured k : keeps (uncaptured n) (kwarg k).
Proof. unfold kwarg. keeps_auto. Qed.
Lemma requires_uncaptured : keeps (uncaptured n) requires.
Proof. unfold requires. keeps_auto. Qed.

Lemma mkdir_uncaptured p : keeps (uncaptured n) (mkdir p).
Proof.
  unfold mkdir. apply keeps_reading_world. intros st st' r.
  destruct (files (world st) !! p) as [[text|]|]; by intros [= <- _].
Qed.
Lemma write_text_uncaptured p text : keeps (uncaptured n) (write_text p text).
Proof.
  unfold write_text. apply keeps_reading_world. intros st st' r.
  by intros [= <- _].
Qed.
Hint Resolve present_uncaptured exists_attr_uncaptured kwarg_uncaptured
  requires_uncaptured mkdir_uncaptured write_text_uncaptured : keeps.

Lemma egg_base_uncaptured : keeps (uncaptured n) egg_base.
Proof. unfold egg_base. keeps_auto. Qed.
Hint Resolve egg_base_uncaptured : keeps.

Lemma merge_extra_uncaptured metadata extra :
  keeps (uncaptured n) (merge_extra E metadata extra).
Proof. unfold merge_extra. keeps_auto. Qed.
Hint Resolve merge_extra_uncaptured : keeps.

Lemma populate_metadata_uncaptured metadata :
  keeps (uncaptured n) (populate_metadata E metadata).
Proof. unfold populate_metadata. keeps_auto. Qed.
Hint Resolve populate_metadata_uncaptured : keeps.

Lemma parse_setup_cfg_uncaptured : keeps (uncaptured n) (parse_setup_cfg E).
Proof.
  unfold parse_setup_cfg. keeps_auto.
  apply keeps_update. intros [s w] [Hw Hn]. split; [done|]. cbn in *.
  generalize (requested_extras s). intros extras.
  revert s Hn. induction extras as [|x extras IH]; intros s Hn; [done|].
  cbn [foldl]. apply IH. unfold merge_requested_extra. by case_match.
Qed.

Lemma get_metadata_from_wheel_uncaptured p :
  keeps (uncaptured n) (get_metadata_from_wheel E p).
Proof. unfold get_metadata_from_wheel. keeps_auto. Qed.

Lemma get_egg_metadata_uncaptured d t :
  keeps (uncaptured n) (get_egg_metadata E d t).
Proof. unfold get_egg_metadata. keeps_auto. Qed.

Lemma run_pyproject_uncaptured : keeps (uncaptured n) (run_pyproject E).
Proof. unfold run_pyproject. keeps_auto. Qed.
Hint Resolve parse_setup_cfg_uncaptured get_metadata_from_wheel_uncaptured
  get_egg_metadata_uncaptured run_pyproject_uncaptured : keeps.

(** The build hands back a world in which the slot is as it was. *)
Lemma build_pep517_uncaptured b d t :
  keeps (uncaptured n)
    (let* w := get_world in
     let '(w, r) := build_pep517 E b d t w in
     put_world w ;; lift r).
Proof.
  apply keeps_reading_world. intros st st' r.
  destruct Hquiet as (Hbuild & _ & _). specialize (Hbuild b d t (world st)).
  destruct (build_pep517 E b d t (world st)) as [w' r'].
  unfold bindM, put_world, lift. intros [= <- _] [Hw Hn].
  split; [|done]. cbn in *. congruence.
Qed.
Hint Resolve build_pep517_uncaptured : keeps.

Lemma build_dist_uncaptured t : keeps (uncaptured n) (build_dist E t).
Proof. unfold build_dist. keeps_auto. Qed.
Hint Resolve build_dist_uncaptured : keeps.

(** With the slot empty, [run_setup] takes the branch [if not dist] and
    never reaches the statements that read a distribution. *)
Lemma run_setup_uncaptured : keeps (uncaptured n) (run_setup E).
Proof.
  assert (keeps (uncaptured n)
            (let* w := get_world in
             match _setup_distribution w with
             | None => get_egg_metadata E None None
             | Some dist => read_dist E dist
             end)) as Htail.
  { apply keeps_reading_world. intros st st' r Hrun HI.
    destruct HI as [Hw Hn]. rewrite Hw in Hrun.
    eapply get_egg_metadata_uncaptured; [done|by split]. }
  assert (∀ c a, keeps (uncaptured n)
            (let* w := get_world in
             let '(w, r) := run_subprocess E c a w in
             put_world w ;; lift r)) as Hsub.
  { intros c a. apply keeps_reading_world. intros st st' r.
    destruct Hquiet as (_ & _ & Hrun). specialize (Hrun c a (world st)).
    destruct (run_subprocess E c a (world st)) as [w' r'].
    unfold bindM, put_world, lift. intros [= <- _] [Hw Hn].
    split; [|done]. cbn in *. congruence. }
  unfold run_setup. apply keeps_bind; [keeps_auto|intros s].
  apply keeps_bind; [keeps_auto|intros there]. destruct there; [|keeps_auto].
  apply keeps_bind; [keeps_auto|intros egg].
  apply keeps_reading_world. intros st st' r.
  destruct Hquiet as (_ & Hexec & _).
  specialize (Hexec (default "" (setup_py s))
                ["egg_info"; "--egg-base"; egg] (world st)).
  destruct (exec_script E _ _ (world st)) as [w' finish].
  unfold bindM at 1, put_world. intros Hrun [Hw Hn].
  assert (uncaptured n {| self := self st; world := w' |}) as HI.
  { split; [|done]. cbn in *. congruence. }
  revert Hrun HI.
  generalize ({| self := self st; world := w' |}). intros st1.
  revert st1 st' r.
  change (keeps (uncaptured n)
            (bindM match finish with
                   | Returned => ret tt
                   | Raised e =>
                       if is_NameError e
                       then let* w := get_world in
                            let '(w, r) :=
                              run_subprocess E (parent (default "" (setup_py s)))
                                ["egg_info"; "--egg-base"; egg] w in
                            put_world w ;; lift r
                       else raise e
                   end
               (λ _, let* w := get_world in
                     match _setup_distribution w with
                     | None => get_egg_metadata E None None
                     | Some dist => read_dist E dist
                     end))).
  apply keeps_bind; [|intros _; exact Htail].
  destruct finish as [|e]; [keeps_auto|]. destruct (is_NameError e); [|keeps_auto].
  apply Hsub.
Qed.
Hint Resolve run_setup_uncaptured : keeps.

Lemma build_uncaptured : keeps (uncaptured n) (build E).
Proof. unfold build, build_wheel, build_sdist. keeps_auto. Qed.
Hint Resolve build_uncaptured : keeps.

Lemma as_dict_uncaptured : keeps (uncaptured n) as_dict.
Proof. unfold as_dict. keeps_auto. Qed.
Hint Resolve as_dict_uncaptured : keeps.

Lemma get_info_uncaptured : keeps (uncaptured n) (get_info E).
Proof. unfold get_info. keeps_auto. Qed.
Hint Resolve get_info_uncaptured : keeps.

Lemma run_uncaptured s : keeps (uncaptured n) (run E s).
Proof. destruct s; cbn [run]; keeps_auto. Qed.

Lemma run_all_uncaptured stages : keeps (uncaptured n) (run_all E stages).
Proof. apply keeps_for_each. apply run_uncaptured. Qed.

End FirstWriter.

Lemma run_extends s0 E s : preserves (Growth.extends s0) (Stages.run E s).
Proof. destruct s; cbn [Stages.run]; extends_auto. Qed.

Lemma run_all_extends s0 E stages :
  preserves (Growth.extends s0) (Stages.run_all E stages).
Proof. apply preserves_for_each. apply run_extends. Qed.




(** *** The [requires] property *)

Lemma dict_put_keys {K V} `{EqDecision K} (k : K) (v : V) (d : list (K * V)) k' :
  k' ∈ (dict_put k v d).*1 ↔ k' = k ∨ k' ∈ d.*1.
Proof.
  induction d as [|[k0 v0] d IH]; cbn [dict_put].
  - rewrite fmap_cons, elem_of_cons. cbn. set_solver.
  - destruct (decide (k0 = k)) as [->|Hne].
    + rewrite !fmap_cons, !elem_of_cons. cbn. tauto.
    + rewrite !fmap_cons, !elem_of_cons, IH. cbn. tauto.
Qed.

Lemma dict_put_NoDup {K V} `{EqDecision K} (k : K) (v : V) (d : list (K * V)) :
  NoDup d.*1 → NoDup (dict_put k v d).*1.
Proof.
  induction d as [|[k0 v0] d IH]; cbn [dict_put].
  - intros _. rewrite fmap_cons. cbn. apply list.NoDup_singleton.
  - rewrite fmap_cons. cbn [fst]. intros [Hk0 Hd]%list.NoDup_cons.
    destruct (decide (k0 = k)) as [->|Hne]; rewrite fmap_cons; cbn [fst];
      apply list.NoDup_cons; split; auto.
    rewrite dict_put_keys. intros [?|?]; done.
Qed.

Lemma dict_put_entries {K V} `{EqDecision K} (k : K) (v : V) (d : list (K * V)) kv :
  kv ∈ dict_put k v d → kv = (k, v) ∨ kv ∈ d.
Proof.
  induction d as [|[k0 v0] d IH]; cbn [dict_put].
  - intros ->%list_elem_of_singleton. by left.
  - destruct (decide (k0 = k)) as [->|Hne].
    + intros [->|?]%elem_of_cons; [by left|]. right. by right.
    + intros [->|[->|?]%IH]%elem_of_cons; [right; by left|by left|].
      right. by right.
Qed.

Lemma requires_of_outcome ms : ∀ d,
  match requires_of ms d with
  | Ok d' =>
      (∀ m, m ∈ ms → ∃ b, m = Base b)
      ∧ (NoDup d.*1 → NoDup d'.*1)
      ∧ (∀ k, k ∈ d.*1 → k ∈ d'.*1)
      ∧ (∀ b, Base b ∈ ms → Records.name b ∈ d'.*1)
      ∧ (∀ kv, kv ∈ d' →
           kv ∈ d ∨ ∃ b, Base b ∈ ms ∧ kv = (Records.name b, Records.requirement b))
  | Raise e => e = AttributeError ∧ ∃ r, Raw r ∈ ms
  end.
Proof.
  induction ms as [|[b|r] ms IH]; intros d; cbn [requires_of].
  - repeat split; auto; try (by intros ? ?%elem_of_nil).
  - specialize (IH (dict_put (Records.name b) (Records.requirement b) d)).
    destruct (requires_of ms _) as [d'|e].
    + destruct IH as (Hall & Hnd & Hkeys & Hnames & Hentries). repeat split.
      * intros m [->|?]%elem_of_cons; eauto.
      * intros ?. by apply Hnd, dict_put_NoDup.
      * intros k ?. apply Hkeys, dict_put_keys. by right.
      * intros b' [[= ->]|?]%elem_of_cons; [|by apply Hnames].
        apply Hkeys, dict_put_keys. by left.
      * intros kv [[->|?]%dict_put_entries|(b' & ? & ->)]%Hentries; [|by left|].
        -- right. exists b. split; [by left|done].
        -- right. exists b'. split; [by right|done].
    + destruct IH as (-> & r & ?). split; [done|]. exists r. by right.
  - split; [done|]. exists r. by left.
Qed.

(** X27: the [requires] property never changes anything.  It raises,
    and then [AttributeError], exactly when [_requirements] holds a bare
    requirement object.  Otherwise the dictionary it returns has one
    entry for each distinct name among the requirements, and every entry
    is the name and the requirement object of a member. *)
Theorem requires_outcome (st : state) :
  (requires st).1 = st
  ∧ match (requires st).2 with
    | Ok d =>
        (∀ m, m ∈ _requirements (self st) → ∃ b, m = Base b)
        ∧ NoDup d.*1
        ∧ (∀ b, Base b ∈ _requirements (self st) → Records.name b ∈ d.*1)
        ∧ (∀ k v, (k, v) ∈ d →
             ∃ b, Base b ∈ _requirements (self st)
                  ∧ Records.name b = k ∧ Records.requirement b = v)
    | Raise e => e = AttributeError ∧ ∃ r, Raw r ∈ _requirements (self st)
    end.
Proof.
  unfold requires, bindM, get_self, lift. cbn [fst snd]. split; [done|].
  pose proof (requires_of_outcome (elements (_requirements (self st))) []) as H.
  destruct (requires_of _ _) as [d|e].
  - destruct H as (Hall & Hnd & _ & Hnames & Hentries). repeat split.
    + intros m ?. apply Hall. by apply elem_of_elements.
    + apply Hnd. constructor.
    + intros b ?. apply Hnames. by apply elem_of_elements.
    + intros k v [?%elem_of_nil|(b & ?%elem_of_elements & [= -> ->])]%Hentries;
        [done|]. by exists b.
  - destruct H as (-> & r & ?%elem_of_elements). eauto.
Qed.

(** *** The [egg_base] property *)

Lemma mkdir_outcome (p : Path) (st : state) :
  match mkdir p st with
  | (st', Ok _) =>
      self st' = self st
      ∧ files (world st') !! p = Some Directives.Directory
      ∧ (∀ other, other ≠ p → files (world st') !! other = files (world st) !! other)
      ∧ listing (world st') = listing (world st)
      ∧ _setup_distribution (world st') = _setup_distribution (world st)
  | (st', Raise e) => st' = st ∧ e = OSError
  end.
Proof.
  unfold mkdir, bindM, get_world, put_world, raise, ret.
  destruct (files (world st) !! p) as [[text|]|] eqn:Hat;
    cbn [self world with_files files listing _setup_distribution].
  - done.
  - done.
  - repeat split.
    + by rewrite lookup_insert_eq.
    + intros other Hne. by rewrite lookup_insert_ne.
Qed.

(** X28: [egg_base] leaves the aggregate alone.  When it returns and the
    directory that holds the returned path was there, the path ends in
    [reqlib-metadata], is a directory in the file system afterwards, and
    no other path has changed.  When it raises, nothing has changed, and
    the error is the [AttributeError] of a path that is [None], the
    [TypeError] of a missing [base_dir], or the [OSError] of a file in
    the way. *)
Theorem egg_base_outcome (st : state) :
  match egg_base st with
  | (st', Ok path) =>
      files (world st) !! parent path = Some Directives.Directory →
      self st' = self st
      ∧ (∃ base, path = joinpath base "reqlib-metadata")
      ∧ files (world st') !! path = Some Directives.Directory
      ∧ (∀ other, other ≠ path →
           files (world st') !! other = files (world st) !! other)
      ∧ listing (world st') = listing (world st)
      ∧ _setup_distribution (world st') = _setup_distribution (world st)
  | (st', Raise e) =>
      st' = st ∧ (e = AttributeError ∨ e = TypeError ∨ e = OSError)
  end.
Proof.
  unfold egg_base, exists_attr, path_exists, get_self, get_world, ret, raise, bindM.
  repeat first
    [ match goal with
      | |- context [mkdir ?p st] =>
          pose proof (mkdir_outcome p st) as H;
          destruct (mkdir p st) as [st' [[]|e]];
          [destruct H as (?&?&?&?&?); intros _; repeat split; eauto
          |destruct H as [-> ->]; auto]
      | |- context [setup_py (self st)] => destruct (setup_py (self st))
      | |- context [pyproject (self st)] => destruct (pyproject (self st))
      | |- context [setup_cfg (self st)] => destruct (setup_cfg (self st))
      | |- context [base_dir (self st)] => destruct (base_dir (self st))
      | |- context [bool_decide ?P] => destruct (bool_decide P)
      end
    | progress cbn [fmap option_fmap option_map]
    | progress cbv beta iota
    | by auto ].
Qed.

Lemma egg_base_outcome_witness :
  let st := Samples.fresh Samples.failing_build Samples.empty_dir in
  (egg_base st).2 = Ok "/pkg/reqlib-metadata"
  ∧ self (egg_base st).1 = self st
  ∧ files (world (egg_base st).1) !! "/pkg/reqlib-metadata"
    = Some Directives.Directory.
Proof.
  intros st.
  pose proof (egg_base_outcome st) as H.
  assert ((egg_base st).2 = Ok "/pkg/reqlib-metadata") as Hpath by reflexivity.
  destruct (egg_base st) as [st' [path|e]]; cbn [fst snd] in *; [|done].
  injection Hpath as ->.
  destruct H as (Hself & _ & Hdir & _); [reflexivity|]. by repeat split.
Defined.

(** *** [run_pyproject] *)

(** X29: when [pyproject.toml] exists and [get_pyproject] has an
    answer, [run_pyproject] returns with the files untouched; the backend
    is the one the file names, or the default one when it names none;
    [build_requires] is not empty and holds every requirement the file
    lists, together with those it held before; and when the file lists
    none it is [setuptools] and [wheel], whatever it held before. *)
Theorem run_pyproject_build_requires (E : env) (st : state) (p : Path)
    (requires : list string) (backend : option string) :
  pyproject (self st) = Some p →
  is_Some (files (world st) !! p) →
  get_pyproject E (parent p) (world st) = Ok (Some (requires, backend)) →
  ∃ st',
    run_pyproject E st = (st', Ok tt)
    ∧ world st' = world st
    ∧ build_backend (self st')
      = (if truthy_text backend then default "" backend
         else get_default_pyproject_backend E)
    ∧ build_requires (self st') ≠ []
    ∧ (∀ r, r ∈ requires → r ∈ build_requires (self st'))
    ∧ (requires ≠ [] →
       ∀ r, r ∈ build_requires (self st) → r ∈ build_requires (self st'))
    ∧ (requires = [] → build_requires (self st') = ["setuptools"; "wheel"]).
Proof.
  intros Hp Hthere Hget. unfold run_pyproject.
  unfold bindM at 1, get_self. rewrite Hp.
  erewrite bindM_Ok by (by apply present_there).
  unfold bindM at 1, get_world. unfold bindM at 1, lift. cbn [default].
  unfold id. rewrite Hget. unfold bindM, update. cbn [self world].
  destruct (truthy_text backend); destruct requires as [|r0 requires];
    cbn [truthy_list self world]; eexists; (split; [reflexivity|]);
    cbn [self world build_backend build_requires set_build_requires set_build_backend];
    repeat split; try done;
    try (by intros ? ?%elem_of_nil).
  all: unfold union_tuple.
  all: try (intros Hnil; apply (f_equal (λ l, bool_decide (r0 ∈ l))) in Hnil;
            rewrite bool_decide_eq_true_2 in Hnil by (apply elem_of_elements; set_solver);
            by rewrite bool_decide_eq_false_2 in Hnil by (by intros ?%elem_of_nil)).
  all: try (intros r Hr; apply elem_of_elements; set_solver).
  all: try (intros _ r Hr; apply elem_of_elements; set_solver).
Qed.

Lemma run_pyproject_build_requires_witness :
  let st := Samples.fresh Samples.flit Samples.flit_dir in
  ∃ st',
    run_pyproject Samples.flit st = (st', Ok tt)
    ∧ world st' = world st
    ∧ build_backend (self st')
      = (if truthy_text (Some "flit_core.buildapi")
         then default "" (Some "flit_core.buildapi")
         else get_default_pyproject_backend Samples.flit)
    ∧ build_requires (self st') ≠ []
    ∧ (∀ r, r ∈ ["flit_core"] → r ∈ build_requires (self st'))
    ∧ (["flit_core"] ≠ [] →
       ∀ r, r ∈ build_requires (self st) → r ∈ build_requires (self st'))
    ∧ (["flit_core"] = [] → build_requires (self st') = ["setuptools"; "wheel"]).
Proof.
  apply (run_pyproject_build_requires Samples.flit
           (Samples.fresh Samples.flit Samples.flit_dir)
           "/pkg/pyproject.toml" ["flit_core"] (Some "flit_core.buildapi")).
  - reflexivity.
  - exists Samples.empty_file. reflexivity.
  - reflexivity.
Defined.

End AggregateProperties.

(** * Further properties *)

(** ** Directives *)

Section MoreDirectives.
Import Directives.

(** X1: an [attr:] directive whose target has no dot never yields a
    value: the module is imported and then the unbound local [attribute]
    is read, so the call raises whatever the import raised, or
    [UnboundLocalError]. *)
Theorem attr_without_dot_raises (E : env) (setup_entry resource : string) :
  startswith setup_entry "file:" = false →
  startswith setup_entry "attr:" = true →
  attr_target setup_entry = Ok (resource, None) →
  parse_special_directives E setup_entry = Raise UnboundLocalError
  ∨ ∃ e, import_module E resource = Raise e
         ∧ parse_special_directives E setup_entry = Raise e.
Proof.
  intros Hfile Hattr Htarget. unfold parse_special_directives.
  rewrite Hfile, Hattr, Htarget. cbn.
  destruct (import_module E resource) as [m|e]; cbn; eauto.
Qed.

Lemma attr_without_dot_raises_witness :
  parse_special_directives with_pkg "attr: pkg" = Raise UnboundLocalError
  ∨ ∃ e, import_module with_pkg "pkg" = Raise e
         ∧ parse_special_directives with_pkg "attr: pkg" = Raise e.
Proof.
  apply (attr_without_dot_raises with_pkg "attr: pkg" "pkg"); reflexivity.
Defined.

(** X2: a [file:] directive whose path exists gives back what is at the
    path as it is, without trimming it: the text of a regular file, and
    [OSError] for a directory. *)
Theorem file_directive_reads_verbatim (E : env) (setup_entry path : string)
    (node : fs_node) :
  startswith setup_entry "file:" = true →
  file_target setup_entry = Ok path →
  fs E path = Some node →
  parse_special_directives E setup_entry
  = match node with
    | RegularFile contents => Ok contents
    | Directory => Raise OSError
    end.
Proof.
  intros Hfile Htarget Hnode. unfold parse_special_directives.
  rewrite Hfile, Htarget. cbn. unfold os_path_exists, open_read. rewrite Hnode.
  rewrite bool_decide_eq_true_2 by by eexists. by destruct node.
Qed.

Lemma file_directive_reads_verbatim_witness :
  parse_special_directives with_pkg "file: VERSION" = Ok "1.0
".
Proof.
  apply (file_directive_reads_verbatim with_pkg "file: VERSION" "VERSION"
           (RegularFile "1.0
")); reflexivity.
Defined.

End MoreDirectives.

(** ** The parsed [setup.cfg] *)

Section MoreSetupCfg.
Import Records SetupCfg.

Lemma mapM_Ok_elem {A B} (f : A → result B) (xs : list A) (ys : list B) :
  mapM f xs = Ok ys →
  ∀ y, y ∈ ys ↔ ∃ x, x ∈ xs ∧ f x = Ok y.
Proof.
  revert ys. induction xs as [|x xs IH]; intros ys; cbn.
  - intros [= <-] y. split; [by intros ?%elem_of_nil|].
    by intros (x & ?%elem_of_nil & _).
  - destruct (f x) as [y0|] eqn:Hx; cbn; [|done].
    destruct (mapM f xs) as [ys0|]; cbn; [|done].
    intros [= <-] y. rewrite elem_of_cons, (IH ys0 eq_refl y). split.
    + intros [->|(x' & Hin & Hfx)]; [exists x|exists x']; split; auto;
        apply elem_of_cons; auto.
    + intros (x' & [->|Hin]%elem_of_cons & Hfx); [left; congruence|right; eauto].
Qed.

Lemma parse_setup_cfg_inv E path results :
  parse_setup_cfg E path = Ok (Some results) →
  ∃ parser r2 r3 r4 install_requires extras,
    read E path = Ok parser
    ∧ (if has_option parser "options" "install_requires"
       then bind (get parser "options" "install_requires") (install_requires_of E)
       else Ok ∅) = Ok install_requires
    ∧ store_directive E parser "options" "python_requires" "python_requires"
        (<["install_requires" := VReqs install_requires]> r2) = Ok r3
    ∧ (r4 = r3 ∨ ∃ v, r4 = <["build_requires" := VStr v]> r3)
    ∧ (if bool_decide ("options.extras_require" ∈ sections parser)
       then bind (options parser "options.extras_require")
                 (λ names, extras_loop E parser names [])
       else Ok []) = Ok extras
    ∧ results = <["extras_require" := VExtras extras]> r4.
Proof.
  unfold parse_setup_cfg.
  destruct (Directives.os_path_exists _ _); [|done].
  destruct (read E path) as [parser|]; cbn; [|done].
  destruct (store_directive E parser "metadata" "name" "name" ∅)
    as [r1|] eqn:H1; cbn; [|done].
  destruct (store_directive E parser "metadata" "version" "version" r1)
    as [r2|] eqn:H2; cbn; [|done].
  match goal with |- context [bind ?m _] => destruct m as [ir|] eqn:Hir; cbn; [|done] end.
  destruct (store_directive E parser "options" "python_requires" _ _)
    as [r3|] eqn:H3; cbn; [|done].
  match goal with |- context [bind ?m _] => destruct m as [r4|] eqn:H4; cbn; [|done] end.
  match goal with |- context [bind ?m _] => destruct m as [ex|] eqn:Hex; cbn; [|done] end.
  intros [= <-]. exists parser, r2, r3, r4, ir, ex. repeat split; try done.
  destruct (has_option parser "options" "build_requires");
    [|injection H4 as <-; by left].
  destruct (get parser "options" "build_requires"); cbn in H4; [|done].
  injection H4 as <-. right. eauto.
Qed.

Lemma mapM_Ok_total {A B} (f : A → result B) (xs : list A) (ys : list B) :
  mapM f xs = Ok ys → ∀ x, x ∈ xs → ∃ y, y ∈ ys ∧ f x = Ok y.
Proof.
  revert ys. induction xs as [|x0 xs IH]; intros ys; cbn [mapM].
  - intros _ x Hin. by apply elem_of_nil in Hin.
  - destruct (f x0) as [y0|] eqn:Hx; cbn [bind]; [|done].
    destruct (mapM f xs) as [ys0|]; cbn [bind]; [|done].
    intros [= <-] x [->|Hin]%elem_of_cons.
    + exists y0. split; [by left|done].
    + destruct (IH ys0 eq_refl x Hin) as (y & ? & ?). exists y. split; [by right|done].
Qed.

(** X3: when [parse_setup_cfg] returns, every non-empty line of the
    option [install_requires] was accepted by [init_requirement], and the
    set under [install_requires] is empty exactly when the option has no
    non-empty line; without the option it is empty. *)
Theorem install_requires_are_the_lines (E : env) (path : string)
    (results : gmap string value) :
  parse_setup_cfg E path = Ok (Some results) →
  ∃ parser rs,
    read E path = Ok parser
    ∧ results !! "install_requires" = Some (VReqs rs)
    ∧ if has_option parser "options" "install_requires"
      then ∃ text,
             get parser "options" "install_requires" = Ok text
             ∧ (∀ line, line ∈ split text "
" → line ≠ "" → ∃ r, init_requirement E (strip line) = Ok r)
             ∧ (rs = ∅ ↔ ∀ line, line ∈ split text "
" → line = "")
      else rs = ∅.
Proof.
  intros (parser & r2 & r3 & r4 & rs & extras & Hread & Hrs & H3 & H4 & _ & ->)
    %parse_setup_cfg_inv.
  exists parser, rs. split; [done|]. split.
  - apply store_directive_inv in H3 as [[_ [v ->]]|[_ ->]];
      destruct H4 as [->|[v' ->]]; by simplify_map_eq.
  - destruct (has_option parser "options" "install_requires"); [|by injection Hrs].
    destruct (get parser "options" "install_requires") as [text|]; cbn in Hrs; [|done].
    exists text. split; [done|]. unfold install_requires_of in Hrs.
    destruct (mapM _ _) as [reqs|] eqn:Hmap; cbn in Hrs; [|done].
    injection Hrs as <-.
    assert (∀ line, line ∈ split text "
" → line ≠ "" → ∃ b, b ∈ reqs ∧ from_string (init_requirement E) line = Ok b)
      as Hlines.
    { intros line Hin Hne.
      assert (line ∈ List.filter nonempty (split text "
")) as Hin'.
      { apply list_elem_of_In, filter_In. split; [by apply list_elem_of_In|].
        unfold nonempty. by destruct (String.eqb_spec line ""). }
      by apply (mapM_Ok_total _ _ _ Hmap). }
    split.
    + intros line Hin Hne. destruct (Hlines line Hin Hne) as (b & _ & Hb).
      unfold from_string in Hb.
      destruct (init_requirement E (strip line)) as [r|]; [by exists r|done].
    + split.
      * intros Hempty line Hin. destruct (String.eqb_spec line "") as [|Hne]; [done|].
        destruct (Hlines line Hin Hne) as (b & Hb & _).
        assert (b ∈ (list_to_set reqs : gset Records.BaseRequirement)) as Hb'
          by by apply elem_of_list_to_set.
        rewrite Hempty in Hb'. by apply elem_of_empty in Hb'.
      * intros Hall. rewrite filter_all_empty in Hmap by done.
        by injection Hmap as <-.
Qed.

Lemma install_requires_are_the_lines_witness :
  ∃ parser rs,
    read sample_cfg_env "setup.cfg" = Ok parser
    ∧ sample_results !! "install_requires" = Some (VReqs rs)
    ∧ if has_option parser "options" "install_requires"
      then ∃ text,
             get parser "options" "install_requires" = Ok text
             ∧ (∀ line, line ∈ split text "
" → line ≠ "" → ∃ r, init_requirement sample_cfg_env (strip line) = Ok r)
             ∧ (rs = ∅ ↔ ∀ line, line ∈ split text "
" → line = "")
      else rs = ∅.
Proof.
  apply (install_requires_are_the_lines sample_cfg_env "setup.cfg" sample_results).
  reflexivity.
Defined.

Lemma extras_loop_inv (P : string * list BaseRequirement → Prop) E c names acc es :
  (∀ n reqs, n ∈ names → n ≠ "options" → n ≠ "metadata" → reqs ≠ [] → P (n, reqs)) →
  extras_loop E c names acc = Ok es →
  (∀ x, x ∈ acc → P x) → ∀ x, x ∈ es → P x.
Proof.
  revert acc. induction names as [|n names IH]; intros acc HP; cbn.
  - by intros [= <-].
  - assert (∀ n' reqs, n' ∈ names → n' ≠ "options" → n' ≠ "metadata"
                       → reqs ≠ [] → P (n', reqs)) as HP'.
    { intros. apply HP; try done. by right. }
    destruct (String.eqb_spec n "options") as [->|Hno]; cbn.
    { intros. by eapply (IH acc). }
    destruct (String.eqb_spec n "metadata") as [->|Hnm]; cbn.
    { intros. by eapply (IH acc). }
    destruct (get c "options.extras_require" n); cbn; [|done].
    destruct (section_extras_of E _) as [[|r rs]|]; cbn; [| |done].
    + intros. by eapply (IH acc).
    + intros Hloop Hacc. eapply IH; [done|done|].
      intros x [Hx|Hx]%elem_of_app; [by apply Hacc|].
      apply list_elem_of_singleton in Hx as ->.
      apply HP; [by left|done|done|done].
Qed.

(** X4: every entry of [extras_require] in the result names an option of
    the section [options.extras_require] other than [options] and
    [metadata], and holds at least one requirement: an extra whose lines
    are all empty or comments is left out. *)
Theorem extras_require_entries (E : env) (path : string)
    (results : gmap string value) :
  parse_setup_cfg E path = Ok (Some results) →
  ∃ parser es,
    read E path = Ok parser
    ∧ results !! "extras_require" = Some (VExtras es)
    ∧ ∀ n reqs, (n, reqs) ∈ es →
        reqs ≠ [] ∧ n ≠ "options" ∧ n ≠ "metadata"
        ∧ ∃ names, options parser "options.extras_require" = Ok names ∧ n ∈ names.
Proof.
  intros (parser & r2 & r3 & r4 & rs & es & Hread & _ & _ & _ & Hes & ->)
    %parse_setup_cfg_inv.
  exists parser, es. split; [done|]. split; [by simplify_map_eq|].
  destruct (bool_decide _); [|injection Hes as <-; by intros n reqs ?%elem_of_nil].
  destruct (options parser "options.extras_require") as [names|] eqn:Hnames;
    cbn in Hes; [|done].
  intros n reqs Hin.
  refine (extras_loop_inv
            (λ x, x.2 ≠ [] ∧ x.1 ≠ "options" ∧ x.1 ≠ "metadata"
                  ∧ ∃ names', Ok names = Ok names' ∧ x.1 ∈ names')
            E parser names [] es _ Hes _ (n, reqs) Hin).
  - intros n' reqs' Hn' ???. cbn. eauto 10.
  - by intros x ?%elem_of_nil.
Qed.

Lemma extras_require_entries_witness :
  ∃ parser es,
    read sample_cfg_env "setup.cfg" = Ok parser
    ∧ sample_results !! "extras_require" = Some (VExtras es)
    ∧ ∀ n reqs, (n, reqs) ∈ es →
        reqs ≠ [] ∧ n ≠ "options" ∧ n ≠ "metadata"
        ∧ ∃ names, options parser "options.extras_require" = Ok names ∧ n ∈ names.
Proof.
  apply (extras_require_entries sample_cfg_env "setup.cfg" sample_results).
  reflexivity.
Defined.

End MoreSetupCfg.

(** ** The metadata probe *)

Section MoreExtractors.
Import Records Extractors Measures.

Lemma yields_inv pkg_variants metadata_type n :
  yields pkg_variants metadata_type n = true →
  endswith (splitext (node_name n)).2 metadata_type = true
  ∧ match pkg_variants with
    | Some vs => lower (splitext (node_name n)).1 ∈ vs
    | None => True
    end.
Proof.
  destruct n as [|nm children]; [done|]. cbn.
  destruct (splitext nm) as [stem ext]. cbn.
  intros [Hext Hname]%andb_true_iff. split; [done|].
  destruct pkg_variants; [|done]. by apply bool_decide_eq_true in Hname.
Qed.

Lemma iter_node_yields pkg_variants metadata_type :
  ∀ n path e,
    e ∈ iter_node pkg_variants metadata_type path n →
    endswith (splitext (entry_name e)).2 metadata_type = true
    ∧ match pkg_variants with
      | Some vs => lower (splitext (entry_name e)).1 ∈ vs
      | None => True
      end.
Proof.
  fix IH 1. intros [nm|nm entries] path e; cbn [iter_node].
  - by intros ?%elem_of_nil.
  - intros [Hhere|Hbelow]%elem_of_app.
    + apply list_elem_of_fmap in Hhere as (c & -> & Hc).
      apply list_elem_of_In, filter_In in Hc as [_ Hc].
      by apply yields_inv in Hc.
    + revert Hbelow. induction entries as [|c entries IHentries].
      * by intros ?%elem_of_nil.
      * intros [Hc|Hrest]%elem_of_app; [|by apply IHentries].
        destruct (non_matching metadata_type c); [|by apply elem_of_nil in Hc].
        by apply IH in Hc.
Qed.

(** X5: every directory that [iter_metadata] yields, at whatever depth,
    has a name whose extension ends with the metadata type asked for and,
    when a package name is given, whose lower-cased stem is one of the
    variants of that name. *)
Theorem iter_metadata_yields_matching (E : env) (path : string)
    (pkg_name : option string) (metadata_type : string)
    (dirs : list DirEntry) (e : DirEntry) :
  iter_metadata E path pkg_name metadata_type = Ok dirs →
  e ∈ dirs →
  endswith (splitext (entry_name e)).2 metadata_type = true
  ∧ match pkg_name with
    | Some n => lower (splitext (entry_name e)).1 ∈ get_name_variants E n
    | None => True
    end.
Proof.
  unfold iter_metadata. destruct (scandir E path) as [entries|]; cbn [bind]; [|done].
  intros Heq Hin.
  replace dirs with (iter_node (get_name_variants E <$> pkg_name) metadata_type
                       path (Dir path entries)) in Hin by congruence.
  apply (iter_node_yields _ _ (Dir path entries)) in Hin. by destruct pkg_name.
Qed.

Lemma iter_metadata_yields_matching_witness :
  endswith (splitext "pkgA.dist-info").2 "dist-info" = true
  ∧ lower (splitext "pkgA.dist-info").1
    ∈ get_name_variants (Samples.ext_env Samples.both_conventions) "pkgA".
Proof.
  apply (iter_metadata_yields_matching (Samples.ext_env Samples.both_conventions)
           "/pkg" (Some "pkgA") "dist-info"
           [{| entry_name := "pkgA.dist-info";
               entry_path := "/pkg/build/pkgA.dist-info" |}]
           {| entry_name := "pkgA.dist-info";
              entry_path := "/pkg/build/pkgA.dist-info" |}).
  - reflexivity.
  - apply list_elem_of_In. cbn. auto.
Defined.

(** X6: with a [metadata_type] other than ["wheel"], ["egg"] or [None],
    neither convention is allowed and [get_metadata] returns the empty
    dictionary, whatever directories the probe finds. *)
Theorem get_metadata_unknown_type (E : env) (path : string)
    (pkg_name : option string) (metadata_type : string)
    (found : option DirEntry * option DirEntry) :
  metadata_type ≠ "wheel" → metadata_type ≠ "egg" →
  probe E path pkg_name = Ok found →
  get_metadata E path pkg_name (Some metadata_type) = Ok [].
Proof.
  intros Hw He Hprobe. unfold get_metadata. rewrite Hprobe. cbn.
  destruct found as [egg_dir dist_dir]. unfold candidates, allowed.
  destruct (String.eqb_spec metadata_type "wheel"); [done|].
  destruct (String.eqb_spec metadata_type "egg"); [done|].
  by destruct egg_dir, dist_dir.
Qed.

Lemma get_metadata_unknown_type_witness :
  get_metadata (Samples.ext_env Samples.both_conventions) "/pkg" (Some "pkgA")
    (Some "dist-info")
  = Ok [].
Proof.
  by apply (get_metadata_unknown_type (Samples.ext_env Samples.both_conventions)
              "/pkg" (Some "pkgA") "dist-info"
              (Some {| entry_name := "pkgA.egg-info";
                       entry_path := "/pkg/pkgA.egg-info" |},
               Some {| entry_name := "pkgA.dist-info";
                       entry_path := "/pkg/build/pkgA.dist-info" |})).
Defined.

(** X7: with [metadata_type="egg"] an egg-info directory that the probe
    finds is the matched one even when a dist-info directory is there
    too, and the distribution is read from that directory itself;
    [find_distributions] is not asked. *)
Theorem egg_type_reads_egg_info (E : env) (path : string)
    (pkg_name : option string) (egg_dir : DirEntry) (dist_dir : option DirEntry) :
  probe E path pkg_name = Ok (Some egg_dir, dist_dir) →
  matched_dir E path pkg_name (Some "egg") = Ok (Some egg_dir)
  ∧ get_metadata E path pkg_name (Some "egg")
    = match first (distributions_from_metadata E (abspath E (entry_path egg_dir))) with
      | Some dist => get_metadata_from_dist E dist
      | None => Ok []
      end.
Proof.
  intros Hprobe. unfold matched_dir, get_metadata. rewrite Hprobe. cbn.
  destruct dist_dir; cbn; (split; [done|]); unfold parse_matched; cbn;
    by destruct (first (distributions_from_metadata E _)).
Qed.

Lemma egg_type_reads_egg_info_witness :
  matched_dir (Samples.ext_env Samples.both_conventions) "/pkg" (Some "pkgA")
    (Some "egg")
  = Ok (Some {| entry_name := "pkgA.egg-info";
                entry_path := "/pkg/pkgA.egg-info" |}).
Proof.
  refine (proj1 (egg_type_reads_egg_info (Samples.ext_env Samples.both_conventions)
                   "/pkg" (Some "pkgA")
                   {| entry_name := "pkgA.egg-info";
                      entry_path := "/pkg/pkgA.egg-info" |}
                   (Some {| entry_name := "pkgA.dist-info";
                            entry_path := "/pkg/build/pkgA.dist-info" |}) _)).
  reflexivity.
Defined.

(** ** Markers and the wheel extractor *)

(** X8: the name that [get_extra_name_from_marker] returns is the right
    operand of a comparison on [extra] at the top level of the marker,
    and it returns [None] only when the top level has no such comparison. *)
Theorem extra_name_sound (marker : option (list marker_elem)) (found : option string) :
  get_extra_name_from_marker marker = Ok found →
  ∃ markers, marker = Some markers
    ∧ match found with
      | Some extra => ∃ op, MTuple "extra" op extra ∈ markers
      | None => ∀ op rhs, MTuple "extra" op rhs ∉ markers
      end.
Proof.
  destruct marker as [markers|]; [|done].
  intros Hfound. exists markers. split; [done|].
  assert (first_extra markers = found) as <-.
  { destruct markers; [done|]. by injection Hfound. }
  clear Hfound. induction markers as [|m markers IH]; cbn [first_extra].
  - intros op rhs ?%elem_of_nil. done.
  - destruct m as [lhs op rhs|w|g].
    + destruct (String.eqb lhs "extra") eqn:Heq.
      * apply String.eqb_eq in Heq as ->. exists op. by left.
      * destruct (first_extra markers).
        -- destruct IH as [op' Hin]. exists op'. by right.
        -- apply String.eqb_neq in Heq.
           intros op' rhs' [[= ? _ _]|Hin]%elem_of_cons; [done|]. by eapply IH.
    + destruct (first_extra markers).
      * destruct IH as [op' Hin]. exists op'. by right.
      * intros op' rhs' [?|Hin]%elem_of_cons; [done|]. by eapply IH.
    + destruct (first_extra markers).
      * destruct IH as [op' Hin]. exists op'. by right.
      * intros op' rhs' [?|Hin]%elem_of_cons; [done|]. by eapply IH.
Qed.

Lemma extra_name_sound_witness :
  ∃ markers, req_marker Samples.mock_py2_test = Some markers
    ∧ ∃ op, MTuple "extra" op "test" ∈ markers.
Proof.
  apply (extra_name_sound (req_marker Samples.mock_py2_test) (Some "test")).
  reflexivity.
Defined.

Lemma filed_set_new extra (extras : list (string * list req_obj)) :
  dict_get extra extras = None →
  filed (dict_set extra [] extras) = filed extras.
Proof.
  unfold dict_get. induction extras as [|[k l] extras IH]; [done|].
  simpl. destruct (String.eqb k extra) eqn:Hk; simpl; [done|].
  intros H. by rewrite IH.
Qed.

Lemma filed_append extra l x (extras : list (string * list req_obj)) :
  dict_get extra extras = Some l →
  filed (dict_set extra (l ++ [x])%list extras) = S (filed extras).
Proof.
  unfold dict_get. induction extras as [|[k l'] extras IH]; [done|].
  simpl. destruct (String.eqb k extra) eqn:Hk; simpl.
  - intros [= ->]. rewrite List.length_app. simpl. lia.
  - intros H. rewrite IH by done. lia.
Qed.

Lemma wheel_step_count E requires extras req requires' extras' :
  wheel_step E (requires, extras) req = Ok (requires', extras') →
  List.length requires' + filed extras' = S (List.length requires + filed extras).
Proof.
  unfold wheel_step. destruct (init_requirement E req) as [parsed|]; cbn [bind]; [|done].
  destruct (req_marker parsed) as [markers|].
  - destruct (get_extra_name_from_marker (Some markers)) as [[extra|]|];
      cbn [bind]; [| |done].
    + intros [= <- <-].
      destruct (dict_get extra extras) as [l|] eqn:Hget.
      * rewrite Hget. cbn [default]. rewrite (filed_append _ _ _ _ Hget). lia.
      * rewrite dict_get_set. cbn [default].
        rewrite (filed_append extra [] _ _ (dict_get_set _ _ _)).
        rewrite filed_set_new by done. lia.
    + intros [= <- <-]. rewrite List.length_app. simpl. lia.
  - intros [= <- <-]. rewrite List.length_app. simpl. lia.
Qed.

Lemma wheel_loop_count E reqs : ∀ requires extras requires' extras',
  wheel_loop E (requires, extras) reqs = Ok (requires', extras') →
  List.length requires' + filed extras'
  = List.length reqs + (List.length requires + filed extras).
Proof.
  induction reqs as [|req reqs IH]; intros requires extras requires' extras';
    cbn [wheel_loop].
  - by intros [= <- <-].
  - destruct (wheel_step E (requires, extras) req) as [[r1 e1]|] eqn:Hstep;
      cbn [bind]; [|done].
    intros Hloop%IH. apply wheel_step_count in Hstep. simpl. lia.
Qed.

Lemma filed_declared (names : list string) : ∀ d : list (string * list req_obj),
  filed d = 0 → filed (foldl (λ d k, dict_set k [] d) d names) = 0.
Proof.
  induction names as [|k names IH]; intros d Hd; cbn; [done|]. apply IH.
  clear IH. induction d as [|[k' l] d IHd]; [done|].
  simpl in *. destruct (String.eqb k' k); simpl; [lia|].
  rewrite IHd; lia.
Qed.



End MoreExtractors.

Section MoreExtractors2.
Import Records Extractors.

Lemma dict_set_keeps_keys {V} k k' (v : V) (d : list (string * V)) :
  is_Some (dict_get k d) → is_Some (dict_get k (dict_set k' v d)).
Proof.
  unfold dict_get. induction d as [|[k0 v0] d IH]; simpl.
  - by intros [? ?].
  - destruct (String.eqb k0 k') eqn:Hk'; simpl.
    + apply String.eqb_eq in Hk' as ->.
      destruct (String.eqb k' k); simpl; [by eexists|done].
    + destruct (String.eqb k0 k); simpl; [by eexists|done].
Qed.

Lemma wheel_loop_keeps_keys E k reqs : ∀ requires extras requires' extras',
  wheel_loop E (requires, extras) reqs = Ok (requires', extras') →
  is_Some (dict_get k extras) → is_Some (dict_get k extras').
Proof.
  induction reqs as [|req reqs IH]; intros requires extras requires' extras';
    cbn [wheel_loop].
  - by intros [= <- <-].
  - destruct (wheel_step E (requires, extras) req) as [[r1 e1]|] eqn:Hstep;
      cbn [bind]; [|done].
    intros Hloop Hk. eapply IH; [done|]. revert Hstep. unfold wheel_step.
    destruct (init_requirement E req) as [parsed|]; cbn [bind]; [|done].
    destruct (req_marker parsed) as [markers|]; [|by intros [= <- <-]].
    destruct (get_extra_name_from_marker (Some markers)) as [[extra|]|];
      cbn [bind]; [| |done]; intros [= <- <-]; [|done].
    apply dict_set_keeps_keys. by destruct (dict_get extra extras); [|apply dict_set_keeps_keys].
Qed.

Lemma declared_keys (names : list string) k : ∀ d : list (string * list req_obj),
  k ∈ names ∨ is_Some (dict_get k d) →
  is_Some (dict_get k (foldl (λ d k, dict_set k [] d) d names)).
Proof.
  induction names as [|n names IH]; intros d; cbn [foldl].
  - intros [?%elem_of_nil|?]; done.
  - intros [[->|Hin]%elem_of_cons|Hd]; apply IH; auto.
    + right. rewrite dict_get_set. by eexists.
    + right. by apply dict_set_keeps_keys.
Qed.

(** X10: every extra that the wheel's metadata declares is a key of the
    returned [extras], also when no requirement is filed under it. *)
Theorem wheel_declared_extras_present (E : env) (wheel_path : string)
    (metadata : WheelMetadata) (result : list (string * mvalue)) (extra : string) :
  Wheel E wheel_path = Some metadata →
  get_metadata_from_wheel E wheel_path = Ok result →
  extra ∈ wm_extras metadata →
  ∃ extras, dict_get "extras" result = Some (MDict extras)
            ∧ is_Some (dict_get extra extras).
Proof.
  intros Hwheel. unfold get_metadata_from_wheel. rewrite Hwheel.
  destruct (wheel_loop E _ _) as [[requires extras]|] eqn:Hloop; cbn [bind]; [|done].
  intros [= <-] Hin. exists extras. split; [done|].
  eapply wheel_loop_keeps_keys; [done|]. apply declared_keys. by left.
Qed.

(** X11: [ensure_reqs] hands back a list of requirement objects as it
    is, without parsing anything. *)
Theorem ensure_reqs_parsed (E : env) (reqs : list Requirement) :
  ensure_reqs E (RParsed <$> reqs) = Ok reqs.
Proof.
  induction reqs as [|r reqs IH]; [done|].
  change (bind (ensure_reqs E (RParsed <$> reqs)) (λ rs, Ok (r :: rs))
          = Ok (r :: reqs)).
  by rewrite IH.
Qed.

Lemma dict_get_set_ne {V} (k k' : string) (v : V) (d : list (string * V)) :
  k' ≠ k → dict_get k (dict_set k' v d) = dict_get k d.
Proof.
  intros Hne. apply String.eqb_neq in Hne. unfold dict_get.
  induction d as [|[k0 v0] d IH]; simpl.
  - by rewrite Hne.
  - destruct (String.eqb k0 k') eqn:Hk0; simpl.
    + apply String.eqb_eq in Hk0 as ->. by rewrite Hne.
    + by destruct (String.eqb k0 k).
Qed.

Lemma dist_loop_keys E items : ∀ deps extras deps' extras' k,
  dist_loop E (deps, extras) items = Ok (deps', extras') →
  is_Some (dict_get k extras') →
  is_Some (dict_get k extras)
  ∨ (k ≠ "" ∧ startswith k ":python_version" = false
     ∧ ∃ reqs, (Some k, reqs) ∈ items).
Proof.
  induction items as [|[key reqs] items IH]; intros deps extras deps' extras' k;
    cbn [dist_loop].
  - intros [= <- <-]. by left.
  - destruct (dist_step E (deps, extras) (key, reqs)) as [[d1 e1]|] eqn:Hstep;
      cbn [bind]; [|done].
    intros Hloop Hk. destruct (IH _ _ _ _ _ Hloop Hk) as [Hk1|(?&?&reqs'&?)].
    2:{ right. repeat split; [done..|]. exists reqs'. by right. }
    revert Hstep. unfold dist_step. destruct key as [key|]; [|intros [= <- <-]; by left].
    destruct (startswith key ":python_version") eqn:Hpv.
    + destruct (ensure_reqs E _); cbn [bind]; [|done]. intros [= <- <-]. by left.
    + destruct (ensure_reqs E _); cbn [bind]; [|done].
      destruct key as [|c key]; intros [= <- <-]; [by left|].
      destruct (String.eqb_spec (String c key) k) as [<-|Hne].
      * right. repeat split; [done|done|]. exists reqs. by left.
      * left. by rewrite dict_get_set_ne in Hk1.
Qed.

(** X12: what [get_metadata_from_dist] returns under ["requires"] is
    [dist.requires()], or nothing when that call raises: the dependency
    map adds nothing to it.  The keys of ["extras"] are keys of the
    dependency map that are not empty and do not start with
    [:python_version]. *)
Theorem dist_requires_and_extras (E : env) (dist : Distribution)
    (result : list (string * mvalue)) :
  get_metadata_from_dist E dist = Ok result →
  dict_get "requires" result
  = Some (MList (RParsed <$> match dist_requires dist with
                             | Ok reqs => reqs
                             | Raise _ => []
                             end))
  ∧ ∃ extras,
      dict_get "extras" result = Some (MDict extras)
      ∧ ∀ k, is_Some (dict_get k extras) →
          k ≠ "" ∧ startswith k ":python_version" = false
          ∧ ∃ dep_map reqs, dist_build_dep_map dist = Ok dep_map
                            ∧ (Some k, reqs) ∈ dep_map.
Proof.
  unfold get_metadata_from_dist.
  destruct (dist_loop E _ _) as [[deps extras]|] eqn:Hloop; cbn [bind]; [|done].
  intros [= <-]. split; [done|]. exists extras. split; [done|].
  intros k Hk. destruct (dist_loop_keys _ _ _ _ _ _ _ Hloop Hk) as [[? [=]]|(?&?&reqs&Hin)].
  repeat split; [done..|].
  destruct (dist_build_dep_map dist) as [dep_map|]; [eauto|].
  by apply elem_of_nil in Hin.
Qed.

Lemma dist_requires_and_extras_witness :
  dict_get "requires" Samples.dist_result
  = Some (MList (RParsed <$> match dist_requires Samples.egg_dist with
                             | Ok reqs => reqs
                             | Raise _ => []
                             end))
  ∧ ∃ extras,
      dict_get "extras" Samples.dist_result = Some (MDict extras)
      ∧ ∀ k, is_Some (dict_get k extras) →
          k ≠ "" ∧ startswith k ":python_version" = false
          ∧ ∃ dep_map reqs, dist_build_dep_map Samples.egg_dist = Ok dep_map
                            ∧ (Some k, reqs) ∈ dep_map.
Proof.
  apply (dist_requires_and_extras (Samples.ext_env []) Samples.egg_dist
           Samples.dist_result).
  reflexivity.
Defined.

Lemma wheel_declared_extras_present_witness :
  ∃ extras, dict_get "extras" Samples.wheel_result = Some (MDict extras)
            ∧ is_Some (dict_get "docs" extras).
Proof.
  apply (wheel_declared_extras_present (Samples.ext_env [])
           "/tmp/build/pkgA-1.0-py3-none-any.whl" Samples.sample_wheel
           Samples.wheel_result "docs"); [reflexivity|reflexivity|].
  apply list_elem_of_In. simpl. auto.
Defined.

End MoreExtractors2.

(** ** The log filter *)

Section LogProperties.
Import Logs.

Lemma emit_all_filtered f msgs : ∀ p,
  _log p = filtered f →
  emit_all msgs p = {| _log := filtered f; written := (written p ++ loud f msgs)%list |}.
Proof.
  unfold emit_all, loud. induction msgs as [|[level msg] msgs IH]; intros [g w] Hg;
    cbn [_log] in Hg; subst g; cbn [foldl List.filter flat_map fst snd written].
  - by rewrite app_nil_r.
  - rewrite IH by done. f_equal. unfold emit, filtered. cbn [written _log].
    destruct (ERROR <=? level)%nat; cbn [flat_map fst snd].
    + by rewrite <-app_assoc.
    + by rewrite app_nil_r.
Qed.

(** X13: under [with _suppress_distutils_logs()], a body that logs and
    returns writes what the logger installed before would have written
    for the messages at [ERROR] and above, and nothing for the others;
    after the block that logger is installed again. *)
Theorem suppress_filters_then_restores (msgs : list (nat * string)) (p : process) :
  _suppress_distutils_logs (λ q, (emit_all msgs q, Ok tt)) p
  = ({| _log := _log p; written := (written p ++ loud (_log p) msgs)%list |}, Ok tt).
Proof.
  unfold _suppress_distutils_logs.
  by rewrite (emit_all_filtered (_log p)).
Qed.

(** X14: the generator has no [finally]: when the body raises, the
    exception goes on and the filter stays installed, so a message below
    [ERROR] that is logged after the block is still dropped. *)
Theorem suppress_stays_after_raise {A} (body : process → process * result A)
    (p : process) (e : exn) :
  (∀ q, _log (body q).1 = _log q) →
  (body (install (filtered (_log p)) p)).2 = Raise e →
  let after := (_suppress_distutils_logs body p).1 in
  (_suppress_distutils_logs body p).2 = Raise e
  ∧ _log after = filtered (_log p)
  ∧ ∀ level msg, (level < ERROR)%nat → emit level msg after = after.
Proof.
  intros Hkeep Hraise. unfold _suppress_distutils_logs.
  specialize (Hkeep (install (filtered (_log p)) p)).
  destruct (body (install (filtered (_log p)) p)) as [p' [a|e']]; simpl in *; [done|].
  injection Hraise as ->. repeat split; [done|].
  intros level msg Hlt. destruct p' as [g w]. simpl in Hkeep. subst g.
  unfold emit. cbn [_log written]. unfold filtered.
  destruct (Nat.leb_spec ERROR level); [lia|]. by rewrite app_nil_r.
Qed.

Lemma suppress_stays_after_raise_witness :
  let body := λ q, (emit INFO "running egg_info" q, @Raise unit OSError) in
  let after := (_suppress_distutils_logs body verbose).1 in
  (_suppress_distutils_logs body verbose).2 = Raise OSError
  ∧ _log after = filtered (_log verbose)
  ∧ ∀ level msg, (level < ERROR)%nat → emit level msg after = after.
Proof.
  apply (suppress_stays_after_raise
           (λ q, (emit INFO "running egg_info" q, @Raise unit OSError))
           verbose OSError); reflexivity.
Defined.

End LogProperties.

(** ** Working directories *)

Section DirProperties.
Import Extractors Dirs.

Lemma mkdir_p_outcome E path d :
  match mkdir_p E path d with
  | (d', Ok _) =>
      refused E path = false ∧ made d' = (made d ++ [path])%list
      ∧ temps d' = temps d
  | (d', Raise e) => e = OSError ∧ d' = d ∧ refused E path = true
  end.
Proof. unfold mkdir_p. by destruct (refused E path). Qed.

Lemma create_tracked_tempdir_outcome E prefix suffix d :
  match create_tracked_tempdir E prefix suffix d with
  | (d', Ok path) =>
      path = tempdir E (temps d) prefix suffix ∧ refused E path = false
      ∧ made d' = (made d ++ [path])%list ∧ temps d' = S (temps d)
  | (d', Raise e) =>
      e = OSError ∧ d' = d ∧ refused E (tempdir E (temps d) prefix suffix) = true
  end.
Proof.
  unfold create_tracked_tempdir.
  by destruct (refused E (tempdir E (temps d) prefix suffix)) eqn:H.
Qed.

(** X15: [_get_src_dir] raises [TypeError] only when [root] is [None]
    and neither [PIP_SRC] nor [VIRTUAL_ENV] decides: it is the error of
    [os.path.join(None, "src")].  Every other error is the [OSError] of a
    directory that could not be made.  Whenever it raises, no directory
    has been made; when it returns, the path it returns is the directory
    made last. *)
Theorem get_src_dir_outcome (E : env) (root : option string) (d : disk) :
  match _get_src_dir E root d with
  | (d', Ok path) =>
      list.last (made d') = Some path ∧ made d `prefix_of` made d'
      ∧ refused E path = false
      ∧ (root = None → temps d' = temps d)
  | (d', Raise e) =>
      d' = d
      ∧ ((e = TypeError ∧ root = None
          ∧ environ E "VIRTUAL_ENV" = None
          ∧ (environ E "PIP_SRC" = None ∨ environ E "PIP_SRC" = Some ""))
         ∨ (e = OSError ∧ ∃ path, refused E path = true))
  end.
Proof.
  unfold _get_src_dir, get_src_dir_body, join_src, create_tracked_tempdir, mkdir_p.
  destruct (environ E "PIP_SRC") as [[|c src]|];
    destruct (environ E "VIRTUAL_ENV") as [venv|]; destruct root as [root|];
    repeat match goal with
           | |- context [refused E ?p] =>
               let H := fresh "Href" in destruct (refused E p) eqn:H
           end;
    cbn [made temps]; rewrite ?last_snoc;
    repeat split; eauto 10; try done;
    try (eexists; rewrite <-?app_assoc; reflexivity).
Qed.

Lemma then_Ok {A B} (m : disk → disk * result A) (k : A → disk → disk * result B)
    d d' b :
  then_ m k d = (d', Ok b) →
  ∃ d0 a, m d = (d0, Ok a) ∧ k a d0 = (d', Ok b).
Proof. unfold then_. destruct (m d) as [d0 [a|e]]; [eauto|done]. Qed.

Lemma then_Raise {A B} (m : disk → disk * result A) (k : A → disk → disk * result B)
    d d' e :
  then_ m k d = (d', Raise e) →
  m d = (d', Raise e) ∨ ∃ d0 a, m d = (d0, Ok a) ∧ k a d0 = (d', Raise e).
Proof. unfold then_. destruct (m d) as [d0 [a|e0]]; [eauto|intros [= <- <-]; eauto]. Qed.

Lemma get_src_dir_Raise E root d d' e :
  _get_src_dir E (Some root) d = (d', Raise e) → e = OSError.
Proof.
  intros H. pose proof (get_src_dir_outcome E (Some root) d) as Hout.
  rewrite H in Hout. by destruct Hout as [_ [(_ & ? & _)|[-> _]]].
Qed.

Lemma get_src_dir_Ok E root d d' path :
  _get_src_dir E root d = (d', Ok path) →
  list.last (made d') = Some path ∧ made d `prefix_of` made d'.
Proof.
  intros H. pose proof (get_src_dir_outcome E root d) as Hout.
  rewrite H in Hout. by destruct Hout as (? & ? & _).
Qed.

(** X16: [_prepare_wheel_building_kwargs] raises nothing but the
    [OSError] of a directory that could not be made: the [TypeError] of
    [_get_src_dir] is out of its reach, because it calls it with a root
    only.  It returns whenever every directory can be made.  What it
    returns are the four keys in this order; [download_dir] and
    [wheel_download_dir] are the two directories under [CACHE_DIR], made
    first; a [src_dir] that is passed comes back as it is; and
    [build_dir] is a temporary directory of its own, made last. *)
Theorem prepare_wheel_building_kwargs_returns (E : env) (ireq : option bool)
    (src_root src_dir : option string) (editable : bool) (d : disk) :
  let download_dir := path_join (CACHE_DIR E) "pkgs" in
  let wheel_download_dir := path_join (CACHE_DIR E) "wheels" in
  match _prepare_wheel_building_kwargs E ireq src_root src_dir editable d with
  | (d', Ok kwargs) =>
      ∃ build_dir src_dir',
        kwargs = [("build_dir", build_dir); ("src_dir", src_dir');
                  ("download_dir", download_dir);
                  ("wheel_download_dir", wheel_download_dir)]
        ∧ (∀ dir, src_dir = Some dir → src_dir' = dir)
        ∧ (made d ++ [download_dir; wheel_download_dir])%list `prefix_of` made d'
        ∧ list.last (made d') = Some build_dir
        ∧ temps d' = S (Nat.pred (temps d'))
        ∧ build_dir = tempdir E (Nat.pred (temps d')) "reqlib-build" ""
  | (d', Raise e) => e = OSError ∧ ∃ path, refused E path = true
  end
  ∧ ((∀ path, refused E path = false) →
     is_ok (_prepare_wheel_building_kwargs E ireq src_root src_dir editable d).2
     = true).
Proof.
  intros download_dir wheel_download_dir.
  unfold _prepare_wheel_building_kwargs. fold download_dir wheel_download_dir.
  split.
  - destruct (then_ _ _ d) as [d' [kwargs|e]] eqn:Hrun.
    + apply then_Ok in Hrun as (d1 & [] & H1 & Hrun).
      apply then_Ok in Hrun as (d2 & [] & H2 & Hrun).
      apply then_Ok in Hrun as (d3 & src1 & H3 & Hrun).
      apply then_Ok in Hrun as (d4 & src2 & H4 & Hrun).
      apply then_Ok in Hrun as (d5 & build_dir & H5 & Hrun).
      injection Hrun as <- <-.
      pose proof (mkdir_p_outcome E download_dir d) as O1. rewrite H1 in O1.
      pose proof (mkdir_p_outcome E wheel_download_dir d1) as O2. rewrite H2 in O2.
      pose proof (create_tracked_tempdir_outcome E "reqlib-build" "" d4) as O5.
      rewrite H5 in O5.
      destruct O1 as (_ & M1 & _), O2 as (_ & M2 & _), O5 as (-> & _ & M5 & T5).
      assert (made d2 `prefix_of` made d3) as P3.
      { destruct src_dir as [dir|]; [by injection H3 as <- <-|].
        destruct (editable && _); [by injection H3 as <- <-|].
        destruct (bool_decide (ireq = None) && _).
        { apply then_Ok in H3 as (d0 & p & Hsrc & [= <- <-]).
          by apply get_src_dir_Ok in Hsrc as [_ ?]. }
        destruct (bool_decide (ireq = Some true) && _).
        { apply then_Ok in H3 as (d0 & p & Hsrc & [= <- <-]).
          by apply get_src_dir_Ok in Hsrc as [_ ?]. }
        apply then_Ok in H3 as (d0 & p & Hsrc & [= <- <-]).
        pose proof (create_tracked_tempdir_outcome E "reqlib-src" "" d2) as O.
        rewrite Hsrc in O. destruct O as (_ & _ & -> & _). by apply prefix_app_r. }
      assert (made d3 `prefix_of` made d4) as P4.
      { destruct src1 as [dir|]; [by injection H4 as <- <-|].
        pose proof (create_tracked_tempdir_outcome E "reqlib-src" "" d3) as O.
        rewrite H4 in O. destruct O as (_ & _ & -> & _). by apply prefix_app_r. }
      exists (tempdir E (temps d4) "reqlib-build" ""), src2. repeat split.
      * intros dir ->. injection H3 as <- <-. by injection H4 as <- <-.
      * rewrite M5. apply prefix_app_r. etrans; [|exact P4]. etrans; [|exact P3].
        rewrite M2, M1, <-app_assoc. done.
      * by rewrite M5, last_snoc.
      * by rewrite T5.
      * by rewrite T5.
    + assert (∀ p s d0 d1 e0,
                create_tracked_tempdir E p s d0 = (d1, Raise e0) →
                e0 = OSError ∧ ∃ path, refused E path = true) as Htmp.
      { intros p s d0 d1 e0 H.
        pose proof (create_tracked_tempdir_outcome E p s d0) as O. rewrite H in O.
        destruct O as (-> & _ & ?). eauto. }
      assert (∀ p d0 d1 e0,
                mkdir_p E p d0 = (d1, Raise e0) →
                e0 = OSError ∧ ∃ path, refused E path = true) as Hmk.
      { intros p d0 d1 e0 H.
        pose proof (mkdir_p_outcome E p d0) as O. rewrite H in O.
        destruct O as (-> & _ & ?). eauto. }
      assert (∀ root d0 d1 e0,
                _get_src_dir E (Some root) d0 = (d1, Raise e0) →
                e0 = OSError ∧ ∃ path, refused E path = true) as Hsrc.
      { intros root d0 d1 e0 H.
        pose proof (get_src_dir_outcome E (Some root) d0) as O. rewrite H in O.
        destruct O as [_ [(_ & ? & _)|[-> ?]]]; [done|eauto]. }
      apply then_Raise in Hrun as [H|(d1 & [] & _ & Hrun)]; [by eapply Hmk|].
      apply then_Raise in Hrun as [H|(d2 & [] & _ & Hrun)]; [by eapply Hmk|].
      apply then_Raise in Hrun as [H|(d3 & src1 & _ & Hrun)].
      { destruct src_dir as [dir|]; [done|].
        destruct src_root as [root|]; cbn [is_Some bool_decide] in H.
        2:{ rewrite !bool_decide_eq_false_2, !andb_false_r in H by (by intros [? ?]).
            apply then_Raise in H as [H|(? & ? & _ & ?)]; [by eapply Htmp|done]. }
        rewrite !bool_decide_eq_true_2, !andb_true_r in H by (by eexists).
        destruct editable; [done|].
        destruct (bool_decide (ireq = None)).
        { apply then_Raise in H as [H|(? & ? & _ & ?)]; [by eapply Hsrc|done]. }
        destruct (bool_decide (ireq = Some true)).
        { apply then_Raise in H as [H|(? & ? & _ & ?)]; [by eapply Hsrc|done]. }
        apply then_Raise in H as [H|(? & ? & _ & ?)]; [by eapply Htmp|done]. }
      apply then_Raise in Hrun as [H|(d4 & src2 & _ & Hrun)].
      { destruct src1; [done|]. by eapply Htmp. }
      apply then_Raise in Hrun as [H|(? & ? & _ & ?)]; [by eapply Htmp|done].
  - intros Hfree.
    unfold then_, _get_src_dir, get_src_dir_body, join_src, create_tracked_tempdir,
      mkdir_p.
    rewrite !Hfree.
    destruct src_dir as [dir|]; [by rewrite ?Hfree|].
    destruct editable; destruct src_root as [root|]; destruct ireq as [[|]|];
      cbn [andb bool_decide decide_rel];
      try (destruct (environ E "PIP_SRC") as [[|c src]|];
           destruct (environ E "VIRTUAL_ENV") as [venv|]);
      simpl; rewrite ?Hfree; simpl; rewrite ?Hfree; done.
Qed.

(** X17: unless the build is editable, the text of [src_root] is not
    used: with no [src_dir] given, any two roots give the same
    directories. *)
Theorem prepare_ignores_src_root (E : env) (ireq : option bool)
    (root1 root2 : string) (d : disk) :
  _prepare_wheel_building_kwargs E ireq (Some root1) None false d
  = _prepare_wheel_building_kwargs E ireq (Some root2) None false d.
Proof.
  unfold _prepare_wheel_building_kwargs, _get_src_dir, get_src_dir_body.
  destruct ireq as [[|]|]; simpl; reflexivity.
Qed.

End DirProperties.

(** ** The PEP 517 build *)

Section Pep517Properties.
Import Pep517.

(** X18: once [get_pyproject] has answered, the build environment is
    entered first and left last, whichever stage raises; the first thing
    done inside is the installation of the requirements that
    [pyproject.toml] lists.  Without an answer nothing is done. *)
Theorem build_env_entered_and_left (E : env) (source_dir build_dir : string)
    (config_settings : option (list (string * list string))) (dist_type : string) :
  match get_pyproject E source_dir with
  | Some (requires, _) =>
      ∃ t, (build_pep517 E source_dir build_dir config_settings dist_type).1
           = (EnterEnv :: PipInstall requires :: t ++ [ExitEnv])%list
           ∧ Forall inner t
  | None =>
      build_pep517 E source_dir build_dir config_settings dist_type
      = ([], Raise TypeError)
  end.
Proof.
  unfold build_pep517. destruct (get_pyproject E source_dir) as [[requires backend]|];
    [|done].
  unfold with_BuildEnv, then_, act.
  destruct (pip_install E requires); simpl.
  2:{ exists []. by split. }
  destruct (get_requires_for_build E _ _) as [reqs|]; simpl.
  2:{ eexists [_]. split; [done|]. repeat constructor; done. }
  destruct (pip_install E reqs); simpl.
  2:{ eexists [_; _]. split; [done|]. repeat constructor; done. }
  eexists [_; _; _]. split; [done|]. repeat constructor; done.
Qed.

(** X19: the build hook is called only after both installations and
    the [get_requires] hook have succeeded, with the [build_dir] that was
    passed, and what it returns or raises is the outcome of
    [build_pep517].  The hooks are those for a source distribution when
    [dist_type] is ["sdist"], and those for a wheel for every other
    value. *)
Theorem build_hook_called_last (E : env) (source_dir build_dir : string)
    (config_settings : option (list (string * list string))) (dist_type : string)
    (kind : hook_kind) (dir : string) :
  Build kind dir
    ∈ (build_pep517 E source_dir build_dir config_settings dist_type).1 →
  ∃ requires backend reqs,
    get_pyproject E source_dir = Some (requires, backend)
    ∧ kind = (if String.eqb dist_type "sdist" then ForSdist else ForWheel)
    ∧ dir = build_dir
    ∧ pip_install E requires = Ok tt
    ∧ get_requires_for_build E kind (default [] config_settings) = Ok reqs
    ∧ pip_install E reqs = Ok tt
    ∧ build_pep517 E source_dir build_dir config_settings dist_type
      = ([EnterEnv; PipInstall requires; GetRequires kind; PipInstall reqs;
          Build kind build_dir; ExitEnv],
         build_hook E kind build_dir (default [] config_settings)).
Proof.
  unfold build_pep517. destruct (get_pyproject E source_dir) as [[requires backend]|];
    [|by intros ?%elem_of_nil].
  unfold with_BuildEnv, then_, act.
  destruct (pip_install E requires) as [[]|] eqn:H1; simpl.
  2:{ intros Hin. repeat (apply elem_of_cons in Hin as [?|Hin]; [done|]).
      by apply elem_of_nil in Hin. }
  destruct (get_requires_for_build E _ _) as [reqs|] eqn:H2; simpl.
  2:{ intros Hin. repeat (apply elem_of_cons in Hin as [?|Hin]; [done|]).
      by apply elem_of_nil in Hin. }
  destruct (pip_install E reqs) as [[]|] eqn:H3; simpl.
  2:{ intros Hin. repeat (apply elem_of_cons in Hin as [?|Hin]; [done|]).
      by apply elem_of_nil in Hin. }
  intros Hin.
  assert (Build kind dir
          = Build (if String.eqb dist_type "sdist" then ForSdist else ForWheel)
              build_dir) as [= -> ->].
  { repeat (apply elem_of_cons in Hin as [?|Hin]; [done|]).
    by apply elem_of_nil in Hin. }
  exists requires, backend, reqs. by repeat split.
Qed.

Lemma build_hook_called_last_witness :
  ∃ requires backend reqs,
    get_pyproject working "/pkg" = Some (requires, backend)
    ∧ ForWheel = (if String.eqb "bdist" "sdist" then ForSdist else ForWheel)
    ∧ "/tmp/build" = "/tmp/build"
    ∧ pip_install working requires = Ok tt
    ∧ get_requires_for_build working ForWheel (default [] None) = Ok reqs
    ∧ pip_install working reqs = Ok tt
    ∧ build_pep517 working "/pkg" "/tmp/build" None "bdist"
      = ([EnterEnv; PipInstall requires; GetRequires ForWheel; PipInstall reqs;
          Build ForWheel "/tmp/build"; ExitEnv],
         build_hook working ForWheel "/tmp/build" (default [] None)).
Proof.
  apply (build_hook_called_last working "/pkg" "/tmp/build" None "bdist"
           ForWheel "/tmp/build").
  apply list_elem_of_In. simpl. auto 10.
Defined.

End Pep517Properties.
